(** * VideoDownloader: the download worker and the sequential queue of main.py

    A shallow embedding of [src/main.py]: the quality preset table, the
    [DownloadWorker] (progress hook and [run]) and the queue operations of
    [MainWindow], with the properties of the specification proved about them.

    Conventions of the embedding.
    - A Python [str] is a Rocq [string]; its characters are the code points
      below 256, and the tables of [str.isspace], [str.splitlines] and
      [str.lower] are the ones of Python on that range.
    - A Python [float] is a binary64 number of [SpecFloat]; a Python [int] is
      a [Z].
    - A raised exception is a value of [exn]; code that can raise returns a
      [result].
    - Qt signals are recorded as the list of emitted [signal]s, in order. *)

From Stdlib Require Import ZArith NArith Lia Bool List String Ascii.
From Stdlib Require Import Floats.SpecFloat.
From Stdlib Require Import Numbers.DecimalString.
From Stdlib Require Import Sorting.Sorted.
From stdpp Require Import base list.
From Equations Require Import Equations.
Import ListNotations.

Local Open Scope string_scope.
Local Open Scope list_scope.

(* ===================================================================== *)
(** * Python exceptions and fallible computations *)
(* ===================================================================== *)

(** The two [except] clauses of [DownloadWorker.run] tell [DownloadError]
    (of yt_dlp.utils) from every other [Exception]; the class name of the
    latter is kept for documentation.  The exceptions are the instances of
    [Exception]: [run] executes on a worker thread, where Python delivers no
    [KeyboardInterrupt], and none of the calls it makes exits the
    interpreter. *)
Inductive exn_class :=
  | DownloadError
  | OtherException (name : string).

Record exn := Exn { exn_cls : exn_class; exn_msg : string }.

Inductive result (A : Type) :=
  | Ok (a : A)
  | Raise (e : exn).
Arguments Ok {A} a.
Arguments Raise {A} e.

Definition bind {A B} (r : result A) (k : A -> result B) : result B :=
  match r with
  | Ok a => k a
  | Raise e => Raise e
  end.

Notation "'let*' x ':=' r 'in' k" := (bind r (fun x => k))
  (at level 10, x name, r at level 100, k at level 200).

Definition is_DownloadError (e : exn) : bool :=
  match exn_cls e with
  | DownloadError => true
  | OtherException _ => false
  end.

(* ===================================================================== *)
(** * Python strings *)
(* ===================================================================== *)

Module PyStr.

Definition ord (c : ascii) : N := N_of_ascii c.

(** [str.isspace] on one character: U+0009..U+000D, U+001C..U+001F, U+0020,
    U+0085 and U+00A0. *)
Definition isspace (c : ascii) : bool :=
  let n := ord c in
  ((9 <=? n) && (n <=? 13) || (28 <=? n) && (n <=? 31)
   || (n =? 32) || (n =? 133) || (n =? 160))%N.

(** The line boundaries of [str.splitlines]: \n \v \f \r, U+001C..U+001E and
    U+0085. *)
Definition is_linebreak (c : ascii) : bool :=
  let n := ord c in
  ((10 <=? n) && (n <=? 13) || (28 <=? n) && (n <=? 30) || (n =? 133))%N.

Definition CR : ascii := ascii_of_N 13.
Definition LF : ascii := ascii_of_N 10.

Fixpoint lstrip (s : string) : string :=
  match s with
  | EmptyString => EmptyString
  | String c r => if isspace c then lstrip r else s
  end.

Fixpoint rstrip (s : string) : string :=
  match s with
  | EmptyString => EmptyString
  | String c r =>
      match rstrip r with
      | EmptyString => if isspace c then EmptyString else String c EmptyString
      | r' => String c r'
      end
  end.

(** [s.strip()] *)
Definition strip (s : string) : string := rstrip (lstrip s).

(** Truth value of a string: [bool(s)]. *)
Definition truthy (s : string) : bool :=
  match s with
  | EmptyString => false
  | String _ _ => true
  end.

(** [s.splitlines()]: [cur] is the line being read.  A carriage return
    followed by a line feed is one boundary; no empty line is produced after
    the last boundary. *)
Fixpoint splitlines_from (cur : string) (s : string) : list string :=
  match s with
  | EmptyString =>
      match cur with
      | EmptyString => []
      | _ => [cur]
      end
  | String c r =>
      if is_linebreak c then
        cur :: match r with
               | String c' r' =>
                   if (Ascii.eqb c CR && Ascii.eqb c' LF)%bool
                   then splitlines_from EmptyString r'
                   else splitlines_from EmptyString r
               | EmptyString => []
               end
      else splitlines_from (cur ++ String c EmptyString) r
  end.

Definition splitlines (s : string) : list string :=
  splitlines_from EmptyString s.

(** [str.lower] on one character: A..Z, and U+00C0..U+00DE but the
    multiplication sign U+00D7. *)
Definition lower_char (c : ascii) : ascii :=
  let n := ord c in
  if ((65 <=? n) && (n <=? 90)
      || (192 <=? n) && (n <=? 222) && negb (n =? 215))%N
  then ascii_of_N (n + 32) else c.

Fixpoint lower (s : string) : string :=
  match s with
  | EmptyString => EmptyString
  | String c r => String (lower_char c) (lower r)
  end.

(** [needle in s] *)
Fixpoint contains (needle s : string) : bool :=
  String.prefix needle s ||
  match s with
  | EmptyString => false
  | String _ r => contains needle r
  end.

(** [str(n)] for an [int]. *)
Definition str_of_int (n : Z) : string :=
  NilZero.string_of_int (Z.to_int n).

End PyStr.

(* ===================================================================== *)
(** * The quality preset table *)
(* ===================================================================== *)

Module Presets.

(** A Python [dict] whose order of insertion is observable (the combo boxes
    list the keys) is an association list. *)
Definition dict (V : Type) := list (string * V).

Fixpoint dict_lookup {V} (d : dict V) (k : string) : option V :=
  match d with
  | [] => None
  | (k', v) :: d' => if String.eqb k' k then Some v else dict_lookup d' k
  end.

(** [d.get(k, dflt)] *)
Definition dict_get {V} (d : dict V) (k : string) (dflt : V) : V :=
  match dict_lookup d k with
  | Some v => v
  | None => dflt
  end.

(** [d[k]], raising [KeyError] on a missing key. *)
Definition dict_getitem {V} (d : dict V) (k : string) : result V :=
  match dict_lookup d k with
  | Some v => Ok v
  | None => Raise (Exn (OtherException "KeyError") k)
  end.

(** [k in d] *)
Definition dict_mem {V} (d : dict V) (k : string) : bool :=
  match dict_lookup d k with
  | Some _ => true
  | None => false
  end.

Definition dict_keys {V} (d : dict V) : list string := map fst d.

(** The values of a preset: a format selector, or a list of post-processor
    descriptions (each a dict of strings). *)
Inductive preset_value :=
  | PStr (s : string)
  | PSteps (steps : list (dict string)).

Definition preset := dict preset_value.

Definition DEFAULT_PRESET : string := "Best (Video + Audio)".

Definition QUALITY_PRESETS : dict preset :=
  [ ("Best (Video + Audio)", [("format", PStr "best")]);
    ("1080p (MP4)",
       [("format", PStr "bestvideo[height<=1080]+bestaudio/best[height<=1080]/best");
        ("merge_output_format", PStr "mp4")]);
    ("720p (MP4)",
       [("format", PStr "bestvideo[height<=720]+bestaudio/best[height<=720]/best");
        ("merge_output_format", PStr "mp4")]);
    ("Audio Only (MP3)",
       [("format", PStr "bestaudio/best");
        ("postprocessors",
           PSteps [[("key", "FFmpegExtractAudio");
                    ("preferredcodec", "mp3");
                    ("preferredquality", "192")]])]) ].

(** Lines 112-114 of [DownloadWorker.run]:
    [QUALITY_PRESETS.get(name, QUALITY_PRESETS["Best (Video + Audio)"])].
    The default argument is evaluated first and can raise [KeyError]. *)
Definition resolve (name : string) : result preset :=
  let* dflt := dict_getitem QUALITY_PRESETS "Best (Video + Audio)" in
  Ok (dict_get QUALITY_PRESETS name dflt).

End Presets.

(* ===================================================================== *)
(** * Python numbers: int, float and their formatting *)
(* ===================================================================== *)

Module PyNum.

(** binary64 *)
Definition prec : Z := 53.
Definition emax : Z := 1024.

Definition float := spec_float.

Definition fzero : float := S754_zero false.

Definition is_inf (x : float) : bool :=
  match x with
  | S754_infinity _ => true
  | _ => false
  end.

Definition is_fzero (x : float) : bool :=
  match x with
  | S754_zero _ => true
  | _ => false
  end.

Definition OverflowError (msg : string) : exn :=
  Exn (OtherException "OverflowError") msg.
Definition ZeroDivisionError (msg : string) : exn :=
  Exn (OtherException "ZeroDivisionError") msg.
Definition TypeError (msg : string) : exn :=
  Exn (OtherException "TypeError") msg.
Definition ValueError (msg : string) : exn :=
  Exn (OtherException "ValueError") msg.

(** [float(n)] for an [int]: the nearest binary64, ties to even. *)
Definition float_of_int (n : Z) : result float :=
  let f := binary_normalize prec emax n 0 false in
  if is_inf f then Raise (OverflowError "int too large to convert to float")
  else Ok f.

(** A literal such as [100] or [1024] where a float is expected. *)
Definition float_lit (n : Z) : float := binary_normalize prec emax n 0 false.

(** [a / b] on two [int]s: the exact quotient rounded once. *)
Definition int_truediv (a b : Z) : result float :=
  match a, b with
  | _, Z0 => Raise (ZeroDivisionError "division by zero")
  | Z0, _ => Ok (S754_zero (b <? 0)%Z)
  | _, _ =>
      let q := SFdiv prec emax
                 (S754_finite (a <? 0)%Z (Z.to_pos (Z.abs a)) 0)
                 (S754_finite (b <? 0)%Z (Z.to_pos (Z.abs b)) 0) in
      if is_inf q
      then Raise (OverflowError "integer division result too large for a float")
      else Ok q
  end.

(** [x / y] on two [float]s. *)
Definition float_truediv (x y : float) : result float :=
  if is_fzero y then Raise (ZeroDivisionError "float division by zero")
  else Ok (SFdiv prec emax x y).

Definition float_mul (x y : float) : float := SFmul prec emax x y.

(** [x > 0] for a float. *)
Definition float_pos (x : float) : bool := SFltb fzero x.

(** [int(x)]: truncation toward zero. *)
Definition int_of_float (x : float) : result Z :=
  match x with
  | S754_nan => Raise (ValueError "cannot convert float NaN to integer")
  | S754_infinity _ =>
      Raise (OverflowError "cannot convert float infinity to integer")
  | S754_zero _ => Ok 0%Z
  | S754_finite s m e =>
      let a := match e with
               | Zneg p => Z.shiftr (Zpos m) (Zpos p)
               | _ => Z.shiftl (Zpos m) e
               end in
      Ok (if s then Z.opp a else a)
  end.

(** The character of a decimal digit. *)
Definition digit_char (n : Z) : ascii := ascii_of_N (48 + Z.to_N (n mod 10)).

(** The last [width] decimal digits of [n >= 0], zeros included. *)
Fixpoint fixed_width (width : nat) (n : Z) : string :=
  match width with
  | O => ""
  | S w => fixed_width w (n / 10) ++ String (digit_char n) ""
  end.

Definition digits (n : Z) : string := PyStr.str_of_int n.

(** The value [m * 2^e * 10^d] rounded to an integer, ties to even. *)
Definition scaled_round (d : nat) (m : positive) (e : Z) : Z :=
  let num := (Zpos m * 10 ^ Z.of_nat d)%Z in
  match e with
  | Zneg p =>
      let den := (2 ^ Zpos p)%Z in
      let q := (num / den)%Z in
      let r := (num mod den)%Z in
      match (2 * r ?= den)%Z with
      | Lt => q
      | Gt => (q + 1)%Z
      | Eq => if Z.even q then q else (q + 1)%Z
      end
  | _ => (num * 2 ^ e)%Z
  end.

(** [q / 10^d] written with [d] digits after the point. *)
Definition fixed_digits (d : nat) (q : Z) : string :=
  let p := (10 ^ Z.of_nat d)%Z in
  digits (q / p) ++
  match d with
  | O => ""
  | _ => "." ++ fixed_width d (q mod p)
  end.

(** [format(x, ".df")] for a float: the exact value of [x] rounded to [d]
    decimals, ties to even; the sign is kept when the result is zero. *)
Definition format_fixed (d : nat) (x : float) : string :=
  match x with
  | S754_nan => "nan"
  | S754_infinity s => if s then "-inf" else "inf"
  | S754_zero s => (if s then "-" else "") ++ fixed_digits d 0
  | S754_finite s m e =>
      (if s then "-" else "") ++ fixed_digits d (scaled_round d m e)
  end.

(** The values found in the progress dictionary handed to the hook. *)
Inductive pyval :=
  | PyNone
  | PyBool (b : bool)
  | PyInt (n : Z)
  | PyFloat (x : float)
  | PyStr (s : string).

Definition type_name (v : pyval) : string :=
  match v with
  | PyNone => "NoneType"
  | PyBool _ => "bool"
  | PyInt _ => "int"
  | PyFloat _ => "float"
  | PyStr _ => "str"
  end.

(** [bool(v)] *)
Definition truth (v : pyval) : bool :=
  match v with
  | PyNone => false
  | PyBool b => b
  | PyInt n => negb (n =? 0)%Z
  | PyFloat x => negb (is_fzero x)
  | PyStr s => PyStr.truthy s
  end.

(** [a or b] *)
Definition py_or (a b : pyval) : pyval := if truth a then a else b.

(** [isinstance(v, int)]; a [bool] is an [int]. *)
Definition is_int (v : pyval) : bool :=
  match v with
  | PyBool _ | PyInt _ => true
  | _ => false
  end.

(** [isinstance(v, (int, float))] *)
Definition is_number (v : pyval) : bool :=
  match v with
  | PyBool _ | PyInt _ | PyFloat _ => true
  | _ => false
  end.

(** The integer behind an [int] or a [bool]. *)
Definition as_int (v : pyval) : option Z :=
  match v with
  | PyBool b => Some (Z.b2z b)
  | PyInt n => Some n
  | _ => None
  end.

(** [a / b] *)
Definition truediv (a b : pyval) : result float :=
  match as_int a, as_int b, a, b with
  | Some m, Some n, _, _ => int_truediv m n
  | Some m, None, _, PyFloat y =>
      let* x := float_of_int m in float_truediv x y
  | None, Some n, PyFloat x, _ =>
      let* y := float_of_int n in float_truediv x y
  | None, None, PyFloat x, PyFloat y => float_truediv x y
  | _, _, _, _ =>
      Raise (TypeError ("unsupported operand type(s) for /: '" ++ type_name a
                        ++ "' and '" ++ type_name b ++ "'"))
  end.

(** [v > 0] *)
Definition gt_zero (v : pyval) : result bool :=
  match v with
  | PyBool b => Ok b
  | PyInt n => Ok (0 <? n)%Z
  | PyFloat x => Ok (float_pos x)
  | _ =>
      Raise (TypeError ("'>' not supported between instances of '"
                        ++ type_name v ++ "' and 'int'"))
  end.

(** [str(v)] as an f-string renders an [int]. *)
Definition str_int (v : pyval) : string :=
  match v with
  | PyBool b => if b then "True" else "False"
  | PyInt n => PyStr.str_of_int n
  | _ => ""
  end.

End PyNum.

(* ===================================================================== *)
(** * DownloadWorker *)
(* ===================================================================== *)

Module Worker.
Import Presets PyNum.

(** The three Qt signals of the worker: [progress = Signal(float, str)],
    [log = Signal(str)], [finished = Signal(bool, str)].  An [int] emitted
    through [progress] arrives as the float of the same value. *)
Inductive signal :=
  | Progress (percent : float) (message : string)
  | Log (message : string)
  | Finished (success : bool) (message : string).

Definition is_Finished (s : signal) : bool :=
  match s with
  | Finished _ _ => true
  | _ => false
  end.

Definition is_Progress (s : signal) : bool :=
  match s with
  | Progress _ _ => true
  | _ => false
  end.

(** The character class of [sanitize_filename]: backslash, slash, colon,
    star, question mark, double quote, the angle brackets and the bar. *)
Definition forbidden (c : ascii) : bool :=
  let n := PyStr.ord c in
  ((n =? 92) || (n =? 47) || (n =? 58) || (n =? 42) || (n =? 63)
   || (n =? 34) || (n =? 60) || (n =? 62) || (n =? 124))%N.

(** [re.sub(r"[...]+", "_", name)]: every maximal run of forbidden characters
    becomes one underscore; [in_run] tells that the previous character was
    forbidden. *)
Fixpoint sub_runs (in_run : bool) (name : string) : string :=
  match name with
  | EmptyString => EmptyString
  | String c r =>
      if forbidden c
      then (if in_run then sub_runs true r else String "_" (sub_runs true r))
      else String c (sub_runs false r)
  end.

Definition sanitize_filename (name : string) : string :=
  let t := PyStr.strip (sub_runs false name) in
  if PyStr.truthy t then t else "video".

(** [data.get(k)]: [None] for a missing key. *)
Definition get_or_none (data : dict pyval) (k : string) : pyval :=
  dict_get data k PyNone.

(** [v == s] for a string literal [s]. *)
Definition eq_str (v : pyval) (s : string) : bool :=
  match v with
  | PyStr t => String.eqb t s
  | _ => false
  end.

(** [data.get("total_bytes") or data.get("total_bytes_estimate") or 0] *)
Definition total_of (data : dict pyval) : pyval :=
  py_or (py_or (get_or_none data "total_bytes")
               (get_or_none data "total_bytes_estimate"))
        (PyInt 0).

(** Lines 88-90: the speed text. *)
Definition speed_text (speed : pyval) : result string :=
  if is_number speed then
    let* k := truediv speed (PyInt 1024) in
    let* m := truediv (PyFloat k) (PyInt 1024) in
    Ok (format_fixed 2 m ++ " MB/s")%string
  else Ok "N/A".

(** Line 91: the ETA text. *)
Definition eta_text (eta : pyval) : string :=
  if is_int eta then str_int eta ++ "s" else "N/A".

(** [DownloadWorker._progress_hook], lines 76-96; [cancelled] is the value of
    [self._cancelled] when the hook is entered. *)
Definition _progress_hook (cancelled : bool) (data : dict pyval)
  : result (list signal) :=
  if cancelled then Raise (Exn DownloadError "Download canceled by user.")
  else
    let status := dict_get data "status" (PyStr "") in
    if eq_str status "downloading" then
      let downloaded := dict_get data "downloaded_bytes" (PyInt 0) in
      let total := total_of data in
      let* positive := gt_zero total in
      if positive then
        let* ratio := truediv downloaded total in
        let percent := float_mul ratio (float_lit 100) in
        let speed := get_or_none data "speed" in
        let eta := get_or_none data "eta" in
        let* speed_text := speed_text speed in
        let eta_text := eta_text eta in
        Ok [Progress percent
              (format_fixed 1 percent ++ "% | " ++ speed_text
               ++ " | ETA: " ++ eta_text)%string]
      else Ok [Progress (float_lit 0) "Downloading..."]
    else if eq_str status "finished" then
      Ok [Progress (float_lit 100) "Download complete, processing file..."]
    else Ok [].

(** The fields of a [DownloadWorker]. *)
Record DownloadWorker := {
  url : string;
  output_dir : string;
  cookie_file : string;
  quality_preset : string;
  _cancelled : bool
}.

(** [DownloadWorker.cancel] *)
Definition cancel (d : DownloadWorker) : DownloadWorker :=
  {| url := url d; output_dir := output_dir d; cookie_file := cookie_file d;
     quality_preset := quality_preset d; _cancelled := true |}.

(** What happens while [ydl.download] runs: the capability calls the progress
    hook, and the window's thread may call [cancel]. *)
Inductive dl_event :=
  | DlHook (data : dict pyval)
  | DlCancel.

(** The behaviour of everything [run] calls outside this repository: the
    file system, yt-dlp, and the thread that may call [cancel]. *)
Record World := {
  path_join : string -> string -> string;      (* str(Path(a) / b) *)
  makedirs : option exn;                       (* os.makedirs *)
  cookie_exists : bool;                        (* Path(cookie_file).exists() *)
  cancel_early : bool;     (* cancel() called before the download starts, or
                              before an earlier failure is handled *)
  ydl_enter : option exn;                      (* YoutubeDL(ydl_opts), __enter__ *)
  extract_info : result (option (dict pyval)); (* the info dict, or None *)
  download_events : list dl_event;
  download_end : option exn;                   (* how ydl.download ends *)
  ydl_exit : option exn                        (* __exit__ *)
}.

(** The options handed to [YoutubeDL]. *)
Record ydl_opts := {
  outtmpl : string;
  noplaylist : bool;
  restrictfilenames : bool;
  windowsfilenames : bool;
  quiet : bool;
  no_warnings : bool;
  format : preset_value;
  merge_output_format : option preset_value;
  postprocessors : option preset_value;
  cookiefile : option string
}.

(** Lines 102-123, the part that builds the options. *)
Definition build_opts (d : DownloadWorker) (w : World) : result ydl_opts :=
  let* preset := resolve (quality_preset d) in
  let* fmt := dict_getitem preset "format" in
  let* merge :=
    (if dict_mem preset "merge_output_format"
     then let* v := dict_getitem preset "merge_output_format" in Ok (Some v)
     else Ok None) in
  let* post :=
    (if dict_mem preset "postprocessors"
     then let* v := dict_getitem preset "postprocessors" in Ok (Some v)
     else Ok None) in
  Ok {| outtmpl := path_join w (output_dir d) "%(title)s.%(ext)s";
        noplaylist := true;
        restrictfilenames := false;
        windowsfilenames := true;
        quiet := true;
        no_warnings := true;
        format := fmt;
        merge_output_format := merge;
        postprocessors := post;
        cookiefile :=
          if (PyStr.truthy (cookie_file d) && cookie_exists w)%bool
          then Some (cookie_file d) else None |}.

(** Computations of [run]: they read and (through the other thread) see
    changes of the cancel flag, emit signals, and return or raise. *)
Definition M (A : Type) : Type := bool -> list signal * bool * result A.

Definition ret {A} (a : A) : M A := fun c => ([], c, Ok a).

Definition bindM {A B} (m : M A) (k : A -> M B) : M B :=
  fun c =>
    match m c with
    | (s, c', Ok a) =>
        match k a c' with
        | (s', c'', r) => (s ++ s', c'', r)
        end
    | (s, c', Raise e) => (s, c', Raise e)
    end.

Notation "'do' x '<-' m ';' k" := (bindM m (fun x => k))
  (at level 10, x name, m at level 100, k at level 200).
Notation "m ';;' k" := (bindM m (fun _ => k))
  (at level 100, k at level 200, right associativity).

Definition emit (s : signal) : M unit := fun c => ([s], c, Ok tt).
Definition raise {A} (e : exn) : M A := fun c => ([], c, Raise e).
Definition lift {A} (r : result A) : M A := fun c => ([], c, r).
Definition get_cancelled : M bool := fun c => ([], c, Ok c).
Definition other_thread_cancels (b : bool) : M unit :=
  fun c => ([], (c || b)%bool, Ok tt).

(** An external call that returns nothing. *)
Definition call (outcome : option exn) : M unit :=
  match outcome with
  | None => ret tt
  | Some e => raise e
  end.

(** [try: m except DownloadError as exc: h1 exc except Exception as exc: h2 exc] *)
Definition try_except {A} (m : M A) (h1 h2 : exn -> M A) : M A :=
  fun c =>
    match m c with
    | (s, c', Ok a) => (s, c', Ok a)
    | (s, c', Raise e) =>
        match (if is_DownloadError e then h1 e else h2 e) c' with
        | (s', c'', r) => (s ++ s', c'', r)
        end
    end.

(** [with cm as ydl: m]: [__exit__] runs however [m] ends; it does not
    suppress an exception, and an exception of its own replaces it. *)
Definition with_exit {A} (m : M A) (exit : option exn) : M A :=
  fun c =>
    match m c, exit with
    | (s, c', _), Some e => (s, c', Raise e)
    | r, None => r
    end.

(** One call of the hook by the capability: the hook reads the flag, and
    emits its signals or raises. *)
Definition hook_call (data : dict pyval) : M unit :=
  fun c =>
    match _progress_hook c data with
    | Ok sigs => (sigs, c, Ok tt)
    | Raise e => ([], c, Raise e)
    end.

(** [ydl.download([url])]: the capability calls the hook; an exception of
    the hook stops the download and comes out of it. *)
Fixpoint download (events : list dl_event) (ending : option exn) : M unit :=
  match events with
  | [] => call ending
  | DlCancel :: rest => other_thread_cancels true ;; download rest ending
  | DlHook data :: rest => hook_call data ;; download rest ending
  end.

(** [info.get("title", "video")] and [sanitize_filename] of it. *)
Definition title_of (info : option (dict pyval)) : result string :=
  match info with
  | None =>
      Raise (Exn (OtherException "AttributeError")
                 "'NoneType' object has no attribute 'get'")
  | Some d =>
      match dict_get d "title" (PyStr "video") with
      | PyStr t => Ok (sanitize_filename t)
      | v =>
          Raise (TypeError ("expected string or bytes-like object, got '"
                            ++ type_name v ++ "'"))
      end
  end.

(** Lines 100-132: the body of the [try] up to the end of the [with]. *)
Definition run_body (d : DownloadWorker) (w : World) : M unit :=
  call (makedirs w) ;;
  do opts <- lift (build_opts d w) ;
  emit (Log ("Quality: " ++ quality_preset d)) ;;
  (if (PyStr.truthy (cookie_file d) && cookie_exists w)%bool
   then emit (Log "Using cookies file for authenticated download.")
   else ret tt) ;;
  emit (Log "Fetching video info...") ;;
  call (ydl_enter w) ;;
  with_exit
    (do info <- lift (extract_info w) ;
     do title <- lift (title_of info) ;
     emit (Log ("Title: " ++ title)) ;;
     emit (Log "Starting download...") ;;
     download (download_events w) (download_end w))
    (ydl_exit w).

(** Lines 134-138: the end of the [try]. *)
Definition finish_normally : M unit :=
  do c <- get_cancelled ;
  if c then emit (Finished false "Download canceled.")
  else emit (Finished true "Download completed successfully.").

Definition run_try (d : DownloadWorker) (w : World) : M unit :=
  run_body d w ;; finish_normally.

(** Lines 139-143 *)
Definition on_DownloadError (exc : exn) : M unit :=
  do c <- get_cancelled ;
  if c then emit (Finished false "Download canceled.")
  else emit (Finished false ("Download failed: " ++ exn_msg exc)).

(** Lines 144-145 *)
Definition on_Exception (exc : exn) : M unit :=
  emit (Finished false ("Error: " ++ exn_msg exc)).

(** [DownloadWorker.run], lines 98-145, from the state of the flag when it is
    called. *)
Definition run_M (d : DownloadWorker) (w : World) : M unit :=
  other_thread_cancels (cancel_early w) ;;
  try_except (run_try d w) on_DownloadError on_Exception.

Definition run (d : DownloadWorker) (w : World)
  : list signal * bool * result unit :=
  run_M d w (_cancelled d).

End Worker.

(* ===================================================================== *)
(** * MainWindow: the queue *)
(* ===================================================================== *)

Module Window.
Import Presets PyNum.

(** A [QComboBox]: its current text and whether it is enabled. *)
Record Combo := { combo_text : string; combo_enabled : bool }.

(** One row of [queue_table].  A cell holds a [QTableWidgetItem] or nothing;
    the quality column holds a cell widget. *)
Record Row := {
  url_item : option string;
  quality_widget : option Combo;
  quality_item : option string;
  status_item : option string;
  progress_item : option string
}.

Definition COL_URL : nat := 0.
Definition COL_QUALITY : nat := 1.
Definition COL_STATUS : nat := 2.
Definition COL_PROGRESS : nat := 3.

Definition empty_row : Row :=
  {| url_item := None; quality_widget := None; quality_item := None;
     status_item := None; progress_item := None |}.

(** The item of a row at a column ([QTableWidget.item]). *)
Definition item_at (column : nat) (r : Row) : option string :=
  match column with
  | 0 => url_item r
  | 1 => quality_item r
  | 2 => status_item r
  | 3 => progress_item r
  | _ => None
  end.

(** Put the text [text] in the item of a row at a column. *)
Definition with_item (column : nat) (text : string) (r : Row) : Row :=
  match column with
  | 0 => {| url_item := Some text; quality_widget := quality_widget r;
            quality_item := quality_item r; status_item := status_item r;
            progress_item := progress_item r |}
  | 1 => {| url_item := url_item r; quality_widget := quality_widget r;
            quality_item := Some text; status_item := status_item r;
            progress_item := progress_item r |}
  | 2 => {| url_item := url_item r; quality_widget := quality_widget r;
            quality_item := quality_item r; status_item := Some text;
            progress_item := progress_item r |}
  | 3 => {| url_item := url_item r; quality_widget := quality_widget r;
            quality_item := quality_item r; status_item := status_item r;
            progress_item := Some text |}
  | _ => r
  end.

Definition with_widget (c : Combo) (r : Row) : Row :=
  {| url_item := url_item r; quality_widget := Some c;
     quality_item := quality_item r; status_item := status_item r;
     progress_item := progress_item r |}.

Definition with_widget_enabled (enabled : bool) (r : Row) : Row :=
  match quality_widget r with
  | Some c =>
      with_widget {| combo_text := combo_text c; combo_enabled := enabled |} r
  | None => r
  end.

(** A [QMessageBox] shown to the user: kind, title and text. *)
Record MessageBox := { box_kind : string; box_title : string; box_text : string }.

(** The state of the window that the queue operations read and write.  The
    thread object lives and dies with [worker]; the enabled flags of the
    buttons, set by [_update_queue_buttons], and the styling are not part of
    the state. *)
Record MainWindow := {
  queue_table : list Row;
  worker : option Worker.DownloadWorker;
  current_row : option nat;
  queue_running : bool;
  stop_queue_requested : bool;
  url_input : string;
  output_input : string;
  cookies_input : string;
  quality_combo : Combo;
  progress_bar : Z;
  status_label : string * string;
  log_box : list string;
  message_boxes : list MessageBox
}.

Definition set_queue_table (v : list Row) (w : MainWindow) : MainWindow :=
  {| queue_table := v; worker := worker w; current_row := current_row w;
     queue_running := queue_running w;
     stop_queue_requested := stop_queue_requested w;
     url_input := url_input w; output_input := output_input w;
     cookies_input := cookies_input w; quality_combo := quality_combo w;
     progress_bar := progress_bar w; status_label := status_label w;
     log_box := log_box w; message_boxes := message_boxes w |}.

Definition set_worker (v : option Worker.DownloadWorker) (w : MainWindow)
  : MainWindow :=
  {| queue_table := queue_table w; worker := v; current_row := current_row w;
     queue_running := queue_running w;
     stop_queue_requested := stop_queue_requested w;
     url_input := url_input w; output_input := output_input w;
     cookies_input := cookies_input w; quality_combo := quality_combo w;
     progress_bar := progress_bar w; status_label := status_label w;
     log_box := log_box w; message_boxes := message_boxes w |}.

Definition set_current_row (v : option nat) (w : MainWindow) : MainWindow :=
  {| queue_table := queue_table w; worker := worker w; current_row := v;
     queue_running := queue_running w;
     stop_queue_requested := stop_queue_requested w;
     url_input := url_input w; output_input := output_input w;
     cookies_input := cookies_input w; quality_combo := quality_combo w;
     progress_bar := progress_bar w; status_label := status_label w;
     log_box := log_box w; message_boxes := message_boxes w |}.

Definition set_queue_running (v : bool) (w : MainWindow) : MainWindow :=
  {| queue_table := queue_table w; worker := worker w;
     current_row := current_row w; queue_running := v;
     stop_queue_requested := stop_queue_requested w;
     url_input := url_input w; output_input := output_input w;
     cookies_input := cookies_input w; quality_combo := quality_combo w;
     progress_bar := progress_bar w; status_label := status_label w;
     log_box := log_box w; message_boxes := message_boxes w |}.

Definition set_stop_queue_requested (v : bool) (w : MainWindow) : MainWindow :=
  {| queue_table := queue_table w; worker := worker w;
     current_row := current_row w; queue_running := queue_running w;
     stop_queue_requested := v;
     url_input := url_input w; output_input := output_input w;
     cookies_input := cookies_input w; quality_combo := quality_combo w;
     progress_bar := progress_bar w; status_label := status_label w;
     log_box := log_box w; message_boxes := message_boxes w |}.

Definition set_url_input (v : string) (w : MainWindow) : MainWindow :=
  {| queue_table := queue_table w; worker := worker w;
     current_row := current_row w; queue_running := queue_running w;
     stop_queue_requested := stop_queue_requested w;
     url_input := v; output_input := output_input w;
     cookies_input := cookies_input w; quality_combo := quality_combo w;
     progress_bar := progress_bar w; status_label := status_label w;
     log_box := log_box w; message_boxes := message_boxes w |}.

Definition set_quality_combo (v : Combo) (w : MainWindow) : MainWindow :=
  {| queue_table := queue_table w; worker := worker w;
     current_row := current_row w; queue_running := queue_running w;
     stop_queue_requested := stop_queue_requested w;
     url_input := url_input w; output_input := output_input w;
     cookies_input := cookies_input w; quality_combo := v;
     progress_bar := progress_bar w; status_label := status_label w;
     log_box := log_box w; message_boxes := message_boxes w |}.

Definition set_progress_bar (v : Z) (w : MainWindow) : MainWindow :=
  {| queue_table := queue_table w; worker := worker w;
     current_row := current_row w; queue_running := queue_running w;
     stop_queue_requested := stop_queue_requested w;
     url_input := url_input w; output_input := output_input w;
     cookies_input := cookies_input w; quality_combo := quality_combo w;
     progress_bar := v; status_label := status_label w;
     log_box := log_box w; message_boxes := message_boxes w |}.

Definition set_status_label (v : string * string) (w : MainWindow)
  : MainWindow :=
  {| queue_table := queue_table w; worker := worker w;
     current_row := current_row w; queue_running := queue_running w;
     stop_queue_requested := stop_queue_requested w;
     url_input := url_input w; output_input := output_input w;
     cookies_input := cookies_input w; quality_combo := quality_combo w;
     progress_bar := progress_bar w; status_label := v;
     log_box := log_box w; message_boxes := message_boxes w |}.

Definition set_log_box (v : list string) (w : MainWindow) : MainWindow :=
  {| queue_table := queue_table w; worker := worker w;
     current_row := current_row w; queue_running := queue_running w;
     stop_queue_requested := stop_queue_requested w;
     url_input := url_input w; output_input := output_input w;
     cookies_input := cookies_input w; quality_combo := quality_combo w;
     progress_bar := progress_bar w; status_label := status_label w;
     log_box := v; message_boxes := message_boxes w |}.

Definition set_message_boxes (v : list MessageBox) (w : MainWindow)
  : MainWindow :=
  {| queue_table := queue_table w; worker := worker w;
     current_row := current_row w; queue_running := queue_running w;
     stop_queue_requested := stop_queue_requested w;
     url_input := url_input w; output_input := output_input w;
     cookies_input := cookies_input w; quality_combo := quality_combo w;
     progress_bar := progress_bar w; status_label := status_label w;
     log_box := log_box w; message_boxes := v |}.

(** [log_box.appendPlainText] *)
Definition appendPlainText (text : string) (w : MainWindow) : MainWindow :=
  set_log_box (log_box w ++ [text]) w.

(** [QMessageBox.warning] and [QMessageBox.information] *)
Definition show_box (kind title text : string) (w : MainWindow) : MainWindow :=
  set_message_boxes
    (message_boxes w
     ++ [{| box_kind := kind; box_title := title; box_text := text |}]) w.

(** [MainWindow.set_status], lines 778-782 *)
Definition set_status (message state : string) (w : MainWindow) : MainWindow :=
  set_status_label (message, state) w.

(** [QTableWidget.insertRow]: a row without items, at [row] when that is a
    position of the table. *)
Definition insertRow (row : nat) (rows : list Row) : list Row :=
  if (row <=? length rows)%nat
  then take row rows ++ empty_row :: drop row rows
  else rows.

(** [QTableWidget.removeRow]; no row is removed outside of the table. *)
Definition removeRow (row : nat) (rows : list Row) : list Row :=
  delete row rows.

(** [MainWindow._set_row_text], lines 862-874: the item is created when the
    cell has none; outside of the table [setItem] does nothing. *)
Definition _set_row_text (row column : nat) (text : string) (w : MainWindow)
  : MainWindow :=
  set_queue_table (alter (with_item column text) row (queue_table w)) w.

Definition _set_row_status (row : nat) (status : string) (w : MainWindow)
  : MainWindow :=
  _set_row_text row COL_STATUS status w.

Definition _set_row_progress (row : nat) (text : string) (w : MainWindow)
  : MainWindow :=
  _set_row_text row COL_PROGRESS text w.

(** [MainWindow._build_row_quality_combo], lines 838-843 *)
Definition _build_row_quality_combo (quality : string) : Combo :=
  {| combo_text :=
       if dict_mem QUALITY_PRESETS quality then quality
       else "Best (Video + Audio)";
     combo_enabled := true |}.

(** [MainWindow._append_queue_row], lines 829-836 *)
Definition _append_queue_row (url quality : string) (w : MainWindow)
  : MainWindow :=
  let row := length (queue_table w) in
  let w := set_queue_table (insertRow row (queue_table w)) w in
  let w := _set_row_text row COL_URL url w in
  let quality_combo := _build_row_quality_combo quality in
  let w := set_queue_table
             (alter (with_widget quality_combo) row (queue_table w)) w in
  let w := _set_row_text row COL_STATUS "Queued" w in
  _set_row_text row COL_PROGRESS "0%" w.

(** [len(urls)] and the like inside an f-string. *)
Definition str_of_nat (n : nat) : string := PyStr.str_of_int (Z.of_nat n).

(** [MainWindow.enqueue_urls], lines 812-827 *)
Definition enqueue_urls (w : MainWindow) : MainWindow :=
  let raw_text := PyStr.strip (url_input w) in
  if negb (PyStr.truthy raw_text) then
    show_box "warning" "Missing URL" "Please enter at least one video URL." w
  else
    let quality := combo_text (quality_combo w) in
    let urls :=
      map PyStr.strip
          (List.filter (fun line => PyStr.truthy (PyStr.strip line))
                       (PyStr.splitlines raw_text)) in
    let w := fold_left (fun w url => _append_queue_row url quality w) urls w in
    let w := set_url_input "" w in
    let w := appendPlainText
               ("Queued " ++ str_of_nat (length urls)
                ++ " item(s) with quality: " ++ quality) w in
    set_status ("Added " ++ str_of_nat (length urls) ++ " item(s) to queue.")
               "idle" w.

(** [MainWindow._quality_for_row], lines 845-853 *)
Definition _quality_for_row (row : nat) (w : MainWindow) : string :=
  match queue_table w !! row with
  | Some r =>
      match quality_widget r with
      | Some c => combo_text c
      | None =>
          match quality_item r with
          | Some t =>
              if dict_mem QUALITY_PRESETS t then t else "Best (Video + Audio)"
          | None => "Best (Video + Audio)"
          end
      end
  | None => "Best (Video + Audio)"
  end.

(** [MainWindow._set_quality_editable], lines 855-860 *)
Definition _set_quality_editable (enabled : bool) (w : MainWindow)
  : MainWindow :=
  let w := set_quality_combo
             {| combo_text := combo_text (quality_combo w);
                combo_enabled := enabled |} w in
  set_queue_table (map (with_widget_enabled enabled) (queue_table w)) w.

(** [item and item.text() == status] on the status cell of a row. *)
Definition has_status (status : string) (r : Row) : bool :=
  match status_item r with
  | Some t => String.eqb t status
  | None => false
  end.

(** The loop of [_next_queued_row] from row number [row] on. *)
Fixpoint next_queued_from (row : nat) (rows : list Row) : option nat :=
  match rows with
  | [] => None
  | r :: rest =>
      if has_status "Queued" r then Some row
      else next_queued_from (S row) rest
  end.

(** [MainWindow._next_queued_row], lines 882-887 *)
Definition _next_queued_row (w : MainWindow) : option nat :=
  next_queued_from 0 (queue_table w).

(** [MainWindow._finish_queue], lines 957-966 *)
Definition _finish_queue (message state : string) (w : MainWindow)
  : MainWindow :=
  let w := set_queue_running false w in
  let w := set_stop_queue_requested false w in
  let w := set_current_row None w in
  let w := set_progress_bar (if String.eqb state "success" then 100 else 0) w in
  let w := set_status message state w in
  let w := appendPlainText message w in
  _set_quality_editable true w.

(** Lines 923-925 of [_start_next_item]: the entry without a URL item. *)
Definition mark_invalid (next_row : nat) (w : MainWindow) : MainWindow :=
  let w := _set_row_status next_row "Failed" w in
  let w := _set_row_progress next_row "0%" w in
  appendPlainText
    ("[Item " ++ str_of_nat (next_row + 1) ++ "] Invalid queue entry.") w.

(** Lines 929-955 of [_start_next_item]: bind the entry and start its
    worker. *)
Definition begin_item (next_row : nat) (url output_dir cookie_file : string)
  (w : MainWindow) : MainWindow :=
  let quality := _quality_for_row next_row w in
  let w := set_current_row (Some next_row) w in
  let w := _set_row_status next_row "Downloading" w in
  let w := _set_row_progress next_row "0%" w in
  let w := set_progress_bar 0 w in
  let w := set_status
             ("Downloading item " ++ str_of_nat (next_row + 1) ++ "/"
              ++ str_of_nat (length (queue_table w)) ++ " (" ++ quality ++ ")")
             "active" w in
  set_worker
    (Some {| Worker.url := url; Worker.output_dir := output_dir;
             Worker.cookie_file := cookie_file;
             Worker.quality_preset := quality;
             Worker._cancelled := false |}) w.

Definition count_queued (rows : list Row) : nat :=
  length (List.filter (has_status "Queued") rows).

Definition inspect {A} (a : A) : {b | a = b} := exist _ a eq_refl.

(** Termination of [_start_next_item]: each recursive call has turned the
    first Queued row into a Failed one. *)
Lemma next_queued_from_Some (rows : list Row) (k i : nat) :
  next_queued_from k rows = Some i ->
  exists j r, i = (k + j)%nat /\ rows !! j = Some r
              /\ has_status "Queued" r = true.
Proof.
  revert k. induction rows as [|r rows IH]; intros k H; simpl in H.
  - discriminate.
  - destruct (has_status "Queued" r) eqn:E.
    + injection H as <-. exists 0%nat, r. split; [lia | auto].
    + destruct (IH _ H) as (j & r' & -> & Hj & Hq).
      exists (S j), r'. split; [lia | auto].
Qed.

Lemma count_queued_alter_same (f : Row -> Row) (j : nat) (rows : list Row) :
  (forall r, has_status "Queued" (f r) = has_status "Queued" r) ->
  count_queued (alter f j rows) = count_queued rows.
Proof.
  intros Hf. unfold count_queued. revert j.
  induction rows as [|r rows IH]; intros [|j]; simpl; auto.
  - rewrite Hf. destruct (has_status "Queued" r); reflexivity.
  - specialize (IH j). unfold alter in IH.
    destruct (has_status "Queued" r); simpl; lia.
Qed.

Lemma count_queued_alter_less (f : Row -> Row) (j : nat) (rows : list Row)
  (r : Row) :
  rows !! j = Some r ->
  has_status "Queued" r = true ->
  has_status "Queued" (f r) = false ->
  (count_queued (alter f j rows) < count_queued rows)%nat.
Proof.
  unfold count_queued. revert j.
  induction rows as [|r0 rows IH]; intros [|j] Hj Hq Hf; simpl in *;
    try discriminate.
  - injection Hj as ->. rewrite Hq, Hf. simpl. lia.
  - specialize (IH _ Hj Hq Hf). unfold alter in IH.
    destruct (has_status "Queued" r0); simpl; lia.
Qed.

Lemma mark_invalid_fewer_queued (next_row : nat) (w : MainWindow) :
  _next_queued_row w = Some next_row ->
  (count_queued (queue_table (mark_invalid next_row w))
   < count_queued (queue_table w))%nat.
Proof.
  intros H. apply next_queued_from_Some in H as (j & r & -> & Hj & Hq).
  simpl. rewrite count_queued_alter_same by (intros []; reflexivity).
  eapply count_queued_alter_less; eauto.
Qed.

(** [MainWindow._start_next_item], lines 909-955.  The call of line 926 is
    the recursive one. *)
Equations? _start_next_item (w : MainWindow) : MainWindow
  by wf (count_queued (queue_table w)) lt :=
  _start_next_item w with stop_queue_requested w := {
    | true := _finish_queue "Queue stopped." "warning" w
    | false with inspect (_next_queued_row w) := {
        | exist _ None _ := _finish_queue "Queue completed." "success" w
        | exist _ (Some next_row) Hnext
            with (queue_table w !! next_row) ≫= url_item := {
            | None := _start_next_item (mark_invalid next_row w)
            | Some url :=
                begin_item next_row url (PyStr.strip (output_input w))
                           (PyStr.strip (cookies_input w)) w } } }.
Proof. apply mark_invalid_fewer_queued. exact Hnext. Qed.

(** [MainWindow.start_queue], lines 889-907 *)
Definition start_queue (w : MainWindow) : MainWindow :=
  if queue_running w then w
  else if negb (PyStr.truthy (PyStr.strip (output_input w))) then
    show_box "warning" "Missing Folder" "Please select an output folder." w
  else
    match _next_queued_row w with
    | None =>
        show_box "information" "Queue Empty" "Add URLs to the queue first." w
    | Some _ =>
        let w := appendPlainText "Starting queue..." w in
        let w := set_queue_running true w in
        let w := set_stop_queue_requested false w in
        let w := set_progress_bar 0 w in
        let w := _set_quality_editable false w in
        _start_next_item w
    end.

(** [MainWindow.cancel_download], lines 968-977 *)
Definition cancel_download (w : MainWindow) : MainWindow :=
  match worker w with
  | Some d =>
      let w := set_stop_queue_requested true w in
      let w := set_worker (Some (Worker.cancel d)) w in
      let w := set_status "Cancelling current item..." "warning" w in
      appendPlainText "Cancel requested..." w
  | None =>
      if queue_running w then
        let w := set_stop_queue_requested true w in
        set_status "Stopping queue..." "warning" w
      else w
  end.

(** [MainWindow.on_progress], lines 979-986.  [int(percent)] raises for a
    NaN or an infinity; the slot then ends with nothing changed. *)
Definition on_progress (percent : float) (message : string) (w : MainWindow)
  : MainWindow :=
  match int_of_float percent with
  | Raise _ => w
  | Ok n =>
      let row := current_row w in
      let w := set_progress_bar (Z.max 0 (Z.min 100 n)) w in
      match row with
      | Some row =>
          let w := _set_row_progress row (format_fixed 1 percent ++ "%") w in
          set_status ("Item " ++ str_of_nat (row + 1) ++ ": " ++ message)
                     "active" w
      | None => set_status message "active" w
      end
  end.

(** [MainWindow.on_log], lines 988-991 *)
Definition on_log (message : string) (w : MainWindow) : MainWindow :=
  let prefix :=
    match current_row w with
    | Some row => ("[Item " ++ str_of_nat (row + 1) ++ "] ")%string
    | None => ""
    end in
  appendPlainText (prefix ++ message) w.

(** [MainWindow.on_item_finished], lines 993-1019 *)
Definition on_item_finished (success : bool) (message : string)
  (w : MainWindow) : MainWindow :=
  match current_row w with
  | None => appendPlainText message w
  | Some row =>
      let lowered := PyStr.lower message in
      let '(row_status, state, progress_text, w) :=
        if success then ("Done", "success", "100%", w)
        else if PyStr.contains "cancel" lowered then
          let current_progress :=
            (queue_table w !! row) ≫= item_at COL_PROGRESS in
          let progress_text :=
            match current_progress with
            | Some t => t
            | None => "0%"
            end in
          ("Canceled", "warning", progress_text,
           set_stop_queue_requested true w)
        else ("Failed", "error", "0%", w) in
      let w := _set_row_status row row_status w in
      let w := _set_row_progress row progress_text w in
      let w := set_status message state w in
      appendPlainText ("[Item " ++ str_of_nat (row + 1) ++ "] " ++ message) w
  end.

(** [MainWindow.on_thread_finished], lines 1021-1027 *)
Definition on_thread_finished (w : MainWindow) : MainWindow :=
  let w := set_worker None w in
  let w := set_current_row None w in
  if queue_running w then _start_next_item w else w.

(** [sorted(rows, reverse=True)] on a set of row numbers: insertion into a
    strictly decreasing list. *)
Fixpoint insert_desc (n : nat) (l : list nat) : list nat :=
  match l with
  | [] => [n]
  | m :: l' =>
      if (m <? n)%nat then n :: l
      else if (m =? n)%nat then l
      else m :: insert_desc n l'
  end.

Definition sorted_desc_set (rows : list nat) : list nat :=
  fold_right insert_desc [] rows.

(** [MainWindow.remove_selected_items], lines 1029-1042; [selectedIndexes]
    are the row numbers of [queue_table.selectedIndexes()]. *)
Definition remove_selected_items (selectedIndexes : list nat) (w : MainWindow)
  : MainWindow :=
  if queue_running w then
    show_box "information" "Queue Running"
             "Stop the queue before removing items." w
  else
    let selected_rows := sorted_desc_set selectedIndexes in
    match selected_rows with
    | [] => w
    | _ =>
        let w := fold_left
                   (fun w row => set_queue_table (removeRow row (queue_table w)) w)
                   selected_rows w in
        set_status ("Removed " ++ str_of_nat (length selected_rows)
                    ++ " item(s).") "idle" w
    end.

(** [status_item and status_item.text() in {"Done", "Failed", "Canceled"}] *)
Definition is_finished_row (r : Row) : bool :=
  has_status "Done" r || has_status "Failed" r || has_status "Canceled" r.

(** The first loop of [clear_finished_items], lines 1049-1053, from row
    number [row] on. *)
Fixpoint removable_from (row : nat) (rows : list Row) : list nat :=
  match rows with
  | [] => []
  | r :: rest =>
      if is_finished_row r then row :: removable_from (S row) rest
      else removable_from (S row) rest
  end.

(** [MainWindow.clear_finished_items], lines 1044-1061 *)
Definition clear_finished_items (w : MainWindow) : MainWindow :=
  if queue_running w then
    show_box "information" "Queue Running"
             "Stop the queue before clearing items." w
  else
    let removable := removable_from 0 (queue_table w) in
    let w := fold_left
               (fun w row => set_queue_table (removeRow row (queue_table w)) w)
               (rev removable) w in
    match removable with
    | [] => w
    | _ => set_status ("Cleared " ++ str_of_nat (length removable)
                       ++ " finished item(s).") "idle" w
    end.

End Window.

(* ===================================================================== *)
(** * Vocabulary of the statements *)
(* ===================================================================== *)

Import PyStr Presets PyNum Worker Window.

(** A row as [_append_queue_row] and the handlers leave it. *)
Definition sample_row (url status progress : string) : Row :=
  {| url_item := Some url;
     quality_widget :=
       Some {| combo_text := "720p (MP4)"; combo_enabled := false |};
     quality_item := None;
     status_item := Some status;
     progress_item := Some progress |}.

(** A window with three entries, the first of them being downloaded. *)
Definition sample_running : MainWindow :=
  {| queue_table := [sample_row "https://x.test/a" "Downloading" "42.3%";
                     sample_row "https://x.test/b" "Queued" "0%";
                     sample_row "https://x.test/c" "Done" "100%"];
     worker := Some {| Worker.url := "https://x.test/a";
                       Worker.output_dir := "/tmp/out";
                       Worker.cookie_file := "";
                       Worker.quality_preset := "720p (MP4)";
                       Worker._cancelled := false |};
     current_row := Some 0%nat;
     queue_running := true;
     stop_queue_requested := false;
     url_input := "";
     output_input := "/tmp/out";
     cookies_input := "";
     quality_combo := {| combo_text := "720p (MP4)"; combo_enabled := false |};
     progress_bar := 42;
     status_label := ("Item 1: 42.3% | 1.00 MB/s | ETA: 5s", "active");
     log_box := ["Starting queue..."];
     message_boxes := [] |}.

(** The same entries with the queue at rest. *)
Definition sample_idle : MainWindow :=
  {| queue_table := [sample_row "https://x.test/a" "Canceled" "42.3%";
                     sample_row "https://x.test/b" "Queued" "0%";
                     sample_row "https://x.test/c" "Done" "100%";
                     sample_row "https://x.test/d" "Failed" "0%"];
     worker := None;
     current_row := None;
     queue_running := false;
     stop_queue_requested := false;
     url_input := "";
     output_input := "/tmp/out";
     cookies_input := "";
     quality_combo := {| combo_text := "720p (MP4)"; combo_enabled := true |};
     progress_bar := 0;
     status_label := ("Queue stopped.", "warning");
     log_box := ["Starting queue..."; "Queue stopped."];
     message_boxes := [] |}.

(** Entries waiting, and an output folder of spaces only. *)
Definition sample_no_folder : MainWindow :=
  {| queue_table := [sample_row "https://x.test/a" "Queued" "0%";
                     sample_row "https://x.test/b" "Queued" "0%"];
     worker := None;
     current_row := None;
     queue_running := false;
     stop_queue_requested := false;
     url_input := "";
     output_input := "   ";
     cookies_input := "";
     quality_combo := {| combo_text := "720p (MP4)"; combo_enabled := true |};
     progress_bar := 0;
     status_label := ("Added 2 item(s) to queue.", "idle");
     log_box := ["Queued 2 item(s) with quality: 720p (MP4)"];
     message_boxes := [] |}.

(** What a message box leaves alone: everything but the list of boxes. *)
Definition same_queue_state (w w' : MainWindow) : Prop :=
  queue_table w' = queue_table w
  /\ worker w' = worker w
  /\ current_row w' = current_row w
  /\ queue_running w' = queue_running w
  /\ stop_queue_requested w' = stop_queue_requested w
  /\ progress_bar w' = progress_bar w
  /\ status_label w' = status_label w
  /\ log_box w' = log_box w.

(** Blank text: nothing is left of it once stripped. *)
Definition blank (s : string) : Prop := PyStr.strip s = "".

(** The message contains the word cancel in some mix of upper and lower
    case. *)
Definition mentions_cancel (message : string) : Prop :=
  exists pre mid post,
    message = (pre ++ mid ++ post)%string /\ PyStr.lower mid = "cancel".

(** The cells of the active row after [on_item_finished]. *)
Definition finished_cells (success : bool) (message : string) (r : Row)
  : string * string :=
  if success then ("Done", "100%")
  else if PyStr.contains "cancel" (PyStr.lower message)
       then ("Canceled", match progress_item r with
                         | Some t => t
                         | None => "0%"
                         end)
       else ("Failed", "0%").

(** What the user and the worker can make the window do between the
    [finished] signal of the worker and the end of its thread. *)
Inductive gui_event :=
  | EvEnqueue (text : string)
  | EvStart
  | EvCancel
  | EvRemove (selectedIndexes : list nat)
  | EvClear
  | EvProgress (percent : float) (message : string)
  | EvLog (message : string).

(** The slot that each of them runs. *)
Definition handle (w : MainWindow) (ev : gui_event) : MainWindow :=
  match ev with
  | EvEnqueue text => enqueue_urls (set_url_input text w)
  | EvStart => start_queue w
  | EvCancel => cancel_download w
  | EvRemove sel => remove_selected_items sel w
  | EvClear => clear_finished_items w
  | EvProgress percent message => on_progress percent message w
  | EvLog message => on_log message w
  end.

(** The two flags of a queue that has been told to stop. *)
Definition stopping (w : MainWindow) : Prop :=
  queue_running w = true /\ stop_queue_requested w = true.

(** The status of a finished entry. *)
Definition finished_status (r : Row) : Prop :=
  status_item r = Some "Done" \/ status_item r = Some "Failed"
  \/ status_item r = Some "Canceled".

(** A line that is not blank: [if line.strip()]. *)
Definition nonblank (line : string) : bool := truthy (strip line).

(** The non-blank lines of a text, each one stripped. *)
Definition nonblank_lines (text : string) : list string :=
  map strip (List.filter nonblank (splitlines text)).

(** The same for a text whose first line continues [cur]. *)
Definition nonblank_lines_from (cur text : string) : list string :=
  map strip (List.filter nonblank (splitlines_from cur text)).

(** What the line [cur] alone contributes. *)
Definition line_entry (cur : string) : list string :=
  if nonblank cur then [strip cur] else [].

(** Where [splitlines] goes on after the line boundary [c]. *)
Definition after_break (c : ascii) (s : string) : string :=
  match s with
  | String c' r' => if (Ascii.eqb c CR && Ascii.eqb c' LF)%bool then r' else s
  | EmptyString => EmptyString
  end.

(** The row [_append_queue_row] creates. *)
Definition new_entry (quality url : string) : Row :=
  {| url_item := Some url;
     quality_widget := Some (_build_row_quality_combo quality);
     quality_item := None;
     status_item := Some "Queued";
     progress_item := Some "0%" |}.

(** An enqueue operation: the user picks [preset] in the quality box, puts
    [text] in the URL field and presses the button. *)
Definition enqueue (w : MainWindow) (op : string * string) : MainWindow :=
  let '(text, preset) := op in
  enqueue_urls
    (set_url_input text
       (set_quality_combo
          {| combo_text := preset;
             combo_enabled := combo_enabled (quality_combo w) |} w)).

(** The rows an enqueue operation is to add. *)
Definition entries_of (op : string * string) : list Row :=
  map (new_entry (snd op)) (nonblank_lines (fst op)).

(** The number of non-blank lines of a text. *)
Definition count_nonblank (text : string) : nat :=
  length (List.filter nonblank (PyStr.splitlines text)).

(** The progress dictionary of a transfer that is over. *)
Definition data_finished : dict pyval := [("status", PyStr "finished")].

(** A transfer half way, one MiB per second, five seconds to go. *)
Definition data_half : dict pyval :=
  [("status", PyStr "downloading");
   ("downloaded_bytes", PyInt 50);
   ("total_bytes", PyInt 100);
   ("speed", PyInt 1048576);
   ("eta", PyInt 5)].

(** A transfer of unknown size. *)
Definition data_unknown : dict pyval :=
  [("status", PyStr "downloading");
   ("downloaded_bytes", PyInt 50);
   ("total_bytes", PyNone);
   ("total_bytes_estimate", PyFloat fzero)].

(** The status of the dictionary is "downloading". *)
Definition downloading (data : dict pyval) : bool :=
  eq_str (dict_get data "status" (PyStr "")) "downloading".

(** The float 50.0 *)
Definition fifty : float := S754_finite false 7036874417766400 (-47).

(** The characters 0 to 9. *)
Definition is_digit (c : ascii) : bool :=
  ((48 <=? PyStr.ord c) && (PyStr.ord c <=? 57))%N.

(** A text of digits only. *)
Fixpoint all_digits (s : string) : bool :=
  match s with
  | EmptyString => true
  | String c r => is_digit c && all_digits r
  end.

(** A number written with [d] digits after the decimal point. *)
Definition has_decimals (d : nat) (t : string) : Prop :=
  exists ip fp,
    t = (ip ++ "." ++ fp)%string /\ String.length fp = d
    /\ all_digits fp = true.

(** Neither an infinity nor a NaN. *)
Definition is_finite (x : float) : bool :=
  match x with
  | S754_zero _ | S754_finite _ _ _ => true
  | _ => false
  end.

(** The speed text as the specification words it: one decimal. *)
Definition spec_speed_text (speed : pyval) : result string :=
  if is_number speed then
    let* k := truediv speed (PyInt 1024) in
    let* m := truediv (PyFloat k) (PyInt 1024) in
    Ok (format_fixed 1 m ++ " MB/s")%string
  else Ok "N/A".

(** No [finished] signal among the signals. *)
Definition no_finished (sigs : list signal) : bool :=
  forallb (fun s => negb (is_Finished s)) sigs.

(** A computation that never emits [finished]. *)
Definition silent {A} (m : M A) : Prop :=
  forall c, no_finished (fst (fst (m c))) = true.

(** The [finished] signal for the way the body of the [try] ended and the
    value of the cancel flag at that time. *)
Definition final_signal (cancelled : bool) (r : result unit) : signal :=
  match r with
  | Ok _ =>
      if cancelled then Finished false "Download canceled."
      else Finished true "Download completed successfully."
  | Raise e =>
      if is_DownloadError e then
        if cancelled then Finished false "Download canceled."
        else Finished false ("Download failed: " ++ exn_msg e)
      else Finished false ("Error: " ++ exn_msg e)
  end.

(** The slot a signal of the worker is connected to. *)
Definition deliver (w : MainWindow) (s : signal) : MainWindow :=
  match s with
  | Progress percent message => on_progress percent message w
  | Log message => on_log message w
  | Finished success message => on_item_finished success message w
  end.

(** The life of the active item: its worker runs in the world [world], the
    window receives the signals in the order of emission, then the thread
    ends. *)
Definition run_active (world : World) (w : MainWindow) : MainWindow :=
  match worker w with
  | Some d =>
      on_thread_finished (fold_left deliver (fst (fst (run d world))) w)
  | None => w
  end.

(** A window as [MainWindow.__init__] leaves it, with the output folder
    [folder]. *)
Definition fresh_window (folder : string) : MainWindow :=
  {| queue_table := [];
     worker := None;
     current_row := None;
     queue_running := false;
     stop_queue_requested := false;
     url_input := "";
     output_input := folder;
     cookies_input := "";
     quality_combo :=
       {| combo_text := "Best (Video + Audio)"; combo_enabled := true |};
     progress_bar := 0;
     status_label := ("Ready", "idle");
     log_box := [];
     message_boxes := [] |}.

(** A world in which everything works: the download reports the events
    [events] and returns. *)
Definition world_ok (events : list dl_event) : World :=
  {| path_join := fun a b => (a ++ "/" ++ b)%string;
     makedirs := None;
     cookie_exists := false;
     cancel_early := false;
     ydl_enter := None;
     extract_info := Ok (Some [("title", PyStr "a/b: c")]);
     download_events := events;
     download_end := None;
     ydl_exit := None |}.

(** A world in which the metadata query fails. *)
Definition world_unavailable : World :=
  {| path_join := fun a b => (a ++ "/" ++ b)%string;
     makedirs := None;
     cookie_exists := false;
     cancel_early := false;
     ydl_enter := None;
     extract_info := Raise (Exn DownloadError "ERROR: Video unavailable");
     download_events := [];
     download_end := None;
     ydl_exit := None |}.

(** A world in which the disk is full. *)
Definition world_disk_full : World :=
  {| path_join := fun a b => (a ++ "/" ++ b)%string;
     makedirs := Some (Exn (OtherException "OSError") "disk full");
     cookie_exists := false;
     cancel_early := false;
     ydl_enter := None;
     extract_info := Ok None;
     download_events := [];
     download_end := None;
     ydl_exit := None |}.

(** The text of two URLs on three lines, the second one blank, the lines
    ended the Windows way. *)
Definition two_urls : string :=
  ("  https://x.test/a " ++ String CR (String LF "")
   ++ String CR (String LF "") ++ "https://x.test/b" ++ String LF "")%string.

(** Two URLs are queued with the preset 720p (MP4). *)
Definition queued_two : MainWindow :=
  enqueue (fresh_window "/tmp/out") (two_urls, "720p (MP4)").

(** Then the queue is started. *)
Definition started_two : MainWindow := start_queue queued_two.

(** Some character of the text satisfies [p]. *)
Fixpoint any_char (p : ascii -> bool) (s : string) : bool :=
  match s with
  | EmptyString => false
  | String c r => p c || any_char p r
  end.

(** The rows of a table whose number is not among [sel]; [k] is the number
    of the first row of [rows]. *)
Fixpoint without_rows (k : nat) (sel : list nat) (rows : list Row)
  : list Row :=
  match rows with
  | [] => []
  | r :: rest =>
      if existsb (Nat.eqb k) sel then without_rows (S k) sel rest
      else r :: without_rows (S k) sel rest
  end.

(** No [progress] signal among the signals. *)
Definition no_progress (sigs : list signal) : bool :=
  forallb (fun s => negb (is_Progress s)) sigs.

(** A computation that, entered with the cancel flag set, emits no
    [progress] signal and leaves the flag set. *)
Definition cancelled_quiet {A} (m : M A) : Prop :=
  no_progress (fst (fst (m true))) = true /\ snd (fst (m true)) = true.


(** A worker that has been told to cancel before it runs. *)
Definition worker_cancelled : DownloadWorker :=
  {| url := "https://x.test/a"; output_dir := "/tmp/out"; cookie_file := "";
     quality_preset := "720p (MP4)"; _cancelled := true |}.

Definition set_output_input (v : string) (w : MainWindow) : MainWindow :=
  {| queue_table := queue_table w; worker := worker w;
     current_row := current_row w; queue_running := queue_running w;
     stop_queue_requested := stop_queue_requested w;
     url_input := url_input w; output_input := v;
     cookies_input := cookies_input w; quality_combo := quality_combo w;
     progress_bar := progress_bar w; status_label := status_label w;
     log_box := log_box w; message_boxes := message_boxes w |}.

Definition set_cookies_input (v : string) (w : MainWindow) : MainWindow :=
  {| queue_table := queue_table w; worker := worker w;
     current_row := current_row w; queue_running := queue_running w;
     stop_queue_requested := stop_queue_requested w;
     url_input := url_input w; output_input := output_input w;
     cookies_input := v; quality_combo := quality_combo w;
     progress_bar := progress_bar w; status_label := status_label w;
     log_box := log_box w; message_boxes := message_boxes w |}.

(** [MainWindow.choose_folder], lines 797-800; [folder] is what the dialog
    returns, the empty text when it is dismissed. *)
Definition choose_folder (folder : string) (w : MainWindow) : MainWindow :=
  if truthy folder then set_output_input folder w else w.

(** [MainWindow.choose_cookies], lines 802-810; [file_path] is what the
    dialog returns. *)
Definition choose_cookies (file_path : string) (w : MainWindow) : MainWindow :=
  if truthy file_path then set_cookies_input file_path w else w.

(** The user picks the item [name] of the quality box of the window.  The
    boxes list the names of the presets (lines 176 and 840), and a disabled
    box cannot be changed. *)
Definition pick_quality (name : string) (w : MainWindow) : MainWindow :=
  if (combo_enabled (quality_combo w) && dict_mem QUALITY_PRESETS name)%bool
  then set_quality_combo {| combo_text := name; combo_enabled := true |} w
  else w.

(** The same for the box of one row. *)
Definition pick_widget (name : string) (r : Row) : Row :=
  match quality_widget r with
  | Some c =>
      if (combo_enabled c && dict_mem QUALITY_PRESETS name)%bool
      then with_widget {| combo_text := name; combo_enabled := true |} r
      else r
  | None => r
  end.

Definition pick_row_quality (row : nat) (name : string) (w : MainWindow)
  : MainWindow :=
  set_queue_table (alter (pick_widget name) row (queue_table w)) w.

(** What can happen to the window: the actions of the user, and the signals
    of the worker and of its thread. *)
Inductive event :=
  | UEnqueue (text : string)
  | UQuality (name : string)
  | URowQuality (row : nat) (name : string)
  | UOutput (text : string)
  | UCookies (text : string)
  | UChooseFolder (folder : string)
  | UChooseCookies (file_path : string)
  | UStart
  | UCancel
  | URemove (selectedIndexes : list nat)
  | UClear
  | WProgress (percent : float) (message : string)
  | WLog (message : string)
  | WFinished (success : bool) (message : string)
  | WThreadEnd.

(** One step of the window.  The second component tells that the worker has
    emitted [finished] and its thread has not ended yet.  A worker emits its
    signals before its one [finished] signal, and the thread ends after it
    (line 949), so a signal that cannot come in a state is ignored there. *)
Definition step (s : MainWindow * bool) (ev : event) : MainWindow * bool :=
  let '(w, fin) := s in
  match ev with
  | UEnqueue text => (enqueue_urls (set_url_input text w), fin)
  | UQuality name => (pick_quality name w, fin)
  | URowQuality row name => (pick_row_quality row name w, fin)
  | UOutput text => (set_output_input text w, fin)
  | UCookies text => (set_cookies_input text w, fin)
  | UChooseFolder folder => (choose_folder folder w, fin)
  | UChooseCookies file_path => (choose_cookies file_path w, fin)
  | UStart => (start_queue w, fin)
  | UCancel => (cancel_download w, fin)
  | URemove sel => (remove_selected_items sel w, fin)
  | UClear => (clear_finished_items w, fin)
  | WProgress percent message =>
      match worker w, fin with
      | Some _, false => (on_progress percent message w, fin)
      | _, _ => s
      end
  | WLog message =>
      match worker w, fin with
      | Some _, false => (on_log message w, fin)
      | _, _ => s
      end
  | WFinished success message =>
      match worker w, fin with
      | Some _, false => (on_item_finished success message w, true)
      | _, _ => s
      end
  | WThreadEnd =>
      match worker w, fin with
      | Some _, true => (on_thread_finished w, false)
      | _, _ => s
      end
  end.

(** The window after the events [events], from the window [w] at rest. *)
Definition after (events : list event) (w : MainWindow) : MainWindow :=
  fst (fold_left step events (w, false)).

(** One of the five statuses. *)
Definition known_status (s : string) : bool :=
  String.eqb s "Queued" || String.eqb s "Downloading" || String.eqb s "Done"
  || String.eqb s "Failed" || String.eqb s "Canceled".

(** A row with its URL, status and progress items and a quality box that
    shows the name of a preset. *)
Definition row_ok (r : Row) : bool :=
  match url_item r, quality_widget r, status_item r, progress_item r with
  | Some _, Some c, Some s, Some _ =>
      dict_mem QUALITY_PRESETS (combo_text c) && known_status s
  | _, _, _, _ => false
  end.

Definition rows_ok (rows : list Row) : Prop :=
  Forall (fun r => row_ok r = true) rows.

Definition none_downloading (rows : list Row) : Prop :=
  Forall (fun r => has_status "Downloading" r = false) rows.

(** The quality box of the row, if it has one, is enabled. *)
Definition box_enabled (r : Row) : bool :=
  match quality_widget r with
  | Some c => combo_enabled c
  | None => true
  end.

(** The window with no download going on. *)
Definition at_rest (w : MainWindow) : Prop :=
  worker w = None
  /\ current_row w = None
  /\ queue_running w = false
  /\ stop_queue_requested w = false
  /\ none_downloading (queue_table w)
  /\ combo_enabled (quality_combo w) = true
  /\ Forall (fun r => box_enabled r = true) (queue_table w).

(** The window with a worker: the worker belongs to the active row; that row
    is the one being downloaded, or, once [finished] has come, a finished
    one; no other row is being downloaded. *)
Definition active (fin : bool) (w : MainWindow) : Prop :=
  queue_running w = true
  /\ exists d i r,
       worker w = Some d
       /\ current_row w = Some i
       /\ queue_table w !! i = Some r
       /\ url_item r = Some (url d)
       /\ dict_mem QUALITY_PRESETS (quality_preset d) = true
       /\ (_cancelled d = true -> stop_queue_requested w = true)
       /\ (if fin then is_finished_row r = true
           else has_status "Downloading" r = true)
       /\ forall j r', j <> i -> queue_table w !! j = Some r' ->
                       has_status "Downloading" r' = false.

(** What every step keeps. *)
Definition Inv (s : MainWindow * bool) : Prop :=
  rows_ok (queue_table (fst s))
  /\ (0 <= progress_bar (fst s) <= 100)%Z
  /\ ((snd s = false /\ at_rest (fst s)) \/ active (snd s) (fst s)).

(** The number of rows being downloaded. *)
Definition count_downloading (rows : list Row) : nat :=
  length (List.filter (has_status "Downloading") rows).

(** The statuses of the rows of the table, in order. *)
Definition statuses (w : MainWindow) : list (option string) :=
  map status_item (queue_table w).

Definition is_queued (s : option string) : bool :=
  match s with
  | Some t => String.eqb t "Queued"
  | None => false
  end.

(** The place of the first status Queued; [k] is the number of the first
    status of the list. *)
Fixpoint first_queued_from (k : nat) (sts : list (option string))
  : option nat :=
  match sts with
  | [] => None
  | s :: rest => if is_queued s then Some k else first_queued_from (S k) rest
  end.

Definition first_queued (sts : list (option string)) : option nat :=
  first_queued_from 0 sts.

(** The statuses once the first Queued one has become [s]. *)
Definition settle_first (s : option string) (sts : list (option string))
  : list (option string) :=
  match first_queued sts with
  | Some i => <[i := s]> sts
  | None => sts
  end.

(** The status of an item that ended without being cancelled. *)
Definition terminal (success : bool) : option string :=
  Some (if success then "Done" else "Failed").

(** The end of an item as the window sees it: the [finished] signal with the
    outcome [o], then the end of the thread. *)
Definition item_done (w : MainWindow) (o : bool * string) : MainWindow :=
  on_thread_finished (on_item_finished (fst o) (snd o) w).

(** An outcome that [on_item_finished] does not take for a cancellation. *)
Definition not_cancel (o : bool * string) : bool :=
  fst o || negb (contains "cancel" (lower (snd o))).

(** The statuses after the outcomes [outcomes], each one settling the first
    row that is still Queued. *)
Definition settle_all (outcomes : list (bool * string))
  (sts : list (option string)) : list (option string) :=
  fold_left (fun sts o => settle_first (terminal (fst o)) sts) outcomes sts.

(** A queue at work on the statuses [sts]: the first Queued row of [sts] is
    the active one, shown as Downloading, and no stop has been requested. *)
Definition working_on (sts : list (option string)) (w : MainWindow) : Prop :=
  Inv (w, false)
  /\ stop_queue_requested w = false
  /\ Forall (fun s => s <> Some "Downloading") sts
  /\ exists j d,
       first_queued sts = Some j
       /\ current_row w = Some j
       /\ worker w = Some d
       /\ statuses w = <[j := Some "Downloading"]> sts.

(** What a worker reports before its [finished] signal. *)
Inductive report :=
  | ReportProgress (percent : float) (message : string)
  | ReportLog (message : string).

Definition report_event (r : report) : event :=
  match r with
  | ReportProgress percent message => WProgress percent message
  | ReportLog message => WLog message
  end.

(** The events of one item: the reports of its worker, its [finished] signal
    with the outcome, and the end of its thread. *)
Definition item_events (it : list report * (bool * string)) : list event :=
  map report_event (fst it)
  ++ [WFinished (fst (snd it)) (snd (snd it)); WThreadEnd].

(** What the window shows when the queue has run to its end. *)
Definition completed (w : MainWindow) : Prop :=
  queue_running w = false /\ worker w = None /\ current_row w = None
  /\ stop_queue_requested w = false
  /\ status_label w = ("Queue completed.", "success")
  /\ progress_bar w = 100%Z
  /\ _next_queued_row w = None.

(* ===================================================================== *)
(** * Properties of the preset table *)
(* ===================================================================== *)

Section PresetFacts.

Lemma dict_lookup_not_key {V} (d : dict V) (k : string) :
  ~ In k (dict_keys d) -> dict_lookup d k = None.
Proof.
  induction d as [|[k' v] d IH]; simpl; intros H; [reflexivity|].
  destruct (String.eqb_spec k' k) as [->|Hne].
  - exfalso. apply H. now left.
  - apply IH. intros Hin. apply H. now right.
Qed.

Lemma preset_names :
  dict_keys QUALITY_PRESETS =
  ["Best (Video + Audio)"; "1080p (MP4)"; "720p (MP4)"; "Audio Only (MP3)"].
Proof. reflexivity. Qed.

(** C6: resolving a preset name gives the configuration the table holds
    under that name when the name is one of its keys, and the configuration
    of "Best (Video + Audio)" for every other name; it never raises; and
    resolving "Best (Video + Audio)" itself gives that same configuration. *)
Theorem C6_resolve_preset (name : string) :
  (forall cfg, In (name, cfg) QUALITY_PRESETS -> resolve name = Ok cfg)
  /\ (~ In name (dict_keys QUALITY_PRESETS) ->
      resolve name = resolve "Best (Video + Audio)")
  /\ resolve "Best (Video + Audio)" = Ok [("format", PStr "best")]
  /\ (exists cfg, resolve name = Ok cfg).
Proof.
  split; [|split; [|split]].
  - intros cfg Hin. simpl in Hin.
    destruct Hin as [H|[H|[H|[H|[]]]]]; injection H as <- <-; reflexivity.
  - intros Hnot. unfold resolve, dict_get.
    rewrite (dict_lookup_not_key _ _ Hnot). reflexivity.
  - reflexivity.
  - unfold resolve, dict_get. simpl bind.
    destruct (dict_lookup QUALITY_PRESETS name); eauto.
Qed.

Lemma C6_resolve_preset_witness :
  resolve "720p (MP4)"
  = Ok [("format",
         PStr "bestvideo[height<=720]+bestaudio/best[height<=720]/best");
        ("merge_output_format", PStr "mp4")]
  /\ resolve "Potato" = resolve "Best (Video + Audio)".
Proof.
  split.
  - apply (proj1 (C6_resolve_preset "720p (MP4)")).
    simpl. right. right. left. reflexivity.
  - apply (proj1 (proj2 (C6_resolve_preset "Potato"))).
    rewrite preset_names. simpl.
    intros [H|[H|[H|[H|[]]]]]; discriminate H.
Defined.

End PresetFacts.

(* ===================================================================== *)
(** * Properties of the queue *)
(* ===================================================================== *)

Section QueueFacts.

Lemma show_box_same_queue_state (kind title text : string) (w : MainWindow) :
  same_queue_state w (show_box kind title text w).
Proof. repeat split. Qed.

(** C8: while the queue is running, [remove_selected_items] and
    [clear_finished_items] only show a message box: no row is removed, and no
    cell, flag or other part of the queue state changes. *)
Theorem C8_no_removal_while_running (selectedIndexes : list nat)
  (w : MainWindow) :
  queue_running w = true ->
  (remove_selected_items selectedIndexes w
   = show_box "information" "Queue Running"
              "Stop the queue before removing items." w
   /\ same_queue_state w (remove_selected_items selectedIndexes w))
  /\ (clear_finished_items w
      = show_box "information" "Queue Running"
                 "Stop the queue before clearing items." w
      /\ same_queue_state w (clear_finished_items w)).
Proof.
  intros Hrun. unfold remove_selected_items, clear_finished_items.
  rewrite Hrun. repeat split.
Qed.

Lemma C8_no_removal_while_running_witness :
  queue_table (remove_selected_items [0; 1; 2]%nat sample_running)
  = queue_table sample_running
  /\ queue_table (clear_finished_items sample_running)
     = queue_table sample_running.
Proof.
  destruct (C8_no_removal_while_running [0; 1; 2]%nat sample_running
              eq_refl)
    as [[_ [Hr _]] [_ [Hc _]]].
  split; [exact Hr | exact Hc].
Defined.

(** No row of the table has the status Queued exactly when the loop of
    [_next_queued_row] finds nothing. *)
Lemma next_queued_from_None (rows : list Row) (k : nat) :
  next_queued_from k rows = None <->
  (forall r, In r rows -> status_item r <> Some "Queued").
Proof.
  revert k. induction rows as [|r rows IH]; intros k; simpl.
  - split; [intros _ r [] | reflexivity].
  - unfold has_status at 1. destruct (status_item r) as [t|] eqn:Et.
    + destruct (String.eqb_spec t "Queued") as [->|Hne].
      * split; [discriminate|]. intros H. exfalso.
        apply (H r); [now left | exact Et].
      * rewrite IH. split.
        -- intros H r' [<-|Hin]; [congruence | now apply H].
        -- intros H r' Hin. apply H. now right.
    + rewrite IH. split.
      * intros H r' [<-|Hin]; [congruence | now apply H].
      * intros H r' Hin. apply H. now right.
Qed.

Lemma truthy_false_iff (s : string) : PyStr.truthy s = false <-> s = "".
Proof. destruct s; simpl; split; congruence. Qed.

(** C9: [start_queue] does nothing when the queue is running.  When it is
    not, and the output folder is blank or no entry has the status Queued,
    it shows a message box and changes nothing else: the rows with their
    status and progress cells stay as they are and [queue_running] stays
    false. *)
Theorem C9_start_queue_validation (w : MainWindow) :
  (queue_running w = true -> start_queue w = w)
  /\ (queue_running w = false ->
      blank (output_input w)
      \/ (forall r, In r (queue_table w) -> status_item r <> Some "Queued") ->
      (exists box, message_boxes (start_queue w) = message_boxes w ++ [box])
      /\ same_queue_state w (start_queue w)
      /\ queue_running (start_queue w) = false).
Proof.
  split.
  - intros Hrun. unfold start_queue. rewrite Hrun. reflexivity.
  - intros Hrun Hbad. unfold start_queue. rewrite Hrun.
    destruct (PyStr.truthy (PyStr.strip (output_input w))) eqn:Eout; simpl.
    + destruct Hbad as [Hblank|Hnone].
      * unfold blank in Hblank. rewrite Hblank in Eout. discriminate.
      * apply (next_queued_from_None _ 0%nat) in Hnone.
        unfold _next_queued_row. rewrite Hnone.
        split; [eexists; reflexivity|].
        split; [apply show_box_same_queue_state | exact Hrun].
    + split; [eexists; reflexivity|].
      split; [apply show_box_same_queue_state | exact Hrun].
Qed.

Lemma C9_start_queue_validation_witness :
  start_queue sample_running = sample_running
  /\ queue_table (start_queue sample_no_folder) = queue_table sample_no_folder
  /\ queue_running (start_queue sample_no_folder) = false.
Proof.
  split.
  - apply (proj1 (C9_start_queue_validation sample_running)). reflexivity.
  - destruct (proj2 (C9_start_queue_validation sample_no_folder)
                eq_refl (or_introl eq_refl)) as (_ & (Ht & _) & Hr).
    split; [exact Ht | exact Hr].
Defined.

(** ** The outcome of an item *)

Lemma append_assoc (a b c : string) : ((a ++ b) ++ c = a ++ (b ++ c))%string.
Proof. induction a as [|x a IH]; simpl; [reflexivity | now rewrite IH]. Qed.

Lemma append_empty_r (a : string) : (a ++ "" = a)%string.
Proof. induction a as [|x a IH]; simpl; [reflexivity | now rewrite IH]. Qed.

Lemma prefix_iff (n s : string) :
  String.prefix n s = true <-> exists post, s = (n ++ post)%string.
Proof.
  revert s. induction n as [|c n IH]; intros s.
  - split; [intros _; now exists s | now destruct s].
  - destruct s as [|c' s]; simpl.
    + split; [discriminate | intros [post H]; discriminate].
    + destruct (ascii_dec c c') as [->|Hne].
      * rewrite IH. split; intros [post H]; exists post; congruence.
      * split; [discriminate | intros [post H]; congruence].
Qed.

(** [needle in s] holds exactly when [s] is some text, the needle, and some
    more text. *)
Lemma contains_iff (n s : string) :
  PyStr.contains n s = true <->
  exists pre post, s = (pre ++ n ++ post)%string.
Proof.
  induction s as [|c s IH].
  - cbn [PyStr.contains]. rewrite orb_false_r, prefix_iff. split.
    + intros [post H]. now exists ""%string, post.
    + intros (pre & post & H). destruct pre; simpl in H.
      * now exists post.
      * discriminate.
  - cbn [PyStr.contains]. rewrite orb_true_iff, prefix_iff, IH. split.
    + intros [[post H]|(pre & post & H)].
      * now exists ""%string, post.
      * exists (String c pre), post. simpl. now rewrite H.
    + intros (pre & post & H). destruct pre as [|c' pre]; simpl in H.
      * left. now exists post.
      * right. exists pre, post. congruence.
Qed.

Lemma lower_append (a b : string) :
  PyStr.lower (a ++ b) = (PyStr.lower a ++ PyStr.lower b)%string.
Proof. induction a as [|x a IH]; simpl; [reflexivity | now rewrite IH]. Qed.

Lemma lower_split (s x y : string) :
  PyStr.lower s = (x ++ y)%string ->
  exists a b, s = (a ++ b)%string /\ PyStr.lower a = x /\ PyStr.lower b = y.
Proof.
  revert s. induction x as [|c x IH]; intros s H; simpl in H.
  - now exists ""%string, s.
  - destruct s as [|c' s]; simpl in H; [discriminate|].
    injection H as Hc H. destruct (IH _ H) as (a & b & -> & Ha & Hb).
    exists (String c' a), b. simpl. now rewrite Hc, Ha.
Qed.

Lemma contains_cancel_iff (message : string) :
  PyStr.contains "cancel" (PyStr.lower message) = true
  <-> mentions_cancel message.
Proof.
  rewrite contains_iff. unfold mentions_cancel. split.
  - intros (x & z & H).
    apply lower_split in H as (pre & rest & -> & _ & H).
    apply lower_split in H as (mid & post & -> & Hmid & _).
    now exists pre, mid, post.
  - intros (pre & mid & post & -> & Hmid).
    exists (PyStr.lower pre), (PyStr.lower post).
    now rewrite !lower_append, Hmid.
Qed.

Example mentions_cancel_upper :
  PyStr.contains "cancel" (PyStr.lower "Download CANCELED by user.") = true.
Proof. reflexivity. Qed.

Example mentions_cancel_not :
  PyStr.contains "cancel" (PyStr.lower "Download failed: HTTP Error 404")
  = false.
Proof. reflexivity. Qed.

Lemma on_item_finished_table (success : bool) (message : string)
  (w : MainWindow) (row : nat) :
  current_row w = Some row ->
  queue_table (on_item_finished success message w)
  = alter (fun r =>
             with_item COL_PROGRESS
               (snd (finished_cells success message
                       (default empty_row (queue_table w !! row))))
               (with_item COL_STATUS
                  (fst (finished_cells success message
                          (default empty_row (queue_table w !! row)))) r))
          row (queue_table w).
Proof.
  intros Hcur. unfold on_item_finished, finished_cells. rewrite Hcur.
  destruct success; [|destruct (PyStr.contains _ _)]; cbn -[alter];
    rewrite list_alter_alter_eq; try reflexivity.
  destruct (queue_table w !! row); reflexivity.
Qed.

(** C1: the active entry after the task's [finished] event.  On success its
    status is Done and its progress text 100%.  On failure with a message
    that mentions cancel, in any case of the letters, its status is Canceled
    and its progress text stays what it was; on any other failure its status
    is Failed and its progress text 0%.  The URL and the quality of the entry
    and all the other entries stay as they are. *)
Theorem C1_finished_event_status (w : MainWindow) (row : nat) (r : Row)
  (p : string) (success : bool) (message : string) :
  current_row w = Some row ->
  queue_table w !! row = Some r ->
  progress_item r = Some p ->
  (forall j, j <> row ->
     queue_table (on_item_finished success message w) !! j
     = queue_table w !! j)
  /\ exists r',
       queue_table (on_item_finished success message w) !! row = Some r'
       /\ url_item r' = url_item r
       /\ quality_widget r' = quality_widget r
       /\ (success = true ->
           status_item r' = Some "Done" /\ progress_item r' = Some "100%")
       /\ (success = false -> mentions_cancel message ->
           status_item r' = Some "Canceled" /\ progress_item r' = Some p)
       /\ (success = false -> ~ mentions_cancel message ->
           status_item r' = Some "Failed" /\ progress_item r' = Some "0%").
Proof.
  intros Hcur Hrow Hp.
  rewrite (on_item_finished_table _ _ _ _ Hcur). split.
  - intros j Hj. now rewrite list_lookup_alter_ne.
  - rewrite list_lookup_alter_eq, Hrow. cbn -[finished_cells].
    eexists. split; [reflexivity|]. cbn -[finished_cells].
    split; [reflexivity|]. split; [reflexivity|].
    unfold finished_cells. rewrite Hp.
    destruct success.
    + split; [auto|]. split; discriminate.
    + split; [discriminate|].
      destruct (PyStr.contains "cancel" (PyStr.lower message)) eqn:E.
      * apply contains_cancel_iff in E. split; [auto | tauto].
      * assert (~ mentions_cancel message) as Hn.
        { rewrite <- contains_cancel_iff. congruence. }
        split; [tauto | auto].
Qed.

Lemma C1_finished_event_status_witness :
  exists r',
    queue_table (on_item_finished false "Download canceled." sample_running)
    !! 0%nat = Some r'
    /\ status_item r' = Some "Canceled"
    /\ progress_item r' = Some "42.3%".
Proof.
  destruct (C1_finished_event_status sample_running 0
              (sample_row "https://x.test/a" "Downloading" "42.3%") "42.3%"
              false "Download canceled." eq_refl eq_refl eq_refl)
    as [_ (r' & Hr' & _ & _ & _ & Hcancel & _)].
  exists r'. split; [exact Hr'|].
  apply Hcancel; [reflexivity|].
  apply contains_cancel_iff. reflexivity.
Defined.

(** ** A cancellation stops the queue *)

Lemma fold_left_invariant {A B} (P : A -> Prop) (f : A -> B -> A)
  (l : list B) (a : A) :
  (forall a b, P a -> P (f a b)) -> P a -> P (fold_left f l a).
Proof.
  intros Hf. revert a. induction l as [|b l IH]; intros a Ha; simpl; auto.
Qed.

Lemma start_next_item_stop (w : MainWindow) :
  stop_queue_requested w = true ->
  _start_next_item w = _finish_queue "Queue stopped." "warning" w.
Proof. intros H. simp _start_next_item. rewrite H. reflexivity. Qed.

Lemma enqueue_urls_flags (w : MainWindow) :
  queue_running (enqueue_urls w) = queue_running w
  /\ stop_queue_requested (enqueue_urls w) = stop_queue_requested w.
Proof.
  unfold enqueue_urls.
  destruct (negb (PyStr.truthy (PyStr.strip (url_input w))));
    [split; reflexivity|].
  cbn -[fold_left].
  apply (fold_left_invariant
           (fun w' => queue_running w' = queue_running w
                      /\ stop_queue_requested w' = stop_queue_requested w)).
  - intros a b [H1 H2]. split; assumption.
  - split; reflexivity.
Qed.

Lemma handle_stopping (w : MainWindow) (ev : gui_event) :
  stopping w -> stopping (handle w ev).
Proof.
  intros [Hrun Hstop]. unfold stopping. destruct ev; simpl.
  - destruct (enqueue_urls_flags (set_url_input text w)) as [-> ->].
    split; assumption.
  - unfold start_queue. rewrite Hrun. split; assumption.
  - unfold cancel_download. destruct (worker w); simpl.
    + split; [assumption | reflexivity].
    + rewrite Hrun. simpl. split; [assumption | reflexivity].
  - unfold remove_selected_items. rewrite Hrun. split; assumption.
  - unfold clear_finished_items. rewrite Hrun. split; assumption.
  - unfold on_progress. destruct (int_of_float percent); [|split; assumption].
    destruct (current_row w); split; assumption.
  - split; assumption.
Qed.

Lemma map_with_widget_enabled (b : bool) (rows : list Row) :
  map url_item (map (with_widget_enabled b) rows) = map url_item rows
  /\ map status_item (map (with_widget_enabled b) rows) = map status_item rows
  /\ map progress_item (map (with_widget_enabled b) rows)
     = map progress_item rows.
Proof.
  rewrite !map_map. repeat split; apply map_ext; intros r;
    unfold with_widget_enabled; destruct (quality_widget r); reflexivity.
Qed.

(** The end of the thread on a queue that has been told to stop: the queue
    is finalized and no entry is touched. *)
Lemma on_thread_finished_stopping (w : MainWindow) :
  stopping w ->
  on_thread_finished w
  = _finish_queue "Queue stopped." "warning"
      (set_current_row None (set_worker None w))
  /\ queue_running (on_thread_finished w) = false
  /\ worker (on_thread_finished w) = None
  /\ current_row (on_thread_finished w) = None
  /\ status_label (on_thread_finished w) = ("Queue stopped.", "warning")
  /\ log_box (on_thread_finished w) = log_box w ++ ["Queue stopped."]
  /\ map url_item (queue_table (on_thread_finished w))
     = map url_item (queue_table w)
  /\ map status_item (queue_table (on_thread_finished w))
     = map status_item (queue_table w)
  /\ map progress_item (queue_table (on_thread_finished w))
     = map progress_item (queue_table w).
Proof.
  intros [Hrun Hstop].
  assert (on_thread_finished w
          = _finish_queue "Queue stopped." "warning"
              (set_current_row None (set_worker None w))) as ->.
  { unfold on_thread_finished. cbn [queue_running set_current_row set_worker].
    rewrite Hrun. apply start_next_item_stop. exact Hstop. }
  split; [reflexivity|].
  destruct (map_with_widget_enabled true (queue_table w)) as (Hu & Hs & Hp).
  repeat split; assumption.
Qed.

(** C10: a [finished] event whose message mentions cancel sets
    [stop_queue_requested].  Whatever the user and the worker make the window
    do before the thread of the item ends, the scheduling step at the end of
    the thread then finalizes the queue with "Queue stopped.": the queue is
    no longer running, and no entry changes its status, so an entry that is
    Queued stays Queued. *)
Theorem C10_cancel_halts_queue (w : MainWindow) (row : nat)
  (message : string) (events : list gui_event) :
  current_row w = Some row ->
  queue_running w = true ->
  mentions_cancel message ->
  stop_queue_requested (on_item_finished false message w) = true
  /\ _start_next_item (on_item_finished false message w)
     = _finish_queue "Queue stopped." "warning"
         (on_item_finished false message w)
  /\ queue_running
       (on_thread_finished
          (fold_left handle events (on_item_finished false message w)))
     = false
  /\ status_label
       (on_thread_finished
          (fold_left handle events (on_item_finished false message w)))
     = ("Queue stopped.", "warning")
  /\ map status_item
       (queue_table
          (on_thread_finished
             (fold_left handle events (on_item_finished false message w))))
     = map status_item
         (queue_table
            (fold_left handle events (on_item_finished false message w))).
Proof.
  intros Hcur Hrun Hmsg. apply contains_cancel_iff in Hmsg.
  assert (stopping (on_item_finished false message w)) as Hst.
  { unfold stopping, on_item_finished. rewrite Hcur, Hmsg. simpl.
    split; [exact Hrun | reflexivity]. }
  split; [apply Hst|].
  split; [apply start_next_item_stop, Hst|].
  assert (stopping (fold_left handle events (on_item_finished false message w)))
    as Hst'.
  { apply fold_left_invariant; [apply handle_stopping | exact Hst]. }
  destruct (on_thread_finished_stopping _ Hst')
    as (_ & H1 & _ & _ & H2 & _ & _ & H3 & _).
  repeat split; assumption.
Qed.

Lemma C10_cancel_halts_queue_witness :
  map status_item
    (queue_table
       (on_thread_finished
          (fold_left handle [EvEnqueue "https://x.test/e"; EvStart]
             (on_item_finished false "Download canceled." sample_running))))
  = [Some "Canceled"; Some "Queued"; Some "Done"; Some "Queued"].
Proof.
  destruct (C10_cancel_halts_queue sample_running 0 "Download canceled."
              [EvEnqueue "https://x.test/e"; EvStart] eq_refl eq_refl)
    as (_ & _ & _ & _ & H).
  - apply contains_cancel_iff. reflexivity.
  - rewrite H. reflexivity.
Defined.

(** ** Clearing the finished entries *)

Lemma set_queue_table_same (w : MainWindow) :
  set_queue_table (queue_table w) w = w.
Proof. destruct w; reflexivity. Qed.

(** The removal loop acts on the table only. *)
Lemma fold_removeRow (l : list nat) (w : MainWindow) :
  fold_left (fun w row => set_queue_table (removeRow row (queue_table w)) w)
            l w
  = set_queue_table
      (fold_left (fun t row => removeRow row t) l (queue_table w)) w.
Proof.
  rewrite <- (set_queue_table_same w) at 1.
  generalize (queue_table w) as t.
  induction l as [|row l IH]; intros t; simpl; [reflexivity|].
  apply (IH (removeRow row t)).
Qed.

(** Removing the rows collected by the first loop, last one first, keeps
    the rows that were not collected, in their order.  [pre] are the rows
    before the part of the table that the loop still has to read. *)
Lemma remove_collected (rows pre : list Row) :
  fold_left (fun t row => removeRow row t)
            (rev (removable_from (length pre) rows)) (pre ++ rows)
  = pre ++ List.filter (fun r => negb (is_finished_row r)) rows.
Proof.
  revert pre. induction rows as [|r rows IH]; intros pre; simpl.
  - reflexivity.
  - specialize (IH (pre ++ [r])).
    rewrite length_app, Nat.add_1_r, <- app_assoc in IH. simpl in IH.
    destruct (is_finished_row r); simpl.
    + rewrite fold_left_app, IH, <- app_assoc. simpl. unfold removeRow.
      apply delete_middle.
    + rewrite IH, <- app_assoc. reflexivity.
Qed.

Lemma is_finished_row_iff (r : Row) :
  is_finished_row r = true <-> finished_status r.
Proof.
  unfold is_finished_row, finished_status, has_status.
  destruct (status_item r) as [t|].
  - rewrite !orb_true_iff, !String.eqb_eq. split.
    + intros [[H|H]|H]; subst; auto.
    + intros [H|[H|H]]; injection H as ->; auto.
  - split; [discriminate | intros [H|[H|H]]; discriminate].
Qed.

(** C7: when the queue is not running, [clear_finished_items] leaves in the
    table exactly the rows whose status is none of Done, Failed and Canceled,
    each one unchanged and in the order they had; the flags of the queue and
    the active row are not touched. *)
Theorem C7_clear_finished_items (w : MainWindow) :
  queue_running w = false ->
  queue_table (clear_finished_items w)
  = List.filter (fun r => negb (is_finished_row r)) (queue_table w)
  /\ (forall r, In r (queue_table (clear_finished_items w)) <->
                In r (queue_table w) /\ ~ finished_status r)
  /\ queue_running (clear_finished_items w) = false
  /\ stop_queue_requested (clear_finished_items w) = stop_queue_requested w
  /\ current_row (clear_finished_items w) = current_row w
  /\ worker (clear_finished_items w) = worker w.
Proof.
  intros Hrun.
  assert (queue_table (clear_finished_items w)
          = List.filter (fun r => negb (is_finished_row r)) (queue_table w))
    as Htable.
  { pose proof (remove_collected (queue_table w) []) as H.
    cbn [length app] in H.
    unfold clear_finished_items. rewrite Hrun, fold_removeRow.
    set (l := removable_from 0 (queue_table w)) in *.
    transitivity (fold_left (fun t row => removeRow row t) (rev l)
                            (queue_table w)); [|exact H].
    destruct l; reflexivity. }
  split; [exact Htable|]. split.
  - intros r. rewrite Htable, filter_In, negb_true_iff.
    rewrite <- is_finished_row_iff.
    destruct (is_finished_row r); intuition congruence.
  - unfold clear_finished_items. rewrite Hrun, fold_removeRow.
    destruct (removable_from 0 (queue_table w)); repeat split; assumption.
Qed.

Lemma C7_clear_finished_items_witness :
  queue_table (clear_finished_items sample_idle)
  = [sample_row "https://x.test/b" "Queued" "0%"].
Proof.
  rewrite (proj1 (C7_clear_finished_items sample_idle eq_refl)).
  reflexivity.
Defined.

End QueueFacts.

(* ===================================================================== *)
(** * Lines of a text *)
(* ===================================================================== *)

Section LineFacts.

Lemma linebreak_isspace (c : ascii) :
  is_linebreak c = true -> isspace c = true.
Proof.
  destruct c as [[] [] [] [] [] [] [] []]; vm_compute; intros H;
    first [reflexivity | discriminate H].
Qed.

Lemma strip_space_cons (c : ascii) (s : string) :
  isspace c = true -> strip (String c s) = strip s.
Proof. intros H. unfold strip. simpl. now rewrite H. Qed.

Lemma nonblank_space_cons (c : ascii) (s : string) :
  isspace c = true -> nonblank (String c s) = nonblank s.
Proof. intros H. unfold nonblank. now rewrite strip_space_cons. Qed.

Lemma rstrip_app_space (s : string) (c : ascii) :
  isspace c = true -> rstrip (s ++ String c "") = rstrip s.
Proof.
  intros H. induction s as [|a s IH]; simpl.
  - now rewrite H.
  - now rewrite IH.
Qed.

Lemma strip_app_space (s : string) (c : ascii) :
  isspace c = true -> strip (s ++ String c "") = strip s.
Proof.
  intros H. unfold strip. induction s as [|a s IH]; simpl.
  - now rewrite H.
  - destruct (isspace a); [exact IH|].
    apply (rstrip_app_space (String a s)). exact H.
Qed.

Lemma split_step (cur : string) (c : ascii) (s : string) :
  is_linebreak c = false ->
  splitlines_from cur (String c s) = splitlines_from (cur ++ String c "") s.
Proof. intros H. simpl. now rewrite H. Qed.

Lemma split_break (cur : string) (c : ascii) (s : string) :
  is_linebreak c = true ->
  splitlines_from cur (String c s)
  = cur :: splitlines_from "" (after_break c s).
Proof.
  intros H. simpl. rewrite H. f_equal.
  destruct s as [|c' r']; simpl; [reflexivity|].
  destruct (Ascii.eqb c CR && Ascii.eqb c' LF)%bool; reflexivity.
Qed.

Lemma split_end (cur : string) :
  nonblank_lines_from cur "" = line_entry cur.
Proof.
  unfold nonblank_lines_from, line_entry.
  destruct cur as [|a cur]; [reflexivity|].
  simpl. destruct (nonblank (String a cur)); reflexivity.
Qed.

(** The text read so far only extends the first line. *)
Lemma split_first_line (c : ascii) (s : string) :
  exists l ls,
    forall cur, splitlines_from cur (String c s) = (cur ++ l)%string :: ls.
Proof.
  revert c. induction s as [|c' s IH]; intros c.
  - destruct (is_linebreak c) eqn:E.
    + exists ""%string, []. intros cur. rewrite split_break by exact E.
      now rewrite append_empty_r.
    + exists (String c ""), []. intros cur. rewrite split_step by exact E.
      simpl. destruct cur; reflexivity.
  - destruct (is_linebreak c) eqn:E.
    + exists ""%string, (splitlines_from "" (after_break c (String c' s))).
      intros cur. rewrite split_break by exact E.
      now rewrite append_empty_r.
    + destruct (IH c') as (l & ls & H).
      exists (String c l), ls. intros cur.
      rewrite split_step by exact E. rewrite H.
      now rewrite append_assoc.
Qed.

Lemma after_break_lines (c : ascii) (s : string) :
  nonblank_lines_from "" (after_break c s) = nonblank_lines_from "" s.
Proof.
  destruct s as [|c' r']; simpl; [reflexivity|].
  destruct (Ascii.eqb c CR && Ascii.eqb c' LF)%bool eqn:E; [|reflexivity].
  apply andb_true_iff in E as [_ E]. apply Ascii.eqb_eq in E. subst c'.
  unfold nonblank_lines_from. rewrite (split_break "" LF) by reflexivity.
  destruct r' as [|c2 r2]; reflexivity.
Qed.

(** A line boundary closes the line read so far. *)
Lemma lines_break (cur : string) (c : ascii) (s : string) :
  is_linebreak c = true ->
  nonblank_lines_from cur (String c s)
  = line_entry cur ++ nonblank_lines_from "" s.
Proof.
  intros H. rewrite <- (after_break_lines c s).
  unfold nonblank_lines_from, line_entry. rewrite split_break by exact H.
  simpl. destruct (nonblank cur); reflexivity.
Qed.

(** White space in front of a text adds no line to it. *)
Lemma lines_space_cons (c : ascii) (s : string) :
  isspace c = true ->
  nonblank_lines_from "" (String c s) = nonblank_lines_from "" s.
Proof.
  intros Hc. destruct (is_linebreak c) eqn:E.
  - rewrite lines_break by exact E. reflexivity.
  - unfold nonblank_lines_from. rewrite split_step by exact E.
    destruct s as [|c' s].
    + simpl. rewrite (nonblank_space_cons c "" Hc). reflexivity.
    + destruct (split_first_line c' s) as (l & ls & H).
      rewrite !H. cbn [append map List.filter].
      rewrite (nonblank_space_cons c l Hc).
      destruct (nonblank l); cbn [map]; [|reflexivity].
      now rewrite (strip_space_cons c l Hc).
Qed.

Lemma lines_lstrip (s : string) :
  nonblank_lines_from "" (lstrip s) = nonblank_lines_from "" s.
Proof.
  induction s as [|c s IH]; simpl; [reflexivity|].
  destruct (isspace c) eqn:E; [|reflexivity].
  now rewrite IH, lines_space_cons.
Qed.

Lemma line_entry_app_space (cur : string) (c : ascii) :
  isspace c = true -> line_entry (cur ++ String c "") = line_entry cur.
Proof.
  intros H. unfold line_entry, nonblank. now rewrite strip_app_space.
Qed.

Lemma lines_rstrip (s cur : string) :
  nonblank_lines_from cur (rstrip s) = nonblank_lines_from cur s.
Proof.
  revert cur. induction s as [|c s IH]; intros cur; [reflexivity|].
  cbn [rstrip]. destruct (is_linebreak c) eqn:E.
  - rewrite (lines_break cur c s E), <- (IH "").
    rewrite (linebreak_isspace c E).
    destruct (rstrip s) as [|c2 R] eqn:ER.
    + rewrite !split_end, app_nil_r. reflexivity.
    + rewrite (lines_break cur c _ E). reflexivity.
  - unfold nonblank_lines_from at 2. rewrite split_step by exact E.
    fold (nonblank_lines_from (cur ++ String c "")%string s).
    rewrite <- (IH (cur ++ String c "")%string).
    destruct (rstrip s) as [|c2 R] eqn:ER.
    + destruct (isspace c) eqn:Ec.
      * rewrite !split_end. symmetry. now apply line_entry_app_space.
      * unfold nonblank_lines_from. now rewrite split_step by exact E.
    + unfold nonblank_lines_from. now rewrite split_step by exact E.
Qed.

(** Stripping a text first does not change its non-blank lines. *)
Lemma nonblank_lines_strip (text : string) :
  nonblank_lines (strip text) = nonblank_lines text.
Proof.
  change (nonblank_lines_from "" (strip text) = nonblank_lines_from "" text).
  unfold strip. now rewrite lines_rstrip, lines_lstrip.
Qed.

Lemma nonblank_lines_blank (text : string) :
  strip text = "" -> nonblank_lines text = [].
Proof. intros H. now rewrite <- nonblank_lines_strip, H. Qed.

End LineFacts.

(* ===================================================================== *)
(** * Enqueueing *)
(* ===================================================================== *)

Section EnqueueFacts.

Lemma insertRow_end (rows : list Row) :
  insertRow (length rows) rows = rows ++ [empty_row].
Proof.
  unfold insertRow. rewrite Nat.leb_refl, firstn_all, drop_all. reflexivity.
Qed.

Lemma alter_end (f : Row -> Row) (rows : list Row) (r : Row) :
  alter f (length rows) (rows ++ [r]) = rows ++ [f r].
Proof.
  rewrite <- (Nat.add_0_r (length rows)). now rewrite alter_app_r.
Qed.

Lemma append_queue_row_table (url quality : string) (w : MainWindow) :
  _append_queue_row url quality w
  = set_queue_table (queue_table w ++ [new_entry quality url]) w.
Proof.
  unfold _append_queue_row, _set_row_text.
  cbn [queue_table set_queue_table].
  rewrite insertRow_end, !alter_end. reflexivity.
Qed.

Lemma append_queue_rows_table (urls : list string) (quality : string)
  (w : MainWindow) :
  fold_left (fun w url => _append_queue_row url quality w) urls w
  = set_queue_table (queue_table w ++ map (new_entry quality) urls) w.
Proof.
  revert w. induction urls as [|url urls IH]; intros w; simpl.
  - rewrite app_nil_r. symmetry. apply set_queue_table_same.
  - rewrite IH, append_queue_row_table.
    cbn [queue_table set_queue_table]. now rewrite <- app_assoc.
Qed.

(** One press of the button: the rows of the non-blank lines of the text
    in the URL field are added after the rows of the table. *)
Lemma enqueue_urls_table (w : MainWindow) :
  queue_table (enqueue_urls w)
  = queue_table w
    ++ map (new_entry (combo_text (quality_combo w)))
           (nonblank_lines (url_input w)).
Proof.
  unfold enqueue_urls.
  destruct (PyStr.truthy (PyStr.strip (url_input w))) eqn:E; simpl negb; cbv iota.
  - rewrite <- nonblank_lines_strip.
    cbn [queue_table set_status set_status_label appendPlainText set_log_box
         set_url_input].
    rewrite append_queue_rows_table. reflexivity.
  - apply truthy_false_iff in E.
    rewrite (nonblank_lines_blank _ E). simpl. now rewrite app_nil_r.
Qed.

Lemma enqueue_table (w : MainWindow) (op : string * string) :
  queue_table (enqueue w op) = queue_table w ++ entries_of op.
Proof. destruct op as [text preset]. apply enqueue_urls_table. Qed.

(** C5: after any sequence of enqueue operations the table is the table
    before them followed, operation by operation and line by line, by one
    row for each non-blank line: its URL is the stripped line, its status
    Queued and its progress text 0%.  Rows are added whether or not the
    table already has the URL.  From an empty table the number of rows is the
    number of non-blank lines submitted. *)
Theorem C5_enqueue_appends (ops : list (string * string)) (w : MainWindow) :
  queue_table (fold_left enqueue ops w)
  = queue_table w ++ concat (map entries_of ops)
  /\ length (queue_table (fold_left enqueue ops w))
     = (length (queue_table w)
        + list_sum (map (fun op => count_nonblank (fst op)) ops))%nat
  /\ (forall r, In r (concat (map entries_of ops)) ->
        status_item r = Some "Queued" /\ progress_item r = Some "0%").
Proof.
  assert (queue_table (fold_left enqueue ops w)
          = queue_table w ++ concat (map entries_of ops)) as Htable.
  { revert w. induction ops as [|op ops IH]; intros w; simpl.
    - now rewrite app_nil_r.
    - rewrite IH, enqueue_table. now rewrite <- app_assoc. }
  split; [exact Htable|]. split.
  - rewrite Htable, length_app. f_equal.
    clear. induction ops as [|op ops IH]; simpl; [reflexivity|].
    rewrite length_app, IH. f_equal.
    unfold entries_of, nonblank_lines, count_nonblank.
    now rewrite !length_map.
  - intros r Hin. apply in_concat in Hin as (l & Hl & Hr).
    apply in_map_iff in Hl as (op & <- & _).
    apply in_map_iff in Hr as (url & <- & _). split; reflexivity.
Qed.

End EnqueueFacts.

(* ===================================================================== *)
(** * The progress hook *)
(* ===================================================================== *)

Section HookFacts.

Example hook_half :
  _progress_hook false data_half
  = Ok [Progress fifty "50.0% | 1.00 MB/s | ETA: 5s"].
Proof. reflexivity. Qed.

Example hook_unknown :
  _progress_hook false data_unknown
  = Ok [Progress (float_lit 0) "Downloading..."].
Proof. reflexivity. Qed.

Example hook_cancelled :
  _progress_hook true data_half
  = Raise (Exn DownloadError "Download canceled by user.").
Proof. reflexivity. Qed.

(** C3, as stated, fails for the notification that the transfer is over: the
    dictionary carries no total, the total of the hook is the fallback 0,
    and the event is (100, "Download complete, processing file..."), with a
    positive percent. *)
Lemma C3_counterexample_finished :
  total_of data_finished = PyInt 0
  /\ _progress_hook false data_finished
     = Ok [Progress (float_lit 100) "Download complete, processing file..."]
  /\ float_pos (float_lit 100) = true.
Proof. repeat split. Qed.

(** C3, amended: for every invocation of the hook whose status is
    "downloading", an event with a positive percent is emitted only when the
    total (total_bytes, or else total_bytes_estimate) is known and positive;
    and when the total is unknown or zero and the download is not cancelled,
    the hook emits exactly the event (0, "Downloading...").  The event of the
    status "finished" is (100, "Download complete, processing file...")
    whatever the total. *)
Theorem C3_percent_needs_total (cancelled : bool) (data : dict pyval) :
  (downloading data = true ->
   forall sigs percent message,
     _progress_hook cancelled data = Ok sigs ->
     In (Progress percent message) sigs ->
     float_pos percent = true ->
     gt_zero (total_of data) = Ok true)
  /\ (downloading data = true ->
      cancelled = false ->
      total_of data = PyInt 0 ->
      _progress_hook cancelled data
      = Ok [Progress (float_lit 0) "Downloading..."])
  /\ (downloading data = false ->
      cancelled = false ->
      eq_str (dict_get data "status" (PyStr "")) "finished" = true ->
      _progress_hook cancelled data
      = Ok [Progress (float_lit 100) "Download complete, processing file..."]).
Proof.
  unfold downloading, _progress_hook. split; [|split].
  - intros Hst sigs percent message Hrun Hin Hpos.
    destruct cancelled; [discriminate|]. rewrite Hst in Hrun.
    destruct (gt_zero (total_of data)) as [[]|e]; simpl in Hrun;
      [reflexivity| |discriminate].
    injection Hrun as <-. destruct Hin as [Hin|[]].
    injection Hin as <- _. discriminate Hpos.
  - intros Hst -> Htot. rewrite Hst, Htot. reflexivity.
  - intros Hst -> Hfin. rewrite Hst, Hfin. reflexivity.
Qed.

Lemma C3_percent_needs_total_witness :
  _progress_hook false data_unknown
  = Ok [Progress (float_lit 0) "Downloading..."]
  /\ gt_zero (total_of data_half) = Ok true.
Proof.
  split.
  - apply (proj1 (proj2 (C3_percent_needs_total false data_unknown)));
      reflexivity.
  - apply (proj1 (C3_percent_needs_total false data_half) eq_refl
             [Progress fifty "50.0% | 1.00 MB/s | ETA: 5s"]
             fifty "50.0% | 1.00 MB/s | ETA: 5s");
      [reflexivity | now left | reflexivity].
Defined.

(** ** The progress message *)

Lemma length_append (a b : string) :
  String.length (a ++ b) = (String.length a + String.length b)%nat.
Proof. induction a as [|c a IH]; simpl; [reflexivity | now rewrite IH]. Qed.

Lemma all_digits_append (a b : string) :
  all_digits (a ++ b) = (all_digits a && all_digits b)%bool.
Proof.
  induction a as [|c a IH]; simpl; [reflexivity|].
  now rewrite IH, andb_assoc.
Qed.

Lemma digit_char_is_digit (n : Z) : is_digit (digit_char n) = true.
Proof.
  unfold digit_char. pose proof (Z.mod_pos_bound n 10 eq_refl) as H.
  assert (exists k, (k < 10)%nat /\ n mod 10 = Z.of_nat k)%Z as (k & Hk & ->).
  { exists (Z.to_nat (n mod 10)). split; lia. }
  do 10 (destruct k as [|k]; [reflexivity|]). lia.
Qed.

Lemma fixed_width_length (d : nat) (n : Z) :
  String.length (fixed_width d n) = d.
Proof.
  revert n. induction d as [|d IH]; intros n; simpl; [reflexivity|].
  rewrite length_append, IH. simpl. lia.
Qed.

Lemma fixed_width_digits (d : nat) (n : Z) :
  all_digits (fixed_width d n) = true.
Proof.
  revert n. induction d as [|d IH]; intros n; simpl; [reflexivity|].
  rewrite all_digits_append, IH. simpl. now rewrite digit_char_is_digit.
Qed.

Lemma fixed_digits_decimals (d : nat) (sign : string) (q : Z) :
  d <> O -> has_decimals d (sign ++ fixed_digits d q).
Proof.
  intros Hd. unfold fixed_digits. destruct d as [|d]; [congruence|].
  exists (sign ++ digits (q / 10 ^ Z.of_nat (S d)))%string,
         (fixed_width (S d) (q mod 10 ^ Z.of_nat (S d))).
  split; [now rewrite append_assoc|].
  split; [apply fixed_width_length | apply fixed_width_digits].
Qed.

(** A finite float formatted with [".df"] has [d] digits after the point. *)
Lemma format_fixed_decimals (d : nat) (x : float) :
  d <> O -> is_finite x = true -> has_decimals d (format_fixed d x).
Proof.
  intros Hd Hx. destruct x; try discriminate; simpl;
    now apply fixed_digits_decimals.
Qed.

(** C4, as stated, fails on a transfer at one MiB per second: the hook
    writes the speed with two decimals, 1.00 MB/s, and the specification's
    one decimal would give 1.0 MB/s. *)
Lemma C4_counterexample_two_decimals :
  _progress_hook false data_half
  = Ok [Progress fifty "50.0% | 1.00 MB/s | ETA: 5s"]
  /\ speed_text (PyInt 1048576) = Ok "1.00 MB/s"
  /\ spec_speed_text (PyInt 1048576) = Ok "1.0 MB/s".
Proof. repeat split. Qed.

(** C4, amended: the message of a "downloading" notification with a known
    positive total is "<percent>% | <speed> | ETA: <eta>", the percent with
    one decimal.  The speed is the reported speed divided twice by 1024 and
    written with two decimals, followed by " MB/s", when the speed is a
    number, and "N/A" otherwise; the ETA is the integer followed by "s" when
    it is an integer, and "N/A" otherwise. *)
Theorem C4_progress_message (data : dict pyval) (sigs : list signal) :
  downloading data = true ->
  gt_zero (total_of data) = Ok true ->
  _progress_hook false data = Ok sigs ->
  exists ratio speed_part eta_part,
    truediv (dict_get data "downloaded_bytes" (PyInt 0)) (total_of data)
    = Ok ratio
    /\ sigs
       = [Progress (float_mul ratio (float_lit 100))
            (format_fixed 1 (float_mul ratio (float_lit 100)) ++ "% | "
             ++ speed_part ++ " | ETA: " ++ eta_part)%string]
    /\ (is_number (get_or_none data "speed") = false -> speed_part = "N/A")
    /\ (is_number (get_or_none data "speed") = true ->
        exists k mbps,
          truediv (get_or_none data "speed") (PyInt 1024) = Ok k
          /\ truediv (PyFloat k) (PyInt 1024) = Ok mbps
          /\ speed_part = (format_fixed 2 mbps ++ " MB/s")%string
          /\ (is_finite mbps = true ->
              has_decimals 2 (format_fixed 2 mbps)))
    /\ (is_int (get_or_none data "eta") = true ->
        eta_part = (str_int (get_or_none data "eta") ++ "s")%string)
    /\ (is_int (get_or_none data "eta") = false -> eta_part = "N/A").
Proof.
  unfold downloading, _progress_hook. intros Hst Htot Hrun.
  rewrite Hst, Htot in Hrun. cbn [bind] in Hrun.
  destruct (truediv (dict_get data "downloaded_bytes" (PyInt 0))
                    (total_of data)) as [ratio|e]; [|discriminate].
  cbn [bind] in Hrun.
  destruct (speed_text (get_or_none data "speed")) as [sp|e] eqn:Esp;
    [|discriminate].
  cbn [bind] in Hrun. injection Hrun as <-.
  exists ratio, sp, (eta_text (get_or_none data "eta")).
  split; [reflexivity|]. split; [reflexivity|].
  unfold speed_text in Esp. unfold eta_text.
  destruct (is_number (get_or_none data "speed")).
  - split; [discriminate|]. split.
    + intros _.
      destruct (truediv (get_or_none data "speed") (PyInt 1024)) as [k|e]
        eqn:Ek; [|discriminate].
      cbn [bind] in Esp.
      destruct (truediv (PyFloat k) (PyInt 1024)) as [mbps|e] eqn:Em;
        [|discriminate].
      injection Esp as <-. exists k, mbps.
      split; [reflexivity|]. split; [exact Em|]. split; [reflexivity|].
      intros Hfin. now apply format_fixed_decimals.
    + destruct (is_int (get_or_none data "eta")); split;
        intros; first [reflexivity | discriminate].
  - injection Esp as <-. split; [reflexivity|]. split; [discriminate|].
    destruct (is_int (get_or_none data "eta")); split;
      intros; first [reflexivity | discriminate].
Qed.

Lemma C4_progress_message_witness :
  exists ratio speed_part eta_part,
    [Progress fifty "50.0% | 1.00 MB/s | ETA: 5s"]
    = [Progress (float_mul ratio (float_lit 100))
         (format_fixed 1 (float_mul ratio (float_lit 100)) ++ "% | "
          ++ speed_part ++ " | ETA: " ++ eta_part)%string].
Proof.
  destruct (C4_progress_message data_half
              [Progress fifty "50.0% | 1.00 MB/s | ETA: 5s"]
              eq_refl eq_refl eq_refl)
    as (ratio & speed_part & eta_part & _ & H & _).
  exists ratio, speed_part, eta_part. exact H.
Defined.

End HookFacts.

(* ===================================================================== *)
(** * The run of a worker *)
(* ===================================================================== *)

Section RunFacts.

Lemma no_finished_app (a b : list signal) :
  no_finished (a ++ b) = (no_finished a && no_finished b)%bool.
Proof. apply forallb_app. Qed.

Lemma silent_ret {A} (a : A) : silent (ret a).
Proof. intros c. reflexivity. Qed.

Lemma silent_lift {A} (r : result A) : silent (lift r).
Proof. intros c. reflexivity. Qed.

Lemma silent_call (o : option exn) : silent (call o).
Proof. intros c. destruct o; reflexivity. Qed.

Lemma silent_log (message : string) : silent (emit (Log message)).
Proof. intros c. reflexivity. Qed.

Lemma silent_get_cancelled : silent get_cancelled.
Proof. intros c. reflexivity. Qed.

Lemma silent_other_thread (b : bool) : silent (other_thread_cancels b).
Proof. intros c. reflexivity. Qed.

Lemma silent_bind {A B} (m : M A) (k : A -> M B) :
  silent m -> (forall a, silent (k a)) -> silent (bindM m k).
Proof.
  intros Hm Hk c. unfold bindM. specialize (Hm c).
  destruct (m c) as [[s c'] [a|e]]; simpl in *; [|exact Hm].
  specialize (Hk a c'). destruct (k a c') as [[s' c''] r]. simpl in *.
  now rewrite no_finished_app, Hm, Hk.
Qed.

Lemma silent_with_exit {A} (m : M A) (exit : option exn) :
  silent m -> silent (with_exit m exit).
Proof.
  intros Hm c. unfold with_exit. specialize (Hm c).
  destruct (m c) as [[s c'] r]. destruct exit; exact Hm.
Qed.

(** The hook emits progress events only. *)
Lemma hook_no_finished (cancelled : bool) (data : dict pyval)
  (sigs : list signal) :
  _progress_hook cancelled data = Ok sigs -> no_finished sigs = true.
Proof.
  unfold _progress_hook. destruct cancelled; [discriminate|].
  destruct (eq_str _ "downloading").
  - destruct (gt_zero (total_of data)) as [[]|e]; cbn [bind];
      [| intros H; injection H as <-; reflexivity | discriminate].
    destruct (truediv _ _) as [ratio|e]; cbn [bind]; [|discriminate].
    destruct (speed_text _) as [sp|e]; cbn [bind]; [|discriminate].
    intros H. injection H as <-. reflexivity.
  - destruct (eq_str _ "finished"); intros H; injection H as <-; reflexivity.
Qed.

Lemma silent_hook_call (data : dict pyval) : silent (hook_call data).
Proof.
  intros c. unfold hook_call.
  destruct (_progress_hook c data) as [sigs|e] eqn:E; [|reflexivity].
  exact (hook_no_finished _ _ _ E).
Qed.

Lemma silent_download (events : list dl_event) (ending : option exn) :
  silent (download events ending).
Proof.
  induction events as [|[data|] events IH]; cbn [download].
  - apply silent_call.
  - apply silent_bind; [apply silent_hook_call | intros _; exact IH].
  - apply silent_bind; [apply silent_other_thread | intros _; exact IH].
Qed.

Lemma silent_run_body (d : DownloadWorker) (w : World) : silent (run_body d w).
Proof.
  unfold run_body.
  repeat first
    [ apply silent_bind; [|intros ?]
    | apply silent_with_exit
    | apply silent_call
    | apply silent_lift
    | apply silent_log
    | apply silent_ret
    | apply silent_download
    | match goal with |- silent (if ?b then _ else _) => destruct b end ].
Qed.

(** [run] is its body followed by one [finished] signal. *)
Lemma run_unfold (d : DownloadWorker) (w : World) :
  run d w
  = let '(sigs, c, r) :=
      run_body d w (_cancelled d || cancel_early w)%bool in
    (sigs ++ [final_signal c r], c, Ok tt).
Proof.
  unfold run, run_M, run_try, try_except, bindM, other_thread_cancels,
    finish_normally, on_DownloadError, on_Exception, get_cancelled, emit.
  destruct (run_body d w (_cancelled d || cancel_early w)%bool)
    as [[sigs c] [[]|e]]; cbn.
  - destruct c; cbn; now rewrite ?app_nil_r.
  - destruct (is_DownloadError e); cbn; [destruct c|]; reflexivity.
Qed.

(** C2: [run] never raises, and it emits exactly one [finished] signal, the
    last of its signals.  The signal is (true, "Download completed
    successfully.") when the body ends normally with the cancel flag unset;
    (false, "Download canceled.") when the body ends normally or with a
    [DownloadError] and the flag is set; (false, "Download failed: <message>")
    on a [DownloadError] with the flag unset; and (false, "Error: <message>")
    on any other exception. *)
Theorem C2_run_one_finished (d : DownloadWorker) (w : World) :
  exists sigs cancelled r fin,
    run_body d w (_cancelled d || cancel_early w)%bool = (sigs, cancelled, r)
    /\ run d w = (sigs ++ [fin], cancelled, Ok tt)
    /\ no_finished sigs = true
    /\ length (List.filter is_Finished (fst (fst (run d w)))) = 1%nat
    /\ (r = Ok tt -> cancelled = false ->
        fin = Finished true "Download completed successfully.")
    /\ (r = Ok tt \/ (exists e, r = Raise e /\ exn_cls e = DownloadError) ->
        cancelled = true ->
        fin = Finished false "Download canceled.")
    /\ (forall e, r = Raise e -> exn_cls e = DownloadError ->
        cancelled = false ->
        fin = Finished false ("Download failed: " ++ exn_msg e))
    /\ (forall e name, r = Raise e -> exn_cls e = OtherException name ->
        fin = Finished false ("Error: " ++ exn_msg e)).
Proof.
  pose proof (silent_run_body d w (_cancelled d || cancel_early w)%bool) as Hq.
  rewrite run_unfold.
  destruct (run_body d w (_cancelled d || cancel_early w)%bool)
    as [[sigs c] r]. cbn [fst] in Hq.
  exists sigs, c, r, (final_signal c r).
  split; [reflexivity|]. split; [reflexivity|]. split; [exact Hq|]. split.
  - cbn [fst]. rewrite List.filter_app, length_app.
    assert (List.filter is_Finished sigs = []) as ->.
    { clear -Hq. induction sigs as [|s sigs IH]; [reflexivity|].
      simpl in *. apply andb_true_iff in Hq as [Hs Hq].
      destruct (is_Finished s); [discriminate | now apply IH]. }
    destruct r as [u|e]; simpl; [destruct c; reflexivity|].
    destruct (is_DownloadError e); [destruct c|]; reflexivity.
  - unfold final_signal, is_DownloadError. split; [|split; [|split]].
    + intros -> ->. reflexivity.
    + intros [->|(e & -> & He)] ->; [reflexivity|]. now rewrite He.
    + intros e -> He ->. now rewrite He.
    + intros e name -> He. now rewrite He.
Qed.

End RunFacts.

(* ===================================================================== *)
(** * The scenarios of the specification *)
(* ===================================================================== *)

Section Scenarios.

Example lines_of_two_urls :
  splitlines two_urls = ["  https://x.test/a "; ""; "https://x.test/b"]
  /\ nonblank_lines two_urls = ["https://x.test/a"; "https://x.test/b"].
Proof. split; reflexivity. Qed.

Example queued_two_rows :
  map url_item (queue_table queued_two)
  = [Some "https://x.test/a"; Some "https://x.test/b"]
  /\ map status_item (queue_table queued_two)
     = [Some "Queued"; Some "Queued"].
Proof. split; reflexivity. Qed.

(** Scenario A: the first entry is Done before the second one leaves
    Queued. *)
Example scenario_A :
  map status_item (queue_table started_two)
  = [Some "Downloading"; Some "Queued"]
  /\ map status_item
       (queue_table
          (run_active (world_ok [DlHook data_half; DlHook data_finished])
                      started_two))
     = [Some "Done"; Some "Downloading"].
Proof. split; reflexivity. Qed.

(** Scenario B: a stop is requested while the first entry is downloaded and
    the entry fails; the second entry stays Queued and the queue stops. *)
Example scenario_B :
  map status_item
    (queue_table (run_active world_disk_full (cancel_download started_two)))
  = [Some "Failed"; Some "Queued"]
  /\ queue_running (run_active world_disk_full (cancel_download started_two))
     = false
  /\ status_label (run_active world_disk_full (cancel_download started_two))
     = ("Queue stopped.", "warning").
Proof. repeat split. Qed.

(** A failure without a stop request lets the queue go on. *)
Example failure_advances :
  map status_item (queue_table (run_active world_unavailable started_two))
  = [Some "Failed"; Some "Downloading"]
  /\ last (log_box (run_active world_unavailable started_two))
     = Some "[Item 1] Download failed: ERROR: Video unavailable".
Proof. split; reflexivity. Qed.

(** A cancellation in the middle of the transfer keeps the progress text
    the entry had. *)
Example cancel_keeps_progress :
  map progress_item
    (queue_table
       (run_active (world_ok [DlHook data_half; DlCancel; DlHook data_half])
                   started_two))
  = [Some "50.0%"; Some "0%"]
  /\ map status_item
       (queue_table
          (run_active (world_ok [DlHook data_half; DlCancel; DlHook data_half])
                      started_two))
     = [Some "Canceled"; Some "Queued"].
Proof. split; reflexivity. Qed.

(** Scenario D: the unknown preset Potato runs with the format of the
    default preset. *)
Example scenario_D :
  match build_opts {| url := "https://x.test/a"; output_dir := "/tmp/out";
                      cookie_file := ""; quality_preset := "Potato";
                      _cancelled := false |} (world_ok []) with
  | Ok opts => format opts = PStr "best"
  | Raise _ => False
  end.
Proof. reflexivity. Qed.

End Scenarios.

(* ===================================================================== *)
(** * File names *)
(* ===================================================================== *)

Section FilenameFacts.

Lemma any_char_lstrip (p : ascii -> bool) (s : string) :
  any_char p s = false -> any_char p (lstrip s) = false.
Proof.
  induction s as [|c s IH]; simpl; [reflexivity|].
  intros H. apply orb_false_iff in H as [Hc Hs].
  destruct (isspace c); [now apply IH|]. simpl. now rewrite Hc, Hs.
Qed.

Lemma any_char_rstrip (p : ascii -> bool) (s : string) :
  any_char p s = false -> any_char p (rstrip s) = false.
Proof.
  induction s as [|c s IH]; simpl; [reflexivity|].
  intros H. apply orb_false_iff in H as [Hc Hs]. specialize (IH Hs).
  destruct (rstrip s) as [|c' r'].
  - destruct (isspace c); simpl; [reflexivity | now rewrite Hc].
  - cbn [any_char] in *. now rewrite Hc, IH.
Qed.

Lemma any_char_strip (p : ascii -> bool) (s : string) :
  any_char p s = false -> any_char p (strip s) = false.
Proof. intros H. now apply any_char_rstrip, any_char_lstrip. Qed.

Lemma sub_runs_clean (in_run : bool) (name : string) :
  any_char forbidden (sub_runs in_run name) = false.
Proof.
  revert in_run. induction name as [|c name IH]; intros in_run; simpl;
    [reflexivity|].
  destruct (forbidden c) eqn:E.
  - destruct in_run; [apply IH|]. simpl. apply IH.
  - simpl. now rewrite E, IH.
Qed.

Lemma sub_runs_id (name : string) :
  any_char forbidden name = false -> sub_runs false name = name.
Proof.
  induction name as [|c name IH]; simpl; [reflexivity|].
  intros H. apply orb_false_iff in H as [Hc Hs]. now rewrite Hc, IH.
Qed.

Lemma lstrip_head (s : string) (c : ascii) (r : string) :
  lstrip s = String c r -> isspace c = false.
Proof.
  induction s as [|a s IH]; simpl; [discriminate|].
  destruct (isspace a) eqn:E; [exact IH|]. intros H. now injection H as <- _.
Qed.

Lemma rstrip_head (s : string) (c : ascii) (r : string) :
  rstrip s = String c r -> exists r0, s = String c r0.
Proof.
  destruct s as [|a s]; simpl; [discriminate|].
  destruct (rstrip s); [destruct (isspace a)|]; intros H;
    try discriminate; injection H as <- _; eauto.
Qed.

Lemma rstrip_idem (s : string) : rstrip (rstrip s) = rstrip s.
Proof.
  induction s as [|a s IH]; simpl; [reflexivity|].
  destruct (rstrip s) as [|c' r'] eqn:E.
  - destruct (isspace a) eqn:Ea; simpl; [reflexivity | now rewrite Ea].
  - cbn [rstrip]. cbn [rstrip] in IH. now rewrite IH.
Qed.

Lemma strip_idem (s : string) : strip (strip s) = strip s.
Proof.
  unfold strip. destruct (rstrip (lstrip s)) as [|c r] eqn:E; [reflexivity|].
  destruct (rstrip_head _ _ _ E) as [r0 E0].
  apply lstrip_head in E0. cbn [lstrip]. rewrite E0, <- E.
  apply rstrip_idem.
Qed.

Lemma sanitize_filename_fixed (name : string) :
  any_char forbidden name = false -> strip name = name -> name <> "" ->
  sanitize_filename name = name.
Proof.
  intros Hc Hs Hn. unfold sanitize_filename.
  rewrite (sub_runs_id _ Hc), Hs. destruct name; [congruence | reflexivity].
Qed.

(** [sanitize_filename] gives a name that has none of the characters
    backslash, slash, colon, star, question mark, double quote, angle
    brackets and bar, is not empty, has no white space at its ends, and is
    left as it is when sanitized again. *)
Theorem sanitize_filename_safe (name : string) :
  any_char forbidden (sanitize_filename name) = false
  /\ sanitize_filename name <> ""
  /\ strip (sanitize_filename name) = sanitize_filename name
  /\ sanitize_filename (sanitize_filename name) = sanitize_filename name.
Proof.
  assert (any_char forbidden (sanitize_filename name) = false
          /\ sanitize_filename name <> ""
          /\ strip (sanitize_filename name) = sanitize_filename name)
    as (H1 & H2 & H3).
  { unfold sanitize_filename.
    pose proof (any_char_strip forbidden _ (sub_runs_clean false name)) as Hc.
    pose proof (strip_idem (sub_runs false name)) as Hs.
    destruct (strip (sub_runs false name)) as [|c r]; simpl truthy; cbv iota.
    - repeat split; discriminate.
    - repeat split; [exact Hc | discriminate | exact Hs]. }
  repeat split; try assumption. now apply sanitize_filename_fixed.
Qed.

Example sanitize_examples :
  sanitize_filename "a/b: c" = "a_b_ c"
  /\ sanitize_filename "  <<>>  " = "_"
  /\ sanitize_filename "   " = "video"
  /\ sanitize_filename "" = "video"
  /\ sanitize_filename "what?*.mp4 " = "what_.mp4".
Proof. repeat split. Qed.

End FilenameFacts.

(* ===================================================================== *)
(** * Finding and removing rows *)
(* ===================================================================== *)

Section RowFacts.

Lemma has_status_iff (status : string) (r : Row) :
  has_status status r = true <-> status_item r = Some status.
Proof.
  unfold has_status. destruct (status_item r) as [t|].
  - rewrite String.eqb_eq. split; congruence.
  - split; discriminate.
Qed.

Lemma next_queued_from_first (rows : list Row) (k i : nat) :
  next_queued_from k rows = Some i ->
  exists j r,
    i = (k + j)%nat /\ rows !! j = Some r /\ status_item r = Some "Queued"
    /\ forall j' r', (j' < j)%nat -> rows !! j' = Some r' ->
                     status_item r' <> Some "Queued".
Proof.
  revert k. induction rows as [|r rows IH]; intros k H; simpl in H.
  - discriminate.
  - destruct (has_status "Queued" r) eqn:E.
    + injection H as <-. exists 0%nat, r.
      split; [lia|]. split; [reflexivity|].
      split; [now apply has_status_iff | intros; lia].
    + destruct (IH _ H) as (j & r0 & -> & Hj & Hq & Hfirst).
      exists (S j), r0. split; [lia|]. split; [exact Hj|].
      split; [exact Hq|].
      intros [|j'] r' Hlt Hr'; simpl in Hr'.
      * injection Hr' as <-. rewrite <- has_status_iff. congruence.
      * apply (Hfirst j'); [lia | exact Hr'].
Qed.

(** [_next_queued_row] gives the number of a row whose status is Queued,
    no row before it has that status, and it gives nothing exactly when no
    row of the table has it. *)
Theorem next_queued_row_is_first (w : MainWindow) :
  (forall i, _next_queued_row w = Some i ->
     (exists r, queue_table w !! i = Some r
                /\ status_item r = Some "Queued")
     /\ (forall j r, (j < i)%nat -> queue_table w !! j = Some r ->
                     status_item r <> Some "Queued"))
  /\ (_next_queued_row w = None <->
      forall r, In r (queue_table w) -> status_item r <> Some "Queued").
Proof.
  split.
  - intros i H. apply next_queued_from_first in H
      as (j & r & -> & Hj & Hq & Hfirst).
    simpl. split; [eauto | exact Hfirst].
  - apply next_queued_from_None.
Qed.

Lemma next_queued_row_is_first_witness :
  exists r, queue_table sample_idle !! 1%nat = Some r
            /\ status_item r = Some "Queued".
Proof.
  exact (proj1 (proj1 (next_queued_row_is_first sample_idle) 1%nat eq_refl)).
Defined.

(** ** Removing the selected rows *)

Lemma insert_desc_In (n x : nat) (l : list nat) :
  In x (insert_desc n l) <-> x = n \/ In x l.
Proof.
  induction l as [|m l IH]; simpl; [intuition|].
  destruct (Nat.ltb_spec m n); [simpl; intuition|].
  destruct (Nat.eqb_spec m n) as [->|Hne]; simpl; [intuition|].
  rewrite IH. intuition.
Qed.

Lemma sorted_desc_set_In (x : nat) (rows : list nat) :
  In x (sorted_desc_set rows) <-> In x rows.
Proof.
  induction rows as [|n rows IH]; simpl; [reflexivity|].
  rewrite insert_desc_In, IH. intuition.
Qed.

Lemma insert_desc_sorted (n : nat) (l : list nat) :
  StronglySorted gt l -> StronglySorted gt (insert_desc n l).
Proof.
  induction 1 as [|m l Hs IH Hm]; simpl.
  - constructor; constructor.
  - destruct (Nat.ltb_spec m n).
    + constructor; [now constructor|].
      constructor; [lia|]. rewrite List.Forall_forall in Hm.
      apply List.Forall_forall. intros x Hx. specialize (Hm x Hx). lia.
    + destruct (Nat.eqb_spec m n) as [->|Hne]; [now constructor|].
      constructor; [exact IH|].
      apply List.Forall_forall. intros x Hx. apply insert_desc_In in Hx as [->|Hx].
      * lia.
      * rewrite List.Forall_forall in Hm. now apply Hm.
Qed.

Lemma sorted_desc_set_sorted (rows : list nat) :
  StronglySorted gt (sorted_desc_set rows).
Proof.
  induction rows as [|n rows IH]; simpl; [constructor|].
  now apply insert_desc_sorted.
Qed.

Lemma existsb_eqb_In (k : nat) (sel : list nat) :
  existsb (Nat.eqb k) sel = true <-> In k sel.
Proof.
  rewrite existsb_exists. split.
  - intros (x & Hx & E). apply Nat.eqb_eq in E. now subst.
  - intros H. exists k. split; [exact H | apply Nat.eqb_refl].
Qed.

Lemma without_rows_ext (k : nat) (sel sel' : list nat) (rows : list Row) :
  (forall x, In x sel <-> In x sel') ->
  without_rows k sel rows = without_rows k sel' rows.
Proof.
  intros H. revert k. induction rows as [|r rows IH]; intros k; simpl;
    [reflexivity|].
  rewrite IH.
  destruct (existsb (Nat.eqb k) sel) eqn:E, (existsb (Nat.eqb k) sel') eqn:E';
    try reflexivity; exfalso.
  - apply existsb_eqb_In, H, existsb_eqb_In in E. congruence.
  - apply existsb_eqb_In, H, existsb_eqb_In in E'. congruence.
Qed.

Lemma without_rows_below (k : nat) (sel : list nat) (rows : list Row) :
  (forall x, In x sel -> (x < k)%nat) -> without_rows k sel rows = rows.
Proof.
  revert k. induction rows as [|r rows IH]; intros k H; simpl; [reflexivity|].
  destruct (existsb (Nat.eqb k) sel) eqn:E.
  - apply existsb_eqb_In, H in E. lia.
  - rewrite IH; [reflexivity|]. intros x Hx. specialize (H x Hx). lia.
Qed.

Lemma without_rows_delete (k m : nat) (sel : list nat) (rows : list Row) :
  (forall x, In x sel -> (x < m)%nat) -> (k <= m)%nat ->
  without_rows k sel (delete (m - k)%nat rows)
  = without_rows k (m :: sel) rows.
Proof.
  intros Hsel. revert k. induction rows as [|r rows IH]; intros k Hk;
    [reflexivity|].
  destruct (Nat.eq_dec m k) as [->|Hne].
  - rewrite Nat.sub_diag. change (delete 0%nat (r :: rows)) with rows.
    cbn [without_rows existsb].
    rewrite Nat.eqb_refl. cbn [orb].
    rewrite !without_rows_below; [reflexivity | |].
    + intros x [<-|Hx]; [lia|]. specialize (Hsel x Hx). lia.
    + intros x Hx. exact (Hsel x Hx).
  - replace (m - k)%nat with (S (m - S k)) by lia.
    change (delete (S (m - S k)) (r :: rows))
      with (r :: delete (m - S k)%nat rows).
    cbn [without_rows existsb]. rewrite (IH (S k)) by lia.
    destruct (Nat.eqb_spec k m); [lia|]. reflexivity.
Qed.

(** Removing rows from the last selected one to the first keeps the rows
    that are not selected. *)
Lemma remove_descending (l : list nat) (rows : list Row) :
  StronglySorted gt l ->
  fold_left (fun t row => removeRow row t) l rows = without_rows 0 l rows.
Proof.
  intros Hs. revert rows. induction Hs as [|m l Hs IH Hm]; intros rows; simpl.
  - symmetry. apply without_rows_below. intros x [].
  - rewrite IH. unfold removeRow.
    rewrite <- (Nat.sub_0_r m) at 1. apply without_rows_delete; [|lia].
    rewrite List.Forall_forall in Hm. intros x Hx. specialize (Hm x Hx). lia.
Qed.

(** When the queue is not running, [remove_selected_items] leaves in the
    table exactly the rows that are not selected, each one as it was and in
    the order they had, whatever the order and the repetitions of the
    selection; row numbers outside of the table are ignored, and the flags,
    the worker and the active row are not touched. *)
Theorem remove_selected_items_keeps_others (selectedIndexes : list nat)
  (w : MainWindow) :
  queue_running w = false ->
  queue_table (remove_selected_items selectedIndexes w)
  = without_rows 0 selectedIndexes (queue_table w)
  /\ queue_running (remove_selected_items selectedIndexes w) = false
  /\ stop_queue_requested (remove_selected_items selectedIndexes w)
     = stop_queue_requested w
  /\ current_row (remove_selected_items selectedIndexes w) = current_row w
  /\ worker (remove_selected_items selectedIndexes w) = worker w.
Proof.
  intros Hrun. unfold remove_selected_items. rewrite Hrun.
  pose proof (remove_descending _ (queue_table w)
                (sorted_desc_set_sorted selectedIndexes)) as H.
  rewrite (without_rows_ext 0 _ selectedIndexes) in H
    by (intros x; apply sorted_desc_set_In).
  rewrite fold_removeRow.
  set (l := sorted_desc_set selectedIndexes) in *.
  destruct l as [|m l].
  - simpl in H. rewrite <- H. repeat split; assumption.
  - cbn [queue_table set_status set_status_label set_queue_table
         queue_running stop_queue_requested current_row worker].
    rewrite H. repeat split; assumption.
Qed.

Lemma remove_selected_items_keeps_others_witness :
  queue_table (remove_selected_items [2; 0; 2; 7]%nat sample_idle)
  = [sample_row "https://x.test/b" "Queued" "0%";
     sample_row "https://x.test/d" "Failed" "0%"].
Proof.
  rewrite (proj1 (remove_selected_items_keeps_others [2; 0; 2; 7]%nat
                    sample_idle eq_refl)).
  reflexivity.
Defined.

End RowFacts.

(* ===================================================================== *)
(** * The options and the cancelled worker *)
(* ===================================================================== *)

Section WorkerFacts.

Lemma dict_lookup_In {V} (d : dict V) (k : string) (v : V) :
  dict_lookup d k = Some v -> In (k, v) d.
Proof.
  induction d as [|[k' v'] d IH]; simpl; [discriminate|].
  destruct (String.eqb_spec k' k) as [->|Hne].
  - intros H. injection H as <-. now left.
  - intros H. right. now apply IH.
Qed.




(** ** A worker that is cancelled before it runs *)

Lemma no_progress_app (a b : list signal) :
  no_progress (a ++ b) = (no_progress a && no_progress b)%bool.
Proof. apply forallb_app. Qed.

Lemma cancelled_quiet_bind {A B} (m : M A) (k : A -> M B) :
  cancelled_quiet m -> (forall a, cancelled_quiet (k a)) ->
  cancelled_quiet (bindM m k).
Proof.
  unfold cancelled_quiet, bindM. intros [Hs Hc] Hk.
  destruct (m true) as [[s c] [a|e]]; simpl in *; [|now split].
  subst c. destruct (Hk a) as [Hs' Hc'].
  destruct (k a true) as [[s' c'] r]. simpl in *.
  now rewrite no_progress_app, Hs, Hs'.
Qed.

Lemma cancelled_quiet_download (events : list dl_event)
  (ending : option exn) :
  cancelled_quiet (download events ending).
Proof.
  induction events as [|[data|] events IH]; cbn [download].
  - destruct ending; split; reflexivity.
  - apply cancelled_quiet_bind; [split; reflexivity | intros _; exact IH].
  - apply cancelled_quiet_bind; [split; reflexivity | intros _; exact IH].
Qed.

Lemma cancelled_quiet_with_exit {A} (m : M A) (exit : option exn) :
  cancelled_quiet m -> cancelled_quiet (with_exit m exit).
Proof.
  unfold cancelled_quiet, with_exit. intros H.
  destruct (m true) as [[s c] r]. destruct exit; exact H.
Qed.

Lemma cancelled_quiet_run_body (d : DownloadWorker) (w : World) :
  cancelled_quiet (run_body d w).
Proof.
  unfold run_body.
  repeat lazymatch goal with
    | |- cancelled_quiet (bindM _ _) =>
        apply cancelled_quiet_bind; [|intros ?]
    | |- cancelled_quiet (with_exit _ _) => apply cancelled_quiet_with_exit
    | |- cancelled_quiet (download _ _) => apply cancelled_quiet_download
    | |- cancelled_quiet (if ?b then _ else _) => destruct b
    | |- cancelled_quiet (call ?o) => destruct o; split; reflexivity
    | |- cancelled_quiet _ => split; reflexivity
    end.
Qed.

(** A worker whose cancel flag is set before the download starts emits no
    progress event at all, and its one [finished] signal never reports
    success, whatever yt-dlp and the file system do. *)
Theorem cancelled_worker_reports_nothing (d : DownloadWorker) (w : World) :
  (_cancelled d || cancel_early w)%bool = true ->
  exists sigs message,
    fst (fst (run d w)) = sigs ++ [Finished false message]
    /\ no_progress sigs = true
    /\ no_finished sigs = true.
Proof.
  intros Hc. rewrite run_unfold, Hc.
  destruct (cancelled_quiet_run_body d w) as [Hs Hflag].
  pose proof (silent_run_body d w true) as Hq.
  destruct (run_body d w true) as [[sigs c] r]. simpl in *. subst c.
  exists sigs.
  destruct r as [u|e]; simpl.
  - eexists. repeat split; assumption.
  - destruct (is_DownloadError e); eexists; repeat split; assumption.
Qed.

Lemma cancelled_worker_reports_nothing_witness :
  exists sigs message,
    fst (fst (run worker_cancelled (world_ok [DlHook data_half])))
    = sigs ++ [Finished false message]
    /\ no_progress sigs = true
    /\ no_finished sigs = true.
Proof.
  exact (cancelled_worker_reports_nothing worker_cancelled
           (world_ok [DlHook data_half]) eq_refl).
Defined.

Example cancelled_worker_run :
  fst (fst (run worker_cancelled (world_ok [DlHook data_half])))
  = [Log "Quality: 720p (MP4)"; Log "Fetching video info...";
     Log "Title: a_b_ c"; Log "Starting download...";
     Finished false "Download canceled."].
Proof. reflexivity. Qed.

End WorkerFacts.

(* ===================================================================== *)
(** * What every step of the window keeps *)
(* ===================================================================== *)

Section InvariantFacts.

(** The scheduling step, case by case. *)
Lemma start_next_item_eq (w : MainWindow) :
  _start_next_item w
  = if stop_queue_requested w then _finish_queue "Queue stopped." "warning" w
    else match _next_queued_row w with
         | None => _finish_queue "Queue completed." "success" w
         | Some next_row =>
             match (queue_table w !! next_row) ≫= url_item with
             | None => _start_next_item (mark_invalid next_row w)
             | Some url =>
                 begin_item next_row url (strip (output_input w))
                            (strip (cookies_input w)) w
             end
         end.
Proof.
  funelim (_start_next_item w).
  - now rewrite Heq.
  - now rewrite Heq, e.
  - now rewrite Heq0, Hnext, Heq.
  - now rewrite Heq0, Hnext, Heq.
Qed.

Lemma lookup_map {A B} (f : A -> B) (l : list A) (i : nat) :
  map f l !! i = f <$> (l !! i).
Proof.
  revert i. induction l as [|x l IH]; intros [|i]; simpl; auto.
Qed.

Lemma status_with_progress (t : string) (r : Row) :
  status_item (with_item COL_PROGRESS t r) = status_item r.
Proof. reflexivity. Qed.

Lemma status_with_widget_enabled (b : bool) (r : Row) :
  status_item (with_widget_enabled b r) = status_item r.
Proof. unfold with_widget_enabled. now destruct (quality_widget r). Qed.

Lemma status_pick_widget (name : string) (r : Row) :
  status_item (pick_widget name r) = status_item r.
Proof.
  unfold pick_widget. destruct (quality_widget r) as [c|]; [|reflexivity].
  now destruct (combo_enabled c && dict_mem QUALITY_PRESETS name)%bool.
Qed.

Lemma has_status_same (s : string) (r r' : Row) :
  status_item r' = status_item r -> has_status s r' = has_status s r.
Proof. unfold has_status. now intros ->. Qed.

Lemma row_ok_status (s : string) (r : Row) :
  known_status s = true -> row_ok r = true ->
  row_ok (with_item COL_STATUS s r) = true.
Proof.
  unfold row_ok. intros Hs. simpl.
  destruct (url_item r), (quality_widget r), (status_item r),
    (progress_item r); try discriminate.
  rewrite Hs, !andb_true_iff. tauto.
Qed.

Lemma row_ok_progress (t : string) (r : Row) :
  row_ok r = true -> row_ok (with_item COL_PROGRESS t r) = true.
Proof.
  unfold row_ok. simpl.
  destruct (url_item r), (quality_widget r), (status_item r),
    (progress_item r); try discriminate; auto.
Qed.

Lemma row_ok_widget_enabled (b : bool) (r : Row) :
  row_ok r = true -> row_ok (with_widget_enabled b r) = true.
Proof.
  unfold row_ok, with_widget_enabled.
  destruct (quality_widget r) as [c|] eqn:E; [|now rewrite E].
  simpl. destruct (url_item r), (status_item r), (progress_item r); auto.
Qed.

Lemma row_ok_pick_widget (name : string) (r : Row) :
  row_ok r = true -> row_ok (pick_widget name r) = true.
Proof.
  unfold pick_widget. destruct (quality_widget r) as [c|] eqn:E; [|auto].
  destruct (combo_enabled c); [|auto]. simpl.
  destruct (dict_mem QUALITY_PRESETS name) eqn:En; [|auto].
  unfold row_ok. simpl. rewrite E, En.
  destruct (url_item r), (status_item r), (progress_item r); auto.
  rewrite !andb_true_iff. tauto.
Qed.

Lemma build_combo_known (quality : string) :
  dict_mem QUALITY_PRESETS (combo_text (_build_row_quality_combo quality))
  = true.
Proof.
  unfold _build_row_quality_combo. simpl.
  destruct (dict_mem QUALITY_PRESETS quality) eqn:E; [exact E | reflexivity].
Qed.

Lemma row_ok_new_entry (quality url0 : string) :
  row_ok (new_entry quality url0) = true.
Proof.
  unfold row_ok, new_entry.
  cbn [url_item quality_widget status_item progress_item].
  now rewrite build_combo_known.
Qed.


Lemma Forall_map_intro {A B} (P : A -> Prop) (Q : B -> Prop) (f : A -> B)
  (l : list A) :
  Forall P l -> (forall x, P x -> Q (f x)) -> Forall Q (map f l).
Proof. induction 1; simpl; constructor; auto. Qed.

Lemma in_range_0 : (0 <= 0 <= 100)%Z.
Proof. lia. Qed.

Lemma finish_queue_inv (message state : string) (w : MainWindow) :
  rows_ok (queue_table w) -> none_downloading (queue_table w) ->
  worker w = None ->
  Inv (_finish_queue message state w, false).
Proof.
  intros Hok Hnone Hw. unfold Inv, _finish_queue, _set_quality_editable.
  cbn -[String.eqb]. split; [|split].
  - eapply Forall_map_intro; [exact Hok|]. apply row_ok_widget_enabled.
  - destruct (String.eqb state "success"); lia.
  - left. split; [reflexivity|]. unfold at_rest. cbn -[String.eqb].
    repeat split; try assumption.
    + eapply Forall_map_intro; [exact Hnone|]. intros r Hr. simpl in Hr.
      now rewrite (has_status_same _ _ _ (status_with_widget_enabled true r)).
    + eapply Forall_map_intro; [exact Hok|]. intros r _.
      unfold box_enabled, with_widget_enabled.
      destruct (quality_widget r) as [c|] eqn:E; simpl; [reflexivity|].
      now rewrite E.
Qed.

Lemma row_ok_url (r : Row) : row_ok r = true -> exists u, url_item r = Some u.
Proof.
  unfold row_ok. destruct (url_item r); [eauto | discriminate].
Qed.

Lemma row_ok_quality (r : Row) :
  row_ok r = true ->
  exists c, quality_widget r = Some c
            /\ dict_mem QUALITY_PRESETS (combo_text c) = true.
Proof.
  unfold row_ok.
  destruct (url_item r), (quality_widget r) as [c|], (status_item r),
    (progress_item r); try discriminate.
  intros H. apply andb_true_iff in H as [H _]. eauto.
Qed.

Lemma begin_item_inv (j : nat) (url0 odir cfile : string) (w : MainWindow)
  (r : Row) :
  rows_ok (queue_table w) -> none_downloading (queue_table w) ->
  queue_running w = true ->
  queue_table w !! j = Some r -> url_item r = Some url0 ->
  Inv (begin_item j url0 odir cfile w, false).
Proof.
  intros Hok Hnone Hrun Hj Hu. unfold Inv, begin_item.
  cbn -[alter]. split; [|split; [lia|]].
  - apply Forall_alter; [|intros; now apply row_ok_progress].
    apply Forall_alter; [exact Hok|]. intros; now apply row_ok_status.
  - right. unfold active. cbn -[alter]. split; [exact Hrun|].
    eexists _, j, _. split; [reflexivity|]. split; [reflexivity|].
    split; [rewrite !list_lookup_alter_eq, Hj; reflexivity|].
    split; [exact Hu|]. split.
    + unfold _quality_for_row. rewrite Hj.
      destruct (row_ok_quality r (Forall_lookup_1 _ _ _ _ Hok Hj))
        as (c & -> & Hc). exact Hc.
    + split; [discriminate|]. split; [reflexivity|].
      intros j' r' Hne Hj'. rewrite !list_lookup_alter_ne in Hj' by auto.
      exact (Forall_lookup_1 _ _ _ _ Hnone Hj').
Qed.

(** The scheduling step on a running queue with no worker and no row being
    downloaded. *)
Lemma schedule_inv (w : MainWindow) :
  rows_ok (queue_table w) -> none_downloading (queue_table w) ->
  worker w = None -> queue_running w = true ->
  Inv (_start_next_item w, false).
Proof.
  intros Hok Hnone Hw Hrun. rewrite start_next_item_eq.
  destruct (stop_queue_requested w); [now apply finish_queue_inv|].
  destruct (_next_queued_row w) as [j|] eqn:Ej; [|now apply finish_queue_inv].
  apply next_queued_from_first in Ej as (j0 & r & -> & Hj & _).
  simpl in *. rewrite Hj. simpl.
  destruct (row_ok_url r (Forall_lookup_1 _ _ _ _ Hok Hj)) as [u Hu].
  rewrite Hu. eapply begin_item_inv; eauto.
Qed.


(** The invariant reads seven fields of the window. *)
Lemma Inv_frame (w w' : MainWindow) (fin : bool) :
  queue_table w' = queue_table w ->
  progress_bar w' = progress_bar w ->
  worker w' = worker w ->
  current_row w' = current_row w ->
  queue_running w' = queue_running w ->
  stop_queue_requested w' = stop_queue_requested w ->
  quality_combo w' = quality_combo w ->
  Inv (w, fin) -> Inv (w', fin).
Proof.
  unfold Inv, at_rest, active. simpl.
  intros -> -> -> -> -> -> ->. auto.
Qed.

Lemma finished_not_downloading (r : Row) :
  is_finished_row r = true -> has_status "Downloading" r = false.
Proof.
  unfold is_finished_row, has_status.
  destruct (status_item r) as [t|]; [|reflexivity].
  rewrite !orb_true_iff, !String.eqb_eq.
  intros [[->| ->]| ->]; reflexivity.
Qed.

Lemma Forall_fold_removeRow (P : Row -> Prop) (l : list nat)
  (rows : list Row) :
  Forall P rows -> Forall P (fold_left (fun t row => removeRow row t) l rows).
Proof.
  revert rows. induction l as [|i l IH]; intros rows H; simpl; [exact H|].
  apply IH. now apply Forall_delete.
Qed.

Lemma enqueue_urls_frame (w : MainWindow) :
  progress_bar (enqueue_urls w) = progress_bar w
  /\ worker (enqueue_urls w) = worker w
  /\ current_row (enqueue_urls w) = current_row w
  /\ queue_running (enqueue_urls w) = queue_running w
  /\ stop_queue_requested (enqueue_urls w) = stop_queue_requested w
  /\ quality_combo (enqueue_urls w) = quality_combo w.
Proof.
  unfold enqueue_urls.
  destruct (negb (truthy (strip (url_input w)))); [repeat split|].
  cbn -[fold_left].
  apply (fold_left_invariant
           (fun w' => progress_bar w' = progress_bar w
                      /\ worker w' = worker w
                      /\ current_row w' = current_row w
                      /\ queue_running w' = queue_running w
                      /\ stop_queue_requested w' = stop_queue_requested w
                      /\ quality_combo w' = quality_combo w)).
  - intros a b H. exact H.
  - repeat split.
Qed.

Lemma Inv_not_running (w : MainWindow) (fin : bool) :
  Inv (w, fin) -> queue_running w = false -> fin = false /\ at_rest w.
Proof.
  intros (_ & _ & [H|[Hrun _]]) Hn; [exact H|]. simpl in Hrun. congruence.
Qed.

Lemma Inv_worker (w : MainWindow) (fin : bool) (d : DownloadWorker) :
  Inv (w, fin) -> worker w = Some d -> active fin w.
Proof.
  intros (_ & _ & [[_ (Hw & _)]|H]) Hd; [simpl in Hw; congruence | exact H].
Qed.

Lemma step_enqueue (w : MainWindow) (fin : bool) (text : string) :
  Inv (w, fin) -> Inv (enqueue_urls (set_url_input text w), fin).
Proof.
  intros (Hok & Hbar & Hst). unfold Inv. simpl fst in *. simpl snd in *.
  destruct (enqueue_urls_frame (set_url_input text w))
    as (Eb & Ew & Ec & Er & Es & Eq).
  cbn [progress_bar worker current_row queue_running stop_queue_requested
       quality_combo set_url_input] in *.
  pose proof (enqueue_urls_table (set_url_input text w)) as Et.
  cbn [queue_table quality_combo url_input set_url_input] in Et.
  set (new := map (new_entry (combo_text (quality_combo w)))
                  (nonblank_lines text)) in *.
  assert (Forall (fun r => row_ok r = true /\ has_status "Downloading" r = false
                           /\ box_enabled r = true) new) as Hnew.
  { subst new. apply List.Forall_forall. intros r Hr.
    apply in_map_iff in Hr as (u & <- & _).
    split; [apply row_ok_new_entry | split; reflexivity]. }
  split; [|split].
  - rewrite Et. apply Forall_app_2; [exact Hok|].
    eapply Forall_impl; [exact Hnew|]. simpl. tauto.
  - now rewrite Eb.
  - destruct Hst as [[Hf Hrest]|Hact].
    + left. split; [exact Hf|]. unfold at_rest in *.
      rewrite Ew, Ec, Er, Es, Eq, Et.
      destruct Hrest as (H1 & H2 & H3 & H4 & H5 & H6 & H7).
      repeat split; try assumption.
      * apply Forall_app_2; [exact H5|].
        eapply Forall_impl; [exact Hnew|]. simpl. tauto.
      * apply Forall_app_2; [exact H7|].
        eapply Forall_impl; [exact Hnew|]. simpl. tauto.
    + right. unfold active in *. rewrite Ew, Ec, Er, Es, Et.
      destruct Hact as (Hrun & d & i & r & Hd & Hi & Hr & Hrest).
      split; [exact Hrun|]. exists d, i, r.
      split; [exact Hd|]. split; [exact Hi|].
      split; [rewrite lookup_app_l; [exact Hr | eapply lookup_lt_Some, Hr]|].
      destruct Hrest as (H1 & H2 & H3 & H4 & H5).
      repeat split; try assumption.
      intros j r' Hne Hj. apply lookup_app_Some in Hj as [Hj|[_ Hj]].
      * eapply H5; eauto.
      * exact (proj1 (proj2 (Forall_lookup_1 _ _ _ _ Hnew Hj))).
Qed.


Lemma step_pick_quality (w : MainWindow) (fin : bool) (name : string) :
  Inv (w, fin) -> Inv (pick_quality name w, fin).
Proof.
  intros H. unfold pick_quality.
  destruct (combo_enabled (quality_combo w) && dict_mem QUALITY_PRESETS name)%bool;
    [|exact H].
  destruct H as (Hok & Hbar & Hst). unfold Inv. simpl.
  split; [exact Hok|]. split; [exact Hbar|].
  destruct Hst as [[Hf Hrest]|Hact]; [left | right; exact Hact].
  split; [exact Hf|]. unfold at_rest in *. simpl. tauto.
Qed.

Lemma box_enabled_pick (name : string) (r : Row) :
  box_enabled (pick_widget name r) = box_enabled r.
Proof.
  unfold box_enabled, pick_widget.
  destruct (quality_widget r) as [c|] eqn:E; [|now rewrite E].
  destruct (combo_enabled c) eqn:Ec; simpl; [|now rewrite E, Ec].
  destruct (dict_mem QUALITY_PRESETS name); simpl; [reflexivity|].
  now rewrite E, Ec.
Qed.

Lemma url_pick_widget (name : string) (r : Row) :
  url_item (pick_widget name r) = url_item r.
Proof.
  unfold pick_widget. destruct (quality_widget r) as [c|]; [|reflexivity].
  now destruct (combo_enabled c && dict_mem QUALITY_PRESETS name)%bool.
Qed.

Lemma is_finished_same (r r' : Row) :
  status_item r' = status_item r -> is_finished_row r' = is_finished_row r.
Proof.
  intros H. unfold is_finished_row. now rewrite !(has_status_same _ _ _ H).
Qed.

(** A change of one row that keeps its URL and its status. *)
Lemma step_alter (f : Row -> Row) (row : nat) (w : MainWindow) (fin : bool) :
  (forall r, row_ok r = true -> row_ok (f r) = true) ->
  (forall r, status_item (f r) = status_item r) ->
  (forall r, url_item (f r) = url_item r) ->
  (forall r, box_enabled r = true -> box_enabled (f r) = true) ->
  Inv (w, fin) ->
  Inv (set_queue_table (alter f row (queue_table w)) w, fin).
Proof.
  intros Hfok Hfst Hfurl Hfbox (Hok & Hbar & Hst). unfold Inv.
  simpl fst in *. simpl snd in *.
  cbn -[alter]. split; [|split; [exact Hbar|]].
  - apply Forall_alter; [exact Hok | auto].
  - destruct Hst as [[Hf Hrest]|Hact].
    + left. split; [exact Hf|]. unfold at_rest in *. cbn -[alter].
      destruct Hrest as (H1 & H2 & H3 & H4 & H5 & H6 & H7).
      repeat split; try assumption.
      * apply Forall_alter; [exact H5|]. intros r Hr.
        now rewrite (has_status_same _ _ _ (Hfst r)).
      * apply Forall_alter; [exact H7 | auto].
    + right. unfold active in *. cbn -[alter].
      destruct Hact as (Hrun & d & i & r & Hd & Hi & Hr & Hu & Hq & Hc & Hs
                        & Hothers).
      split; [exact Hrun|].
      destruct (Nat.eq_dec row i) as [->|Hne].
      * exists d, i, (f r). split; [exact Hd|]. split; [exact Hi|].
        split; [now rewrite list_lookup_alter_eq, Hr|].
        split; [now rewrite Hfurl|]. split; [exact Hq|]. split; [exact Hc|].
        split.
        -- destruct fin.
           ++ now rewrite (is_finished_same _ _ (Hfst r)).
           ++ now rewrite (has_status_same _ _ _ (Hfst r)).
        -- intros j r' Hj Hr'. rewrite list_lookup_alter_ne in Hr' by auto.
           eauto.
      * exists d, i, r. split; [exact Hd|]. split; [exact Hi|].
        split; [now rewrite list_lookup_alter_ne|].
        split; [exact Hu|]. split; [exact Hq|]. split; [exact Hc|].
        split; [exact Hs|].
        intros j r' Hj Hr'.
        destruct (Nat.eq_dec row j) as [->|Hne'].
        -- rewrite list_lookup_alter_eq in Hr'.
           destruct (queue_table w !! j) as [r0|] eqn:E; [|discriminate].
           simpl in Hr'. injection Hr' as <-.
           rewrite (has_status_same _ _ _ (Hfst r0)). eauto.
        -- rewrite list_lookup_alter_ne in Hr' by auto. eauto.
Qed.

Lemma step_start (w : MainWindow) (fin : bool) :
  Inv (w, fin) -> Inv (start_queue w, fin).
Proof.
  intros H. unfold start_queue.
  destruct (queue_running w) eqn:Hrun; [exact H|].
  destruct (Inv_not_running _ _ H Hrun) as [-> Hrest].
  destruct (negb (truthy (strip (output_input w)))).
  { eapply Inv_frame; [..|exact H]; reflexivity. }
  destruct (_next_queued_row w).
  2:{ eapply Inv_frame; [..|exact H]; reflexivity. }
  destruct H as (Hok & _ & _).
  destruct Hrest as (H1 & H2 & H3 & H4 & H5 & H6 & H7). simpl in Hok.
  apply schedule_inv; unfold _set_quality_editable; cbn.
  - eapply Forall_map_intro; [exact Hok|]. apply row_ok_widget_enabled.
  - eapply Forall_map_intro; [exact H5|]. intros r Hr. simpl in Hr.
    now rewrite (has_status_same _ _ _ (status_with_widget_enabled false r)).
  - exact H1.
  - reflexivity.
Qed.

Lemma step_cancel (w : MainWindow) (fin : bool) :
  Inv (w, fin) -> Inv (cancel_download w, fin).
Proof.
  intros H. unfold cancel_download.
  destruct (worker w) as [d|] eqn:Hd.
  - pose proof (Inv_worker _ _ _ H Hd) as Hact.
    destruct H as (Hok & Hbar & _). unfold Inv. cbn.
    split; [exact Hok|]. split; [exact Hbar|]. right.
    unfold active in *. cbn.
    destruct Hact as (Hrun & d' & i & r & Hd' & Hi & Hr & Hu & Hq & Hc & Hs
                      & Hothers).
    rewrite Hd in Hd'. injection Hd' as <-.
    split; [exact Hrun|]. exists (cancel d), i, r.
    repeat split; assumption.
  - destruct (queue_running w) eqn:Hrun; [|exact H].
    destruct H as (_ & _ & [[_ (_ & _ & Hn & _)]|(_ & d & _ & _ & Hd' & _)]);
      simpl in *; congruence.
Qed.

Lemma step_remove (w : MainWindow) (fin : bool) (sel : list nat) :
  Inv (w, fin) -> Inv (remove_selected_items sel w, fin).
Proof.
  intros H. unfold remove_selected_items.
  destruct (queue_running w) eqn:Hrun.
  { eapply Inv_frame; [..|exact H]; reflexivity. }
  destruct (Inv_not_running _ _ H Hrun) as [-> Hrest].
  destruct (sorted_desc_set sel) as [|m l]; [exact H|].
  rewrite fold_removeRow. destruct H as (Hok & Hbar & _).
  destruct Hrest as (H1 & H2 & H3 & H4 & H5 & H6 & H7).
  unfold Inv. cbn -[fold_left]. simpl in Hok.
  split; [now apply Forall_fold_removeRow|]. split; [exact Hbar|].
  left. split; [reflexivity|]. unfold at_rest. cbn -[fold_left].
  repeat split; try assumption; now apply Forall_fold_removeRow.
Qed.

Lemma step_clear (w : MainWindow) (fin : bool) :
  Inv (w, fin) -> Inv (clear_finished_items w, fin).
Proof.
  intros H. unfold clear_finished_items.
  destruct (queue_running w) eqn:Hrun.
  { eapply Inv_frame; [..|exact H]; reflexivity. }
  destruct (Inv_not_running _ _ H Hrun) as [-> Hrest].
  rewrite fold_removeRow. destruct H as (Hok & Hbar & _).
  destruct Hrest as (H1 & H2 & H3 & H4 & H5 & H6 & H7). simpl in Hok.
  assert (Inv (set_queue_table
                 (fold_left (fun t row => removeRow row t)
                    (rev (removable_from 0 (queue_table w))) (queue_table w))
                 w, false)) as Hinv.
  { unfold Inv. cbn -[fold_left].
    split; [now apply Forall_fold_removeRow|]. split; [exact Hbar|].
    left. split; [reflexivity|]. unfold at_rest. cbn -[fold_left].
    repeat split; try assumption; now apply Forall_fold_removeRow. }
  destruct (removable_from 0 (queue_table w)); [exact Hinv|].
  eapply Inv_frame; [..|exact Hinv]; reflexivity.
Qed.

Lemma step_progress (w : MainWindow) (percent : float) (message : string) :
  Inv (w, false) -> Inv (on_progress percent message w, false).
Proof.
  intros H. unfold on_progress.
  destruct (int_of_float percent) as [n|e]; [|exact H].
  assert (Inv (set_progress_bar (Z.max 0 (Z.min 100 n)) w, false)) as Hbar.
  { destruct H as (Hok & _ & Hst). unfold Inv. cbn.
    split; [exact Hok|]. split; [lia|].
    destruct Hst as [[Hf Hrest]|Hact]; [left | right]; tauto. }
  destruct (current_row w) as [row|].
  - cbn [current_row set_progress_bar].
    eapply Inv_frame;
      [..|apply (step_alter (with_item COL_PROGRESS
                               (format_fixed 1 percent ++ "%")) row _ _
                   ltac:(intros; now apply row_ok_progress)
                   ltac:(reflexivity) ltac:(reflexivity)
                   ltac:(intros r Hr; exact Hr) Hbar)];
      reflexivity.
  - eapply Inv_frame; [..|exact Hbar]; reflexivity.
Qed.

Lemma finished_cells_known (success : bool) (message : string) (r : Row) :
  known_status (fst (finished_cells success message r)) = true
  /\ forall r', status_item r' = Some (fst (finished_cells success message r))
                -> is_finished_row r' = true.
Proof.
  unfold finished_cells.
  destruct success; [|destruct (contains "cancel" (lower message))];
    (split; [reflexivity|]); intros r' Hr';
    unfold is_finished_row, has_status; rewrite Hr'; reflexivity.
Qed.

Lemma on_item_finished_frame (success : bool) (message : string)
  (w : MainWindow) (i : nat) :
  current_row w = Some i ->
  progress_bar (on_item_finished success message w) = progress_bar w
  /\ worker (on_item_finished success message w) = worker w
  /\ current_row (on_item_finished success message w) = current_row w
  /\ queue_running (on_item_finished success message w) = queue_running w
  /\ quality_combo (on_item_finished success message w) = quality_combo w
  /\ (stop_queue_requested w = true ->
      stop_queue_requested (on_item_finished success message w) = true).
Proof.
  intros Hi. unfold on_item_finished. rewrite Hi.
  destruct success; [|destruct (contains "cancel" (lower message))];
    cbn; repeat split; auto.
Qed.

Lemma step_finished (w : MainWindow) (success : bool) (message : string)
  (d : DownloadWorker) :
  worker w = Some d -> Inv (w, false) ->
  Inv (on_item_finished success message w, true).
Proof.
  intros Hd H. pose proof (Inv_worker _ _ _ H Hd) as Hact.
  destruct H as (Hok & Hbar & _). simpl in Hok, Hbar.
  destruct Hact as (Hrun & d' & i & r & Hd' & Hi & Hr & Hu & Hq & Hc & Hs
                    & Hothers).
  destruct (on_item_finished_frame success message w i Hi)
    as (Eb & Ew & Ec & Er & _ & Es).
  pose proof (on_item_finished_table success message w i Hi) as Et.
  rewrite Hr in Et. cbn [default] in Et.
  destruct (finished_cells_known success message r) as [Hk Hfin].
  unfold Inv. simpl fst. simpl snd. rewrite Et, Eb.
  split; [|split; [exact Hbar|]].
  - apply Forall_alter; [exact Hok|]. intros r' _ Hr'.
    now apply row_ok_progress, row_ok_status.
  - right. unfold active. rewrite Ew, Ec, Er, Et.
    split; [exact Hrun|]. eexists d', i, _.
    split; [exact Hd'|]. split; [exact Hi|].
    split; [rewrite list_lookup_alter_eq, Hr; reflexivity|].
    split; [exact Hu|]. split; [exact Hq|].
    split; [intros Hcd; apply Es; auto|].
    split; [apply Hfin; reflexivity|].
    intros j r' Hj Hr'. rewrite list_lookup_alter_ne in Hr' by auto. eauto.
Qed.

Lemma step_thread_end (w : MainWindow) (d : DownloadWorker) :
  worker w = Some d -> Inv (w, true) -> Inv (on_thread_finished w, false).
Proof.
  intros Hd H. pose proof (Inv_worker _ _ _ H Hd) as Hact.
  destruct H as (Hok & Hbar & _). simpl in Hok, Hbar.
  destruct Hact as (Hrun & d' & i & r & Hd' & Hi & Hr & Hu & Hq & Hc & Hs
                    & Hothers).
  unfold on_thread_finished. cbn [queue_running set_current_row set_worker].
  rewrite Hrun. apply schedule_inv; cbn; try assumption; try reflexivity.
  apply Forall_lookup_2. intros j r' Hj.
  destruct (Nat.eq_dec j i) as [->|Hne].
  - rewrite Hr in Hj. injection Hj as <-. now apply finished_not_downloading.
  - eauto.
Qed.

(** Every step keeps the invariant. *)
Lemma step_inv (s : MainWindow * bool) (ev : event) : Inv s -> Inv (step s ev).
Proof.
  destruct s as [w fin]. intros H. destruct ev; cbn [step].
  - now apply step_enqueue.
  - now apply step_pick_quality.
  - apply step_alter; auto using row_ok_pick_widget, status_pick_widget,
      url_pick_widget.
    intros r Hr. now rewrite box_enabled_pick.
  - eapply Inv_frame; [..|exact H]; reflexivity.
  - eapply Inv_frame; [..|exact H]; reflexivity.
  - unfold choose_folder. destruct (truthy folder); [|exact H].
    eapply Inv_frame; [..|exact H]; reflexivity.
  - unfold choose_cookies. destruct (truthy file_path); [|exact H].
    eapply Inv_frame; [..|exact H]; reflexivity.
  - now apply step_start.
  - now apply step_cancel.
  - now apply step_remove.
  - now apply step_clear.
  - destruct (worker w) eqn:Hd; [|exact H]. destruct fin; [exact H|].
    now apply step_progress.
  - destruct (worker w) eqn:Hd; [|exact H]. destruct fin; [exact H|].
    eapply Inv_frame; [..|exact H]; reflexivity.
  - destruct (worker w) eqn:Hd; [|exact H]. destruct fin; [exact H|].
    eapply step_finished; eauto.
  - destruct (worker w) eqn:Hd; [|exact H]. destruct fin; [|exact H].
    eapply step_thread_end; eauto.
Qed.

Lemma fresh_window_inv (folder : string) : Inv (fresh_window folder, false).
Proof.
  unfold Inv, fresh_window. cbn. split; [constructor|]. split; [lia|].
  left. split; [reflexivity|]. unfold at_rest. cbn.
  repeat split; constructor.
Qed.

Lemma steps_inv (events : list event) (s : MainWindow * bool) :
  Inv s -> Inv (fold_left step events s).
Proof.
  revert s. induction events as [|ev events IH]; intros s H; simpl;
    [exact H|].
  apply IH, step_inv, H.
Qed.


Lemma after_inv (events : list event) (folder : string) :
  Inv (fold_left step events (fresh_window folder, false)).
Proof. apply steps_inv, fresh_window_inv. Qed.

Lemma filter_none (P : Row -> bool) (rows : list Row) :
  Forall (fun r => P r = false) rows -> List.filter P rows = [].
Proof.
  induction 1 as [|r rows Hr _ IH]; simpl; [reflexivity|]. now rewrite Hr.
Qed.

Lemma filter_only_one (P : Row -> bool) (rows : list Row) (i : nat) :
  (forall j r, j <> i -> rows !! j = Some r -> P r = false) ->
  (length (List.filter P rows) <= 1)%nat.
Proof.
  revert i. induction rows as [|r rows IH]; intros i H; simpl; [lia|].
  destruct i as [|i].
  - rewrite (filter_none P rows).
    + destruct (P r); simpl; lia.
    + apply Forall_lookup_2. intros j r' Hj. apply (H (S j)); [lia | exact Hj].
  - rewrite (H 0%nat r) by (auto; lia).
    apply (IH i). intros j r' Hne Hj. apply (H (S j)); [lia | exact Hj].
Qed.

Lemma Inv_one_downloading (s : MainWindow * bool) :
  Inv s -> (count_downloading (queue_table (fst s)) <= 1)%nat.
Proof.
  intros (_ & _ & [[_ (_ & _ & _ & _ & Hnone & _)]|(_ & d & i & r & _ & _ & _
                   & _ & _ & _ & _ & Hothers)]); unfold count_downloading.
  - rewrite filter_none; [simpl; lia | exact Hnone].
  - eapply filter_only_one, Hothers.
Qed.

(** Whatever the user does and whatever the workers report, starting from a
    new window, at most one row of the table has the status Downloading. *)
Theorem at_most_one_downloading (folder : string) (events : list event) :
  (count_downloading (queue_table (after events (fresh_window folder)))
   <= 1)%nat.
Proof. apply Inv_one_downloading, after_inv. Qed.

(** In every window that can be reached, every row has its URL, status and
    progress items, a status among the five and a quality box that shows the
    name of a preset; so the row that [_start_next_item] picks always has a
    URL, and the branch for an invalid entry is never taken. *)
Theorem rows_always_well_formed (folder : string) (events : list event) :
  rows_ok (queue_table (after events (fresh_window folder)))
  /\ forall next_row,
       _next_queued_row (after events (fresh_window folder)) = Some next_row ->
       exists url0,
         (queue_table (after events (fresh_window folder)) !! next_row)
         ≫= url_item = Some url0.
Proof.
  assert (rows_ok (queue_table (after events (fresh_window folder)))) as Hok
    by exact (proj1 (after_inv events folder)).
  set (w := after events (fresh_window folder)) in *.
  split; [exact Hok|]. intros j Hj.
  apply next_queued_from_first in Hj as (j0 & r & -> & Hr & _).
  cbn [Nat.add]. rewrite Hr. simpl.
  exact (row_ok_url r (Forall_lookup_1 _ _ _ _ Hok Hr)).
Qed.

(** In every window that can be reached the queue is running exactly when
    there is a worker; without one, no row is active, no stop request is
    pending and every quality box is enabled. *)
Theorem running_iff_worker (folder : string) (events : list event) :
  (queue_running (after events (fresh_window folder)) = true <->
   worker (after events (fresh_window folder)) <> None)
  /\ (worker (after events (fresh_window folder)) = None ->
      current_row (after events (fresh_window folder)) = None
      /\ stop_queue_requested (after events (fresh_window folder)) = false
      /\ combo_enabled (quality_combo (after events (fresh_window folder)))
         = true
      /\ Forall (fun r => box_enabled r = true)
                (queue_table (after events (fresh_window folder)))).
Proof.
  unfold after. destruct (after_inv events folder) as (_ & _ & Hst).
  destruct (fold_left step events (fresh_window folder, false)) as [w fin].
  simpl in *.
  destruct Hst as [[_ (Hw & Hc & Hr & Hs & _ & Hq & Hb)]
                  |(Hr & d & i & r & Hw & _)].
  - rewrite Hw, Hr. split; [split; congruence | tauto].
  - rewrite Hw, Hr. split; [split; congruence | discriminate].
Qed.

(** In every window that can be reached a worker belongs to the active row:
    its URL is the URL of that row, its preset is a name of the preset
    table, and it is cancelled only when a stop has been requested. *)
Theorem worker_belongs_to_active_row (folder : string) (events : list event)
  (d : DownloadWorker) :
  worker (after events (fresh_window folder)) = Some d ->
  (exists i r,
     current_row (after events (fresh_window folder)) = Some i
     /\ queue_table (after events (fresh_window folder)) !! i = Some r
     /\ url_item r = Some (url d))
  /\ In (quality_preset d) (dict_keys QUALITY_PRESETS)
  /\ (_cancelled d = true ->
      stop_queue_requested (after events (fresh_window folder)) = true).
Proof.
  unfold after. pose proof (after_inv events folder) as H.
  destruct (fold_left step events (fresh_window folder, false)) as [w fin].
  simpl. intros Hd.
  destruct (Inv_worker _ _ _ H Hd)
    as (_ & d' & i & r & Hd' & Hi & Hr & Hu & Hq & Hc & _).
  rewrite Hd in Hd'. injection Hd' as <-.
  split; [eauto|]. split; [|exact Hc].
  unfold dict_mem in Hq.
  destruct (dict_lookup QUALITY_PRESETS (quality_preset d)) as [cfg|] eqn:E;
    [|discriminate].
  apply dict_lookup_In in E. exact (in_map fst _ _ E).
Qed.

(** In every window that can be reached the progress bar is between 0 and
    100. *)
Theorem progress_bar_in_range (folder : string) (events : list event) :
  (0 <= progress_bar (after events (fresh_window folder)) <= 100)%Z.
Proof. exact (proj1 (proj2 (after_inv events folder))). Qed.


Lemma worker_belongs_to_active_row_witness :
  (exists i r,
     current_row (after [UEnqueue "https://x.test/a"; UStart]
                        (fresh_window "/tmp/out")) = Some i
     /\ queue_table (after [UEnqueue "https://x.test/a"; UStart]
                           (fresh_window "/tmp/out")) !! i = Some r
     /\ url_item r = Some "https://x.test/a")
  /\ In "Best (Video + Audio)" (dict_keys QUALITY_PRESETS).
Proof.
  destruct (worker_belongs_to_active_row "/tmp/out"
              [UEnqueue "https://x.test/a"; UStart]
              {| url := "https://x.test/a"; output_dir := "/tmp/out";
                 cookie_file := ""; quality_preset := "Best (Video + Audio)";
                 _cancelled := false |} eq_refl) as (H1 & H2 & _).
  split; [exact H1 | exact H2].
Defined.

End InvariantFacts.

(* ===================================================================== *)
(** * The queue from one item to the next *)

Section CompletionFacts.
Lemma is_queued_status (r : Row) :
  has_status "Queued" r = is_queued (status_item r).
Proof. reflexivity. Qed.

Lemma next_queued_statuses (k : nat) (rows : list Row) :
  next_queued_from k rows = first_queued_from k (map status_item rows).
Proof.
  revert k. induction rows as [|r rows IH]; intros k; simpl; [reflexivity|].
  rewrite is_queued_status. now rewrite IH.
Qed.

Lemma next_queued_row_statuses (w : MainWindow) :
  _next_queued_row w = first_queued (statuses w).
Proof. apply next_queued_statuses. Qed.

Lemma count_queued_statuses (rows : list Row) :
  count_queued rows = length (List.filter is_queued (map status_item rows)).
Proof.
  unfold count_queued. induction rows as [|r rows IH]; simpl; [reflexivity|].
  rewrite is_queued_status. destruct (is_queued (status_item r)); simpl; lia.
Qed.

Lemma statuses_alter (f : Row -> Row) (i : nat) (rows : list Row) (r : Row) :
  rows !! i = Some r ->
  map status_item (alter f i rows)
  = <[i := status_item (f r)]> (map status_item rows).
Proof.
  revert i. induction rows as [|r0 rows IH]; intros [|i] H; simpl in *;
    try discriminate.
  - now injection H as ->.
  - f_equal. now apply IH.
Qed.

Lemma statuses_alter_same (f : Row -> Row) (i : nat) (rows : list Row) :
  (forall r, status_item (f r) = status_item r) ->
  map status_item (alter f i rows) = map status_item rows.
Proof.
  intros Hf. revert i. induction rows as [|r0 rows IH]; intros [|i]; simpl;
    auto.
  - now rewrite Hf.
  - f_equal. apply IH.
Qed.

Lemma statuses_map_same (f : Row -> Row) (rows : list Row) :
  (forall r, status_item (f r) = status_item r) ->
  map status_item (map f rows) = map status_item rows.
Proof.
  intros Hf. induction rows as [|r rows IH]; simpl; [reflexivity|].
  now rewrite Hf, IH.
Qed.

Lemma first_queued_from_lookup (k i : nat) (sts : list (option string)) :
  first_queued_from k sts = Some i ->
  exists j, i = (k + j)%nat /\ sts !! j = Some (Some "Queued").
Proof.
  revert k. induction sts as [|s sts IH]; intros k H; simpl in H;
    [discriminate|].
  destruct (is_queued s) eqn:E.
  - injection H as <-. exists 0%nat. split; [lia|].
    destruct s as [t|]; [|discriminate]. simpl in E.
    apply String.eqb_eq in E. now subst.
  - destruct (IH _ H) as (j & -> & Hj). exists (S j). split; [lia | exact Hj].
Qed.

Lemma first_queued_lookup (i : nat) (sts : list (option string)) :
  first_queued sts = Some i -> sts !! i = Some (Some "Queued").
Proof.
  intros H. apply first_queued_from_lookup in H as (j & -> & Hj). exact Hj.
Qed.

Lemma first_queued_from_insert_same (k i : nat) (x s : option string)
  (sts : list (option string)) :
  sts !! i = Some s -> is_queued s = false -> is_queued x = false ->
  first_queued_from k (<[i := x]> sts) = first_queued_from k sts.
Proof.
  revert k i. induction sts as [|s0 sts IH]; intros k [|i] Hi Hs Hx;
    simpl in *; try discriminate.
  - injection Hi as ->. now rewrite Hs, Hx.
  - destruct (is_queued s0); [reflexivity|]. now apply IH.
Qed.

Lemma first_queued_from_none (k : nat) (sts : list (option string)) :
  first_queued_from k sts = None <-> length (List.filter is_queued sts) = 0%nat.
Proof.
  revert k. induction sts as [|s sts IH]; intros k; simpl; [tauto|].
  destruct (is_queued s); simpl; [split; [discriminate | lia] | apply IH].
Qed.

Lemma count_insert_settled (j : nat) (x : option string)
  (sts : list (option string)) :
  sts !! j = Some (Some "Queued") -> is_queued x = false ->
  S (length (List.filter is_queued (<[j := x]> sts)))
  = length (List.filter is_queued sts).
Proof.
  revert j. induction sts as [|s sts IH]; intros [|j] Hj Hx; simpl in *;
    try discriminate.
  - injection Hj as ->. simpl. now rewrite Hx.
  - specialize (IH _ Hj Hx). destruct (is_queued s); simpl; lia.
Qed.

Lemma terminal_not_queued (success : bool) : is_queued (terminal success) = false.
Proof. now destruct success. Qed.

Lemma not_cancel_cells (o : bool * string) (r : Row) :
  not_cancel o = true ->
  Some (fst (finished_cells (fst o) (snd o) r)) = terminal (fst o).
Proof.
  unfold not_cancel, finished_cells, terminal. destruct o as [[|] m]; simpl;
    [reflexivity|].
  intros H. apply negb_true_iff in H. now rewrite H.
Qed.

Lemma not_cancel_stop (o : bool * string) (w : MainWindow) :
  not_cancel o = true ->
  stop_queue_requested (on_item_finished (fst o) (snd o) w)
  = stop_queue_requested w.
Proof.
  unfold not_cancel, on_item_finished. destruct o as [[|] m]; simpl; intros H;
    destruct (current_row w); try reflexivity.
  apply negb_true_iff in H. now rewrite H.
Qed.

(** The scheduler on a window with no stop requested and well-formed rows:
    the first Queued row is started. *)
Lemma schedule_begin (w : MainWindow) (j : nat) :
  stop_queue_requested w = false -> rows_ok (queue_table w) ->
  _next_queued_row w = Some j ->
  exists r u,
    queue_table w !! j = Some r /\ url_item r = Some u
    /\ _start_next_item w
       = begin_item j u (strip (output_input w)) (strip (cookies_input w)) w.
Proof.
  intros Hs Hok Hj. rewrite start_next_item_eq, Hs, Hj.
  apply next_queued_from_first in Hj as (j0 & r & -> & Hr & _).
  simpl in *. rewrite Hr. simpl.
  destruct (row_ok_url r (Forall_lookup_1 _ _ _ _ Hok Hr)) as [u Hu].
  rewrite Hu. eauto.
Qed.

Lemma schedule_end (w : MainWindow) :
  stop_queue_requested w = false -> _next_queued_row w = None ->
  _start_next_item w = _finish_queue "Queue completed." "success" w.
Proof. intros Hs Hj. now rewrite start_next_item_eq, Hs, Hj. Qed.

Lemma begin_item_statuses (j : nat) (u odir cfile : string) (w : MainWindow)
  (r : Row) :
  queue_table w !! j = Some r ->
  statuses (begin_item j u odir cfile w) = <[j := Some "Downloading"]> (statuses w).
Proof.
  intros Hr. unfold statuses, begin_item. cbn -[alter].
  rewrite statuses_alter_same by reflexivity.
  now rewrite (statuses_alter _ _ _ r Hr).
Qed.

Lemma finish_queue_statuses (message state : string) (w : MainWindow) :
  statuses (_finish_queue message state w) = statuses w.
Proof.
  unfold statuses, _finish_queue, _set_quality_editable. cbn -[String.eqb].
  apply statuses_map_same, status_with_widget_enabled.
Qed.

(** The end of an item that is not a cancellation, with no stop requested. *)
Lemma item_done_advance (w : MainWindow) (d : DownloadWorker)
  (o : bool * string) :
  Inv (w, false) -> worker w = Some d -> stop_queue_requested w = false ->
  not_cancel o = true ->
  exists i r,
    current_row w = Some i /\ queue_table w !! i = Some r
    /\ status_item r = Some "Downloading"
    /\ Inv (item_done w o, false)
    /\ match _next_queued_row w with
       | Some j =>
           exists r' u,
             queue_table w !! j = Some r' /\ url_item r' = Some u
             /\ j <> i
             /\ item_done w o
                = begin_item j u (strip (output_input w))
                    (strip (cookies_input w))
                    (set_current_row None
                       (set_worker None (on_item_finished (fst o) (snd o) w)))
             /\ statuses (item_done w o)
                = <[j := Some "Downloading"]>
                    (<[i := terminal (fst o)]> (statuses w))
       | None =>
           item_done w o
           = _finish_queue "Queue completed." "success"
               (set_current_row None
                  (set_worker None (on_item_finished (fst o) (snd o) w)))
           /\ statuses (item_done w o) = <[i := terminal (fst o)]> (statuses w)
       end.
Proof.
  intros HI Hd Hs Hnc. pose proof (Inv_worker _ _ _ HI Hd) as Hact.
  destruct Hact as (Hrun & d' & i & r & Hd' & Hi & Hr & Hu & Hq & Hc & Hst
                    & Hothers).
  exists i, r. split; [exact Hi|]. split; [exact Hr|].
  split; [now apply has_status_iff|].
  pose proof (step_finished w (fst o) (snd o) d Hd HI) as HI1.
  destruct (on_item_finished_frame (fst o) (snd o) w i Hi)
    as (Eb & Ew & Ec & Er & _ & _).
  pose proof (on_item_finished_table (fst o) (snd o) w i Hi) as Et.
  rewrite Hr in Et. cbn [default] in Et.
  pose proof (not_cancel_stop o w Hnc) as Es. rewrite Hs in Es.
  set (w1 := on_item_finished (fst o) (snd o) w) in *.
  assert (Hst1 : statuses w1 = <[i := terminal (fst o)]> (statuses w)).
  { unfold statuses. rewrite Et, (statuses_alter _ _ _ r Hr). simpl.
    now rewrite not_cancel_cells. }
  assert (Hnext : _next_queued_row (set_current_row None (set_worker None w1))
                  = _next_queued_row w).
  { rewrite !next_queued_row_statuses.
    change (statuses (set_current_row None (set_worker None w1)))
      with (statuses w1).
    rewrite Hst1. unfold first_queued.
    apply (first_queued_from_insert_same _ _ _ (Some "Downloading")).
    - unfold statuses. rewrite lookup_map, Hr. simpl.
      f_equal. now apply has_status_iff.
    - reflexivity.
    - apply terminal_not_queued. }
  assert (Hw2 : item_done w o
                = _start_next_item (set_current_row None (set_worker None w1))).
  { unfold item_done, on_thread_finished. fold w1.
    cbn [queue_running set_current_row set_worker]. now rewrite Er, Hrun. }
  split.
  { unfold item_done. fold w1. apply (step_thread_end w1 d); [|exact HI1].
    now rewrite Ew. }
  destruct (_next_queued_row w) as [j|] eqn:Ej.
  - destruct (schedule_begin (set_current_row None (set_worker None w1)) j)
      as (r' & u & Hr' & Hu' & Eq); [exact Es | apply HI1 | exact Hnext |].
    cbn [queue_table set_current_row set_worker output_input cookies_input]
      in Hr', Eq.
    assert (Hji : j <> i).
    { intros ->. pose proof Ej as Ej'.
      rewrite next_queued_row_statuses in Ej'.
      apply first_queued_lookup in Ej'. unfold statuses in Ej'.
      rewrite lookup_map, Hr in Ej'. simpl in Ej'.
      apply has_status_iff in Hst. congruence. }
    assert (Hrj : exists r0, queue_table w !! j = Some r0
                             /\ url_item r0 = Some u).
    { rewrite Et in Hr'. rewrite list_lookup_alter_ne in Hr' by congruence.
      eauto. }
    destruct Hrj as (r0 & Hr0 & Hu0).
    exists r0, u. split; [exact Hr0|]. split; [exact Hu0|].
    split; [exact Hji|].
    assert (Eo : output_input w1 = output_input w
                 /\ cookies_input w1 = cookies_input w).
    { unfold w1, on_item_finished. rewrite Hi.
      destruct (fst o); [|destruct (contains _ _)]; split; reflexivity. }
    destruct Eo as [Eo1 Eo2]. rewrite Hw2, Eq, Eo1, Eo2.
    split; [reflexivity|].
    rewrite (begin_item_statuses j u (strip (output_input w))
               (strip (cookies_input w))
               (set_current_row None (set_worker None w1)) r' Hr').
    change (statuses (set_current_row None (set_worker None w1)))
      with (statuses w1). now rewrite Hst1.
  - rewrite Hw2, schedule_end by assumption. split; [reflexivity|].
    rewrite finish_queue_statuses. exact Hst1.
Qed.

Lemma first_queued_from_insert_any (k j : nat) (x y : option string)
  (sts : list (option string)) :
  is_queued x = false -> is_queued y = false ->
  first_queued_from k (<[j := x]> sts) = first_queued_from k (<[j := y]> sts).
Proof.
  intros Hx Hy. revert k j.
  induction sts as [|s sts IH]; intros k [|j]; simpl; try reflexivity.
  - now rewrite Hx, Hy.
  - destruct (is_queued s); [reflexivity | apply IH].
Qed.

Lemma none_downloading_statuses (rows : list Row) :
  none_downloading rows ->
  Forall (fun s => s <> Some "Downloading") (map status_item rows).
Proof.
  induction 1 as [|r rows Hr _ IH]; simpl; constructor; [|exact IH].
  intros E. apply has_status_iff in E. congruence.
Qed.

Lemma working_on_report (sts : list (option string)) (w : MainWindow)
  (rep : report) :
  working_on sts w ->
  exists w', step (w, false) (report_event rep) = (w', false)
             /\ working_on sts w'.
Proof.
  intros (HI & Hs & Hnd & j & d & Hfq & Hcur & Hd & Hst).
  pose proof (step_inv (w, false) (report_event rep) HI) as HI'.
  destruct rep as [percent message|message]; cbn [report_event step] in *;
    rewrite Hd in *; eexists; (split; [reflexivity|]).
  - unfold working_on. split; [exact HI'|].
    unfold on_progress in *. destruct (int_of_float percent);
      [|now (split; [exact Hs|]; split; [exact Hnd|]; exists j, d)].
    rewrite Hcur. cbn -[alter]. split; [exact Hs|]. split; [exact Hnd|].
    exists j, d. repeat split; try assumption.
    unfold statuses. cbn -[alter]. rewrite statuses_alter_same by reflexivity.
    exact Hst.
  - unfold working_on. split; [exact HI'|]. split; [exact Hs|].
    split; [exact Hnd|]. exists j, d. repeat split; assumption.
Qed.

Lemma working_on_reports (sts : list (option string)) (reps : list report)
  (w : MainWindow) :
  working_on sts w ->
  exists w', fold_left step (map report_event reps) (w, false) = (w', false)
             /\ working_on sts w'.
Proof.
  revert w. induction reps as [|rep reps IH]; intros w H;
    cbn [fold_left map].
  - eauto.
  - destruct (working_on_report sts w rep H) as (w1 & -> & H1). now apply IH.
Qed.

Lemma working_on_end (sts : list (option string)) (w : MainWindow)
  (o : bool * string) :
  working_on sts w ->
  fold_left step [WFinished (fst o) (snd o); WThreadEnd] (w, false)
  = (item_done w o, false).
Proof.
  intros (HI & Hs & Hnd & j & d & Hfq & Hcur & Hd & Hst).
  destruct (on_item_finished_frame (fst o) (snd o) w j Hcur)
    as (_ & Ew & _).
  cbn [fold_left step]. rewrite Hd. cbn [step]. now rewrite Ew, Hd.
Qed.


Lemma working_on_item (sts : list (option string)) (w : MainWindow)
  (o : bool * string) :
  working_on sts w -> not_cancel o = true ->
  S (length (List.filter is_queued (settle_first (terminal (fst o)) sts)))
  = length (List.filter is_queued sts)
  /\ match first_queued (settle_first (terminal (fst o)) sts) with
     | Some _ => working_on (settle_first (terminal (fst o)) sts)
                            (item_done w o)
     | None => completed (item_done w o)
               /\ statuses (item_done w o)
                  = settle_first (terminal (fst o)) sts
     end.
Proof.
  intros (HI & Hs & Hnd & j & d & Hfq & Hcur & Hd & Hst) Hnc.
  pose proof (first_queued_lookup _ _ Hfq) as Hj.
  unfold settle_first. rewrite Hfq.
  split; [apply count_insert_settled; [exact Hj | apply terminal_not_queued]|].
  destruct (item_done_advance w d o HI Hd Hs Hnc)
    as (i & r & Hi & Hr & Hsr & HI2 & Hcase).
  assert (i = j) as -> by congruence.
  assert (E1 : <[j := terminal (fst o)]> (statuses w)
               = <[j := terminal (fst o)]> sts).
  { rewrite Hst. apply list_insert_insert_eq. }
  assert (E2 : _next_queued_row w = first_queued (<[j := terminal (fst o)]> sts)).
  { rewrite next_queued_row_statuses, Hst.
    apply first_queued_from_insert_any;
      [reflexivity | apply terminal_not_queued]. }
  pose proof (not_cancel_stop o w Hnc) as Es. rewrite Hs in Es.
  rewrite E2 in Hcase.
  destruct (first_queued (<[j := terminal (fst o)]> sts)) as [j'|] eqn:Efq'.
  - destruct Hcase as (r' & u & Hr' & Hu' & Hji & Eq & Hsts).
    rewrite E1 in Hsts.
    split; [exact HI2|]. split; [rewrite Eq; exact Es|].
    split.
    { apply Forall_insert; [exact Hnd|]. unfold terminal.
      destruct (fst o); discriminate. }
    exists j'. rewrite Eq in *. eexists. split; [exact Efq'|].
    split; [reflexivity|]. split; [reflexivity | exact Hsts].
  - destruct Hcase as (Eq & Hsts). rewrite E1 in Hsts.
    split; [|exact Hsts].
    unfold completed. rewrite next_queued_row_statuses, Hsts, Eq. cbn.
    repeat split; assumption.
Qed.

Lemma working_on_items (items : list (list report * (bool * string))) :
  forall (sts : list (option string)) (w : MainWindow),
    working_on sts w ->
    forallb not_cancel (map snd items) = true ->
    length items = length (List.filter is_queued sts) ->
    exists w',
      fold_left step (flat_map item_events items) (w, false) = (w', false)
      /\ completed w'
      /\ statuses w' = settle_all (map snd items) sts.
Proof.
  induction items as [|[reps o] items IH]; intros sts w Hw Hnc Hlen.
  - destruct Hw as (_ & _ & _ & j & _ & Hfq & _).
    symmetry in Hlen. apply (first_queued_from_none 0) in Hlen.
    unfold first_queued in Hfq. congruence.
  - cbn [map forallb snd] in Hnc. apply andb_prop in Hnc as [Ho Hnc].
    destruct (working_on_reports sts reps w Hw) as (w1 & E1 & Hw1).
    destruct (working_on_item sts w1 o Hw1 Ho) as (Hcount & Hcase).
    assert (E2 : fold_left step (flat_map item_events ((reps, o) :: items))
                   (w, false)
                 = fold_left step (flat_map item_events items)
                     (item_done w1 o, false)).
    { cbn [flat_map]. rewrite fold_left_app. f_equal.
      unfold item_events. cbn [fst snd]. rewrite fold_left_app, E1.
      apply (working_on_end sts w1 o Hw1). }
    rewrite E2.
    cbn [map snd]. unfold settle_all. cbn [fold_left].
    fold (settle_all (map snd items) (settle_first (terminal (fst o)) sts)).
    cbn [length] in Hlen.
    destruct (first_queued (settle_first (terminal (fst o)) sts)) eqn:Efq.
    + apply IH; [exact Hcase | exact Hnc | lia].
    + apply (first_queued_from_none 0) in Efq.
      assert (items = []) as ->
          by (destruct items; [reflexivity|simpl in *; lia]).
      destruct Hcase as [Hc Hsts]. exists (item_done w1 o).
      split; [reflexivity|]. split; [exact Hc | exact Hsts].
Qed.

Lemma start_working (w : MainWindow) :
  Inv (w, false) -> queue_running w = false ->
  truthy (strip (output_input w)) = true ->
  count_queued (queue_table w) <> 0%nat ->
  working_on (statuses w) (start_queue w).
Proof.
  intros HI Hrun Hout Hcount.
  pose proof (step_start w false HI) as HI'.
  destruct (Inv_not_running _ _ HI Hrun) as [_ Hrest].
  destruct Hrest as (H1 & H2 & H3 & H4 & H5 & H6 & H7).
  destruct HI as (Hok & _ & _). simpl in Hok.
  unfold start_queue in *. rewrite Hrun, Hout in *. cbn [negb] in *.
  destruct (_next_queued_row w) as [j|] eqn:Ej.
  2:{ rewrite next_queued_row_statuses in Ej.
      apply (first_queued_from_none 0) in Ej.
      rewrite count_queued_statuses in Hcount. contradiction. }
  set (w0 := _set_quality_editable false
               (set_progress_bar 0
                  (set_stop_queue_requested false
                     (set_queue_running true
                        (appendPlainText "Starting queue..." w))))) in *.
  assert (Est : statuses w0 = statuses w).
  { unfold statuses, w0, _set_quality_editable. cbn.
    apply statuses_map_same, status_with_widget_enabled. }
  destruct (schedule_begin w0 j) as (r & u & Hr & Hu & Eq).
  - reflexivity.
  - unfold w0, _set_quality_editable. cbn.
    eapply Forall_map_intro; [exact Hok|]. apply row_ok_widget_enabled.
  - now rewrite next_queued_row_statuses, Est, <- next_queued_row_statuses.
  - rewrite Eq in *. split; [exact HI'|]. split; [reflexivity|].
    split; [now apply none_downloading_statuses|].
    exists j. eexists. split; [now rewrite <- next_queued_row_statuses|].
    split; [reflexivity|]. split; [reflexivity|].
    rewrite (begin_item_statuses j u (strip (output_input w0))
               (strip (cookies_input w0)) w0 r Hr). now rewrite Est.
Qed.

(** The end of an item that is not a cancellation, while no stop has
    been requested, makes the queue go on: the finished row shows Done or
    Failed, and the first row that is still Queued, if there is one, becomes
    the active row, shown as Downloading, with a fresh worker (not cancelled)
    for its URL, its quality and the output folder of the window; with no
    Queued row left the queue ends as completed, the bar at 100. *)
Theorem next_item_starts (folder : string) (events : list event)
  (w : MainWindow) (d : DownloadWorker) (o : bool * string) :
  fold_left step events (fresh_window folder, false) = (w, false) ->
  worker w = Some d ->
  stop_queue_requested w = false ->
  not_cancel o = true ->
  (exists i, current_row w = Some i
             /\ statuses (item_done w o) !! i = Some (terminal (fst o)))
  /\ match _next_queued_row w with
     | Some j =>
         exists r d',
           queue_table w !! j = Some r
           /\ queue_running (item_done w o) = true
           /\ current_row (item_done w o) = Some j
           /\ statuses (item_done w o) !! j = Some (Some "Downloading")
           /\ worker (item_done w o) = Some d'
           /\ url_item r = Some (url d')
           /\ quality_preset d' = _quality_for_row j w
           /\ output_dir d' = strip (output_input w)
           /\ _cancelled d' = false
     | None =>
         queue_running (item_done w o) = false
         /\ worker (item_done w o) = None
         /\ current_row (item_done w o) = None
         /\ status_label (item_done w o) = ("Queue completed.", "success")
         /\ progress_bar (item_done w o) = 100%Z
     end.
Proof.
  intros E Hd Hs Hnc. pose proof (after_inv events folder) as HI.
  rewrite E in HI.
  pose proof (Inv_worker _ _ _ HI Hd) as (Hrun & _).
  destruct (item_done_advance w d o HI Hd Hs Hnc)
    as (i & r & Hi & Hr & Hsr & HI2 & Hcase).
  assert (Hlen : (i < length (statuses w))%nat).
  { unfold statuses. rewrite length_map. eapply lookup_lt_Some; eauto. }
  pose proof (on_item_finished_table (fst o) (snd o) w i Hi) as Et.
  destruct (on_item_finished_frame (fst o) (snd o) w i Hi)
    as (_ & _ & _ & Er & _).
  destruct (_next_queued_row w) as [j|] eqn:Ej.
  - destruct Hcase as (r' & u & Hr' & Hu' & Hji & Eq & Hsts).
    assert (Hlenj : (j < length (statuses w))%nat).
    { unfold statuses. rewrite length_map. eapply lookup_lt_Some; eauto. }
    split.
    + exists i. split; [exact Hi|]. rewrite Hsts.
      rewrite list_lookup_insert_ne by exact Hji.
      now apply list_lookup_insert_eq.
    + exists r'. eexists. split; [exact Hr'|].
      rewrite Hsts, Eq. cbn -[alter strip]. rewrite Er, Hrun.
      split; [reflexivity|]. split; [reflexivity|].
      split; [apply list_lookup_insert_eq; now rewrite length_insert|].
      split; [reflexivity|]. cbn -[alter strip].
      split; [exact Hu'|]. split; [|split; reflexivity].
      unfold _quality_for_row. cbn -[alter]. rewrite Et.
      rewrite list_lookup_alter_ne by congruence. reflexivity.
  - destruct Hcase as (Eq & Hsts). split.
    + exists i. split; [exact Hi|]. rewrite Hsts.
      now apply list_lookup_insert_eq.
    + rewrite Eq. cbn. repeat split.
Qed.

Lemma next_item_starts_witness :
  exists r d',
    queue_table (after [UEnqueue two_urls; UStart] (fresh_window "/tmp/out"))
      !! 1%nat = Some r
    /\ current_row
         (item_done
            (after [UEnqueue two_urls; UStart] (fresh_window "/tmp/out"))
            (false, "ERROR: unavailable")) = Some 1%nat
    /\ worker
         (item_done
            (after [UEnqueue two_urls; UStart] (fresh_window "/tmp/out"))
            (false, "ERROR: unavailable")) = Some d'
    /\ url_item r = Some (url d')
    /\ _cancelled d' = false.
Proof.
  destruct (next_item_starts "/tmp/out" [UEnqueue two_urls; UStart]
              (after [UEnqueue two_urls; UStart] (fresh_window "/tmp/out"))
              {| url := "https://x.test/a"; output_dir := "/tmp/out";
                 cookie_file := ""; quality_preset := "Best (Video + Audio)";
                 _cancelled := false |}
              (false, "ERROR: unavailable")
              eq_refl eq_refl eq_refl eq_refl) as [_ H].
  change (_next_queued_row
            (after [UEnqueue two_urls; UStart] (fresh_window "/tmp/out")))
    with (Some 1%nat) in H.
  destruct H as (r & d' & H1 & _ & H2 & _ & H3 & H4 & _ & _ & H5).
  exists r, d'. repeat split; assumption.
Defined.

(** A queue runs to its end, first in, first out.  From a window that
    can be reached and is not running, with an output folder and as many
    Queued rows as there are items, the start of the queue followed by the
    events of the items (whatever their workers report, none of them ending
    as a cancellation) leaves the queue completed: not running, no worker,
    no active row, no Queued row, the bar at 100 and the status
    Queue completed; the outcomes have gone, in order, to the rows that
    were Queued, in the order of the table, and all other statuses are as
    before. *)
Theorem queue_runs_to_completion (folder : string) (events : list event)
  (items : list (list report * (bool * string))) :
  queue_running (after events (fresh_window folder)) = false ->
  truthy (strip (output_input (after events (fresh_window folder)))) = true ->
  items <> [] ->
  length items = count_queued (queue_table (after events (fresh_window folder))) ->
  forallb not_cancel (map snd items) = true ->
  completed
    (after (events ++ UStart :: flat_map item_events items)
           (fresh_window folder))
  /\ statuses
       (after (events ++ UStart :: flat_map item_events items)
              (fresh_window folder))
     = settle_all (map snd items)
         (statuses (after events (fresh_window folder))).
Proof.
  unfold after. rewrite fold_left_app.
  pose proof (after_inv events folder) as HI.
  destruct (fold_left step events (fresh_window folder, false)) as [w fin].
  cbn [fst]. intros Hrun Hout Hne Hlen Hnc.
  destruct (Inv_not_running _ _ HI Hrun) as [-> _].
  cbn [fold_left step].
  assert (Hcount : count_queued (queue_table w) <> 0%nat).
  { rewrite <- Hlen. destruct items; [contradiction | discriminate]. }
  pose proof (start_working w HI Hrun Hout Hcount) as Hw.
  rewrite count_queued_statuses in Hlen.
  destruct (working_on_items items (statuses w) (start_queue w) Hw Hnc Hlen)
    as (w' & -> & Hc & Hs).
  cbn [fst]. split; [exact Hc | exact Hs].
Qed.

Lemma queue_runs_to_completion_witness :
  completed
    (after ([UEnqueue two_urls]
            ++ UStart
               :: flat_map item_events
                    [([ReportLog "starting"], (false, "ERROR: unavailable"));
                     ([], (true, "Download completed."))])
           (fresh_window "/tmp/out"))
  /\ statuses
       (after ([UEnqueue two_urls]
               ++ UStart
                  :: flat_map item_events
                       [([ReportLog "starting"], (false, "ERROR: unavailable"));
                        ([], (true, "Download completed."))])
              (fresh_window "/tmp/out"))
     = [Some "Failed"; Some "Done"].
Proof.
  destruct (queue_runs_to_completion "/tmp/out" [UEnqueue two_urls]
              [([ReportLog "starting"], (false, "ERROR: unavailable"));
               ([], (true, "Download completed."))]
              eq_refl eq_refl ltac:(discriminate) eq_refl eq_refl)
    as [H1 H2].
  split; [exact H1 | exact H2].
Defined.

End CompletionFacts.

(* ===================================================================== *)
(** * A cancelled worker and the queue *)

Section CancelFacts.

(** A report of the worker leaves the queue as it is. *)
Lemma deliver_report (w : MainWindow) (s : signal) :
  is_Finished s = false -> Inv (w, false) ->
  Inv (deliver w s, false)
  /\ worker (deliver w s) = worker w
  /\ current_row (deliver w s) = current_row w
  /\ queue_running (deliver w s) = queue_running w
  /\ stop_queue_requested (deliver w s) = stop_queue_requested w
  /\ statuses (deliver w s) = statuses w.
Proof.
  intros Hs HI. destruct s as [percent message|message|success message];
    [| |discriminate]; cbn [deliver].
  - split; [now apply step_progress|]. unfold on_progress.
    destruct (int_of_float percent); [|repeat split].
    destruct (current_row w) eqn:Hi; cbn -[alter]; repeat split;
      try exact Hi.
    unfold statuses. cbn -[alter]. now apply statuses_alter_same.
  - split; [|repeat split].
    eapply Inv_frame; [..|exact HI]; reflexivity.
Qed.

Lemma deliver_reports (sigs : list signal) (w : MainWindow) :
  no_finished sigs = true -> Inv (w, false) ->
  Inv (fold_left deliver sigs w, false)
  /\ worker (fold_left deliver sigs w) = worker w
  /\ current_row (fold_left deliver sigs w) = current_row w
  /\ queue_running (fold_left deliver sigs w) = queue_running w
  /\ stop_queue_requested (fold_left deliver sigs w) = stop_queue_requested w
  /\ statuses (fold_left deliver sigs w) = statuses w.
Proof.
  revert w. induction sigs as [|s sigs IH]; intros w Hn HI; cbn [fold_left].
  - split; [exact HI | repeat split].
  - cbn [no_finished forallb] in Hn. apply andb_prop in Hn as [Hs Hn].
    apply negb_true_iff in Hs.
    destruct (deliver_report w s Hs HI) as (HI1 & E1 & E2 & E3 & E4 & E5).
    destruct (IH _ Hn HI1) as (HI2 & F1 & F2 & F3 & F4 & F5).
    split; [exact HI2|]. repeat split; congruence.
Qed.

(** The item of a cancelled worker is the last one.  When the worker of the
    active row has been told to cancel, then, whatever the world does to its
    run, delivering its signals and ending its thread stops the queue: the
    queue is not running, has no worker and no active row, the status is
    Queue stopped and the bar is at 0; the row that was active is Canceled,
    or Failed after an error whose text does not mention a cancellation,
    and every other row has the status it had, so no Queued row has been
    started. *)
Theorem cancelled_item_stops_queue (folder : string) (events : list event)
  (w : MainWindow) (d : DownloadWorker) (world : World) :
  fold_left step events (fresh_window folder, false) = (w, false) ->
  worker w = Some d ->
  _cancelled d = true ->
  queue_running (run_active world w) = false
  /\ worker (run_active world w) = None
  /\ current_row (run_active world w) = None
  /\ stop_queue_requested (run_active world w) = false
  /\ status_label (run_active world w) = ("Queue stopped.", "warning")
  /\ progress_bar (run_active world w) = 0%Z
  /\ exists i s,
       current_row w = Some i
       /\ (s = "Canceled" \/ s = "Failed")
       /\ statuses (run_active world w) = <[i := Some s]> (statuses w).
Proof.
  intros E Hd Hc. pose proof (after_inv events folder) as HI.
  rewrite E in HI.
  pose proof (Inv_worker _ _ _ HI Hd)
    as (Hrun & d' & i & r & Hd' & Hi & Hr & _ & _ & Hstop & _).
  assert (d' = d) as -> by congruence. specialize (Hstop Hc).
  unfold run_active. rewrite Hd, run_unfold, Hc. cbn [orb].
  pose proof (silent_run_body d world true) as Hq.
  destruct (cancelled_quiet_run_body d world) as [_ Hflag].
  destruct (run_body d world true) as [[sigs c] res]. cbn [fst snd] in *.
  subst c. rewrite fold_left_app. cbn [fold_left].
  destruct (deliver_reports sigs w Hq HI) as (HI1 & F1 & F2 & F3 & F4 & F5).
  set (w1 := fold_left deliver sigs w) in *.
  assert (Hfin : exists m, final_signal true res = Finished false m).
  { destruct res as [u|e]; cbn; [eauto|].
    destruct (is_DownloadError e); eauto. }
  destruct Hfin as [m ->]. cbn [deliver].
  rewrite <- F2 in Hi. rewrite Hd in F1.
  destruct (on_item_finished_frame false m w1 i Hi)
    as (_ & Ew & Ec & Er & _ & Es).
  pose proof (on_item_finished_table false m w1 i Hi) as Et.
  assert (Hr1 : exists r1, queue_table w1 !! i = Some r1).
  { apply lookup_lt_is_Some.
    rewrite <- (length_map status_item). fold (statuses w1). rewrite F5.
    unfold statuses. rewrite length_map. eapply lookup_lt_Some; eauto. }
  destruct Hr1 as [r1 Hr1]. rewrite Hr1 in Et. cbn [default] in Et.
  set (w2 := on_item_finished false m w1) in *.
  unfold on_thread_finished. cbn [queue_running set_current_row set_worker].
  rewrite Er, F3, Hrun, start_next_item_eq.
  cbn [stop_queue_requested set_current_row set_worker].
  rewrite Es by congruence.
  rewrite finish_queue_statuses. cbn.
  repeat split.
  exists i, (fst (finished_cells false m r1)).
  split; [congruence|]. split.
  { unfold finished_cells. destruct (contains "cancel" (lower m)); auto. }
  change (statuses (set_current_row None (set_worker None w2)))
    with (statuses w2).
  unfold statuses at 1. rewrite Et, (statuses_alter _ _ _ r1 Hr1).
  fold (statuses w1). now rewrite F5.
Qed.

Lemma cancelled_item_stops_queue_witness :
  queue_running
    (run_active world_unavailable
       (after [UEnqueue two_urls; UStart; UCancel] (fresh_window "/tmp/out")))
  = false
  /\ statuses
       (run_active world_unavailable
          (after [UEnqueue two_urls; UStart; UCancel]
                 (fresh_window "/tmp/out")))
     = [Some "Canceled"; Some "Queued"].
Proof.
  destruct (cancelled_item_stops_queue "/tmp/out"
              [UEnqueue two_urls; UStart; UCancel]
              (after [UEnqueue two_urls; UStart; UCancel]
                     (fresh_window "/tmp/out"))
              {| url := "https://x.test/a"; output_dir := "/tmp/out";
                 cookie_file := ""; quality_preset := "Best (Video + Audio)";
                 _cancelled := true |}
              world_unavailable eq_refl eq_refl eq_refl)
    as (H1 & _).
  split; [exact H1 | reflexivity].
Defined.

End CancelFacts.
